(** * Shop-AI: the agent orchestration loop and its retrieval tool layer

    A shallow embedding of [backend/pinecone_service.py],
    [backend/groq_service.py] and [backend/agent_service.py].

    Conventions of the embedding.
    - A Python [float] is an exact rational ([Q]); [round(x, 4)] is
      round-half-to-even on [x * 10000].
    - An [Exception] is represented by its text [str(e)]; a computation
      that can raise returns a [result].
    - The external collaborators (sentence embedding, vector index,
      chat-completion provider, JSON and pydantic library calls, uuid and
      clock) are the fields of a record [Env]; every theorem holds for all
      of them.
    - The database session, and the ghost logs of the calls made to the
      collaborators, are threaded through the state monad [M]. *)

From Stdlib Require Import ZArith QArith Qround Lqa String Ascii List Bool.
From Stdlib Require Import Sorted Lia DecimalString.
From stdpp Require Import base option strings gmap.

Import ListNotations.
Local Open Scope string_scope.
Local Open Scope list_scope.
Local Open Scope Z_scope.

(** ** Python values, as JSON delivers them *)

#[warnings="-register-all"]
Inductive pyval : Type :=
| VNone
| VBool (b : bool)
| VInt (n : Z)
| VFloat (q : Q)
| VStr (s : string)
| VList (l : list pyval)
| VDict (d : list (string * pyval)).

(** [str(e)] of the exception that was raised. *)
Definition exn : Type := string.

Inductive result (A : Type) : Type :=
| Ok (a : A)
| Raise (e : exn).
Arguments Ok {A} a.
Arguments Raise {A} e.

(** Python truthiness, [bool(v)]. *)
Definition truthy (v : pyval) : bool :=
  match v with
  | VNone => false
  | VBool b => b
  | VInt n => negb (n =? 0)
  | VFloat q => negb (Qeq_bool q 0)
  | VStr s => negb (String.eqb s EmptyString)
  | VList l => match l with [] => false | _ => true end
  | VDict d => match d with [] => false | _ => true end
  end.

(** [type(v).__name__], as it appears in the text of a [TypeError]. *)
Definition type_name (v : pyval) : string :=
  match v with
  | VNone => "NoneType"
  | VBool _ => "bool"
  | VInt _ => "int"
  | VFloat _ => "float"
  | VStr _ => "str"
  | VList _ => "list"
  | VDict _ => "dict"
  end.

(** The numeric value of an [int], [bool] or [float]. *)
Definition num_of (v : pyval) : option Q :=
  match v with
  | VInt n => Some (inject_Z n)
  | VBool b => Some (inject_Z (Z.b2z b))
  | VFloat q => Some q
  | _ => None
  end.

(** [min(v, 10)]: Python keeps the first argument unless [10 < v]; the
    comparison raises [TypeError] when [v] is not a number. *)
Definition py_min10 (v : pyval) : result pyval :=
  match num_of v with
  | Some q => if Qlt_le_dec 10 q then Ok (VInt 10) else Ok v
  | None =>
      Raise ("'<' not supported between instances of 'int' and '"
               +:+ type_name v +:+ "'")
  end.

Definition dquote : string := String (ascii_of_nat 34) EmptyString.

(** [v + 1]. *)
Definition py_add1 (v : pyval) : result pyval :=
  match v with
  | VInt n => Ok (VInt (n + 1))
  | VBool b => Ok (VInt (Z.b2z b + 1))
  | VFloat q => Ok (VFloat (q + 1))
  | VStr _ =>
      Raise ("can only concatenate str (not " +:+ dquote +:+ "int"
               +:+ dquote +:+ ") to str")
  | VList _ =>
      Raise ("can only concatenate list (not " +:+ dquote +:+ "int"
               +:+ dquote +:+ ") to list")
  | _ =>
      Raise ("unsupported operand type(s) for +: '" +:+ type_name v
               +:+ "' and 'int'")
  end.

(** ** Rounding to four decimal places *)

(** Round half to even, the rounding of Python's [round]. *)
Definition round_half_even (x : Q) : Z :=
  let f := Qfloor x in
  match (x - inject_Z f ?= 1 # 2)%Q with
  | Lt => f
  | Gt => f + 1
  | Eq => if Z.even f then f else f + 1
  end.

(** [round(x, 4)]. *)
Definition round4 (x : Q) : Q := Qmake (round_half_even (x * 10000)) 10000.

(** [l[:v]]: a negative integer counts from the end, [None] keeps the
    whole list, anything without [__index__] raises [TypeError]. *)
Definition py_slice_to {A} (l : list A) (v : pyval) : result (list A) :=
  let upto (n : Z) :=
    if n <? 0 then firstn (Z.to_nat (Z.of_nat (length l) + n)) l
    else firstn (Z.to_nat n) l in
  match v with
  | VInt n => Ok (upto n)
  | VBool b => Ok (upto (Z.b2z b))
  | VNone => Ok l
  | _ =>
      Raise "slice indices must be integers or None or have an __index__ method"
  end.

(** An optional integer used as a condition: [Some n] when it is truthy
    (present and not zero). *)
Definition truthy_int (o : option Z) : option Z :=
  match o with
  | Some n => if n =? 0 then None else Some n
  | None => None
  end.

(** [n != v] for an integer [n]: numbers compare by value, every other
    value is different from an integer. *)
Definition py_int_ne (n : Z) (v : pyval) : bool :=
  match num_of v with
  | Some q => negb (Qeq_bool (inject_Z n) q)
  | None => true
  end.

(** ** The data model (models.py, schemas.py) *)

(** A row of [products]. *)
Record Product := {
  p_id : Z;
  p_name : string;
  p_description : option string;
  p_price : Q;
  p_category : string;
  p_brand : option string;
  p_image_url : option string;
  p_stock_quantity : Z;
  p_is_active : bool;
  p_created_at : Z
}.

(** [schemas.ProductResponse]; [pr_created_at] is a [datetime]. *)
Record ProductResponse := {
  pr_id : Z;
  pr_name : string;
  pr_description : option string;
  pr_price : Q;
  pr_category : string;
  pr_brand : option string;
  pr_image_url : option string;
  pr_stock_quantity : Z;
  pr_is_active : bool;
  pr_created_at : Z
}.

(** [ProductResponse.model_validate(product)]. *)
Definition ProductResponse_model_validate (p : Product) : ProductResponse :=
  {| pr_id := p_id p; pr_name := p_name p;
     pr_description := p_description p; pr_price := p_price p;
     pr_category := p_category p; pr_brand := p_brand p;
     pr_image_url := p_image_url p;
     pr_stock_quantity := p_stock_quantity p;
     pr_is_active := p_is_active p; pr_created_at := p_created_at p |}.

(** A row of [orders]; [created_at] is filled by its column default. *)
Record Order := {
  o_id : Z;
  o_user_id : Z;
  o_total_amount : Q;
  o_status : string;
  o_shipping_address : string;
  o_created_at : Z
}.

(** A row of [conversation_sessions]. *)
Record ConversationSession := {
  cs_id : string;
  cs_user_id : option Z;
  cs_is_active : bool
}.

(** [pinecone_service.SearchResult]. *)
Record SearchResult := {
  sr_product : ProductResponse;
  sr_similarity : Q
}.

(** The constructor of [SearchResult] validates
    [similarity: float = Field(..., ge=0, le=1)]. *)
Definition SearchResult_new (p : ProductResponse) (similarity : Q)
  : result SearchResult :=
  if Qle_bool 0 similarity && Qle_bool similarity 1
  then Ok {| sr_product := p; sr_similarity := similarity |}
  else Raise "1 validation error for SearchResult".

(** One element of [results.matches]; vectors are upserted under
    [str(product.id)], so [int(match.id)] is kept as the integer. *)
Record Match := {
  m_id : Z;
  m_score : Q
}.

(** The metadata filter of [_build_filter]: the [$eq] on category and the
    [$gte] / [$lte] on price. *)
Record Filter := {
  f_category_eq : option pyval;
  f_price_gte : option pyval;
  f_price_lte : option pyval
}.

(** The keyword arguments of [index.query]. *)
Record QueryParams := {
  qp_vector : list Q;
  qp_top_k : pyval;
  qp_filter : option Filter
}.

(** ** Classification and tool envelopes (schemas.py) *)

Inductive Intent :=
| PRODUCT_SEARCH | PRODUCT_RECOMMENDATION | PRODUCT_DETAILS
| ORDER_HELP | ORDER_STATUS | GENERAL_QUESTION
| GREETING | FAREWELL | COMPLAINT | UNKNOWN.

Definition Intent_value (i : Intent) : string :=
  match i with
  | PRODUCT_SEARCH => "product_search"
  | PRODUCT_RECOMMENDATION => "product_recommendation"
  | PRODUCT_DETAILS => "product_details"
  | ORDER_HELP => "order_help"
  | ORDER_STATUS => "order_status"
  | GENERAL_QUESTION => "general_question"
  | GREETING => "greeting"
  | FAREWELL => "farewell"
  | COMPLAINT => "complaint"
  | UNKNOWN => "unknown"
  end.

Definition all_intents : list Intent :=
  [PRODUCT_SEARCH; PRODUCT_RECOMMENDATION; PRODUCT_DETAILS; ORDER_HELP;
   ORDER_STATUS; GENERAL_QUESTION; GREETING; FAREWELL; COMPLAINT; UNKNOWN].

(** [Intent(s)]: [None] stands for the [ValueError]. *)
Definition Intent_of_value (s : string) : option Intent :=
  List.find (fun i => String.eqb (Intent_value i) s) all_intents.

Record ExtractedEntities := {
  product_names : option (list string);
  categories : option (list string);
  brands : option (list string);
  price_min : option Q;
  price_max : option Q;
  order_id : option Z;
  quantity : option Z;
  attributes : option (list (string * pyval))
}.

(** [ExtractedEntities()]: every field absent. *)
Definition ExtractedEntities_empty : ExtractedEntities :=
  {| product_names := None; categories := None; brands := None;
     price_min := None; price_max := None; order_id := None;
     quantity := None; attributes := None |}.

Record IntentClassificationResult := {
  icr_intent : Intent;
  icr_confidence : Q;
  icr_entities : ExtractedEntities;
  icr_requires_clarification : bool;
  icr_clarification_question : option string
}.

(** The [result] payload of a tool. *)
Record OrderInfo := {
  oi_order_id : Z;
  oi_status : string;
  oi_total_amount : Q;
  oi_created_at : string;
  oi_shipping_address : option string
}.

Inductive payload :=
| PNone
| PProducts (l : list (ProductResponse * Q))
| PProduct (p : ProductResponse)
| POrder (o : OrderInfo)
| POrders (l : list OrderInfo).

Record ToolResult := {
  tr_call_id : string;
  tr_tool_name : string;
  tr_result : payload;
  tr_success : bool;
  tr_error_message : option string
}.

(** A row of [conversation_messages]; the three JSON columns hold the
    value that [json.dumps] serialised. *)
Record ConversationMessage := {
  msg_id : Z;
  msg_session_id : string;
  msg_role : string;
  msg_content : string;
  msg_intent : option string;
  msg_entities : option ExtractedEntities;
  msg_tool_calls : option (list string);
  msg_tool_results : option (list ToolResult);
  msg_created_at : Z
}.

(** ** The chat-completion interface (groq_service.py) *)

(** A request to [client.chat.completions.create]: the messages as
    (role, content) pairs, whether [tools] are offered, and whether the
    JSON response format is requested. *)
Record ChatRequest := {
  cr_messages : list (string * string);
  cr_tools : bool;
  cr_json_mode : bool
}.

(** [tool_call.id], [tool_call.function.name],
    [tool_call.function.arguments]. *)
Record RawToolCall := {
  rtc_id : string;
  rtc_name : string;
  rtc_arguments : string
}.

(** [choice.message]. *)
Record ChoiceMessage := {
  cm_content : option string;
  cm_tool_calls : option (list RawToolCall)
}.

Record ChatCompletion := {
  choices : list ChoiceMessage
}.

Record ToolCallRequest := {
  tcr_call_id : string;
  tcr_tool_name : string;
  tcr_arguments : gmap string pyval
}.

Record LLMResponse := {
  content : string;
  tool_calls : option (list ToolCallRequest)
}.

(** A value stored in one of the dictionaries that the orchestrator
    hands to [generate_response]. *)
Inductive dval :=
| DStr (s : string)
| DPayload (p : payload).

(** ** The external collaborators *)

Record Env := {
  (** the text of the system prompt written inside [classify_intent] *)
  intent_system_prompt : string;
  (** the text of [ShopAgent.SYSTEM_PROMPT] *)
  SYSTEM_PROMPT : string;
  (** [settings.search_min_score] *)
  default_min_score : Q;
  (** [SentenceTransformer.encode(query).tolist()] *)
  encode : pyval -> result (list Q);
  (** [index.query(...).matches] for the given keyword arguments *)
  index_query : QueryParams -> result (list Match);
  (** the text of a float inside an f-string *)
  format_float : Q -> string;
  (** how the database driver compares a bound parameter that is a
      string, list or dict with an integer key column: an error, no row,
      or the key it is equal to *)
  db_bind_other : pyval -> result (option Z);
  (** [client.chat.completions.create]; the first argument is the number
      of requests made before this one *)
  chat_completions_create : nat -> ChatRequest -> result ChatCompletion;
  (** [json.loads] *)
  json_loads : string -> result pyval;
  (** [json.dumps(accumulated_results, default=str)] *)
  json_dumps_accumulated : list (gmap string dval) -> string;
  (** [json.dumps(v, indent=2, default=str)] *)
  json_dumps_indent : dval -> string;
  (** [str(p)] of a payload inside an f-string *)
  str_of_payload : payload -> string;
  (** [ExtractedEntities.model_validate] *)
  validate_entities : pyval -> result ExtractedEntities;
  (** pydantic's validation of a [bool] field *)
  validate_bool : pyval -> result bool;
  (** [float(s)] of a string *)
  float_of_string : string -> result Q;
  (** [datetime.isoformat()] *)
  isoformat : Z -> string;
  (** [str(uuid.uuid4())]; the argument is the number of earlier draws *)
  uuid4 : nat -> string;
  (** [datetime.utcnow()]; the argument is the number of earlier reads *)
  utcnow : nat -> Z
}.

(** The default of [Settings.search_min_score]. *)
Definition search_min_score_default : Q := 3 # 10.

(** ** The world: database tables and the logs of outgoing calls *)

Record World := {
  products : list Product;
  orders : list Order;
  sessions : list ConversationSession;
  messages : list ConversationMessage;
  (** ghost: every [index.query] issued, latest first *)
  index_log : list QueryParams;
  (** ghost: every [execute_tool] entered, latest first *)
  tool_log : list (string * gmap string pyval);
  (** ghost: every chat completion requested, latest first *)
  llm_log : list ChatRequest;
  uuid_draws : nat;
  clock_reads : nat
}.

(** ** State and exceptions *)

Definition M (A : Type) : Type := World -> result A * World.

Definition ret {A} (a : A) : M A := fun w => (Ok a, w).

Definition bind {A B} (m : M A) (k : A -> M B) : M B :=
  fun w =>
    match m w with
    | (Ok a, w') => k a w'
    | (Raise e, w') => (Raise e, w')
    end.

Definition raise {A} (e : exn) : M A := fun w => (Raise e, w).

Definition lift {A} (r : result A) : M A := fun w => (r, w).

(** [try: m  except Exception as e: h(e)] — the effects of [m] up to the
    exception are kept. *)
Definition try_except {A} (m : M A) (h : exn -> M A) : M A :=
  fun w =>
    match m w with
    | (Ok a, w') => (Ok a, w')
    | (Raise e, w') => h e w'
    end.

Notation "'let*' x ':=' m 'in' k" := (bind m (fun x => k))
  (at level 10, x pattern, m at level 100, k at level 200).

Definition result_bind {A B} (r : result A) (k : A -> result B) : result B :=
  match r with
  | Ok a => k a
  | Raise e => Raise e
  end.

Notation "'let+' x ':=' r 'in' k" := (result_bind r (fun x => k))
  (at level 10, x pattern, r at level 100, k at level 200).

(** ** Database reads *)

(** [db.query(Product).filter(Product.id == id).first()] *)
Definition get_product (w : World) (id : Z) : option Product :=
  List.find (fun p => p_id p =? id) (products w).

(** [db.query(Order).filter(Order.id == id).first()] *)
Definition get_order (w : World) (id : Z) : option Order :=
  List.find (fun o => o_id o =? id) (orders w).

(** ** PineconeService (pinecone_service.py) *)

(** [" ".join(filter(None, parts))] *)
Definition join_nonempty (parts : list string) : string :=
  String.concat " "
    (List.filter (fun s => negb (String.eqb s EmptyString)) parts).

Definition _build_filter (category_filter min_price max_price : pyval)
  : option Filter :=
  let cat := if truthy category_filter then Some category_filter else None in
  let is_none v := match v with VNone => true | _ => false end in
  let price :=
    if negb (is_none min_price) && negb (is_none max_price)
    then Some (Some min_price, Some max_price)
    else if negb (is_none min_price) then Some (Some min_price, None)
    else if negb (is_none max_price) then Some (None, Some max_price)
    else None in
  match cat, price with
  | None, None => None
  | _, Some (gte, lte) =>
      Some {| f_category_eq := cat; f_price_gte := gte; f_price_lte := lte |}
  | _, None =>
      Some {| f_category_eq := cat; f_price_gte := None; f_price_lte := None |}
  end.

(** The loop over [results.matches]: a match below [min_score], without
    a catalog row, or with an inactive row is skipped; the constructor of
    [SearchResult] may raise. *)
Fixpoint search_loop (w : World) (min_score : Q) (matches : list Match)
  : result (list SearchResult) :=
  match matches with
  | [] => Ok []
  | m :: rest =>
      if Qle_bool min_score (m_score m) then
        match get_product w (m_id m) with
        | Some product =>
            if p_is_active product then
              let+ r := SearchResult_new
                          (ProductResponse_model_validate product)
                          (round4 (m_score m)) in
              let+ rs := search_loop w min_score rest in
              Ok (r :: rs)
            else search_loop w min_score rest
        | None => search_loop w min_score rest
        end
      else search_loop w min_score rest
  end.

Section Services.

Context (env : Env).

(** The integer key that a value bound into [Column == value] can match. *)
Definition sql_key (v : pyval) : result (option Z) :=
  match v with
  | VInt n => Ok (Some n)
  | VBool b => Ok (Some (Z.b2z b))
  | VNone => Ok None
  | VFloat q =>
      Ok (if (Zpos (Qden (Qred q)) =? 1) then Some (Qnum (Qred q)) else None)
  | _ => db_bind_other env v
  end.

Definition _product_to_text (product : Product) : string :=
  join_nonempty
    [p_name product;
     default EmptyString (p_description product);
     p_category product;
     default EmptyString (p_brand product);
     "price $" +:+ format_float env (p_price product)].

(** [self.index.query(...)], logged. *)
Definition query_index (query_params : QueryParams) : M (list Match) :=
  fun w =>
    (index_query env query_params,
     {| products := products w; orders := orders w; sessions := sessions w;
        messages := messages w;
        index_log := query_params :: index_log w;
        tool_log := tool_log w; llm_log := llm_log w;
        uuid_draws := uuid_draws w; clock_reads := clock_reads w |}).

Definition search (query top_k category_filter min_price max_price : pyval)
    (min_score : option Q) : M (list SearchResult) :=
  let min_score := default (default_min_score env) min_score in
  let* query_embedding := lift (encode env query) in
  let filter_dict := _build_filter category_filter min_price max_price in
  let query_params :=
    {| qp_vector := query_embedding; qp_top_k := top_k;
       qp_filter := filter_dict |} in
  let* matches := query_index query_params in
  fun w => (search_loop w min_score matches, w).

Definition find_similar_products (product_id top_k : pyval)
  : M (list SearchResult) :=
  let* key := lift (sql_key product_id) in
  fun w =>
    match key ≫= get_product w with
    | None => ret [] w
    | Some product =>
        (let text := _product_to_text product in
         let* top_k1 := lift (py_add1 top_k) in
         let* results :=
           search (VStr text) top_k1 VNone VNone VNone (Some (2 # 10)) in
         lift (py_slice_to
                 (List.filter
                    (fun r => py_int_ne (pr_id (sr_product r)) product_id)
                    results)
                 top_k)) w
    end.


(** ** GroqLLMService (groq_service.py) *)

(** [l[-n:]] *)
Definition last_n {A} (n : nat) (l : list A) : list A :=
  skipn (length l - n) l.

(** [d.get(k)] on a dictionary value. *)
Definition dict_get (d : list (string * pyval)) (k : string) : option pyval :=
  (list_to_map d : gmap string pyval) !! k.

(** [l[0]] *)
Definition first_choice (c : ChatCompletion) : result ChoiceMessage :=
  match choices c with
  | m :: _ => Ok m
  | [] => Raise "list index out of range"
  end.

(** [client.chat.completions.create(...)], logged. *)
Definition chat (req : ChatRequest) : M ChatCompletion :=
  fun w =>
    (chat_completions_create env (length (llm_log w)) req,
     {| products := products w; orders := orders w; sessions := sessions w;
        messages := messages w; index_log := index_log w;
        tool_log := tool_log w; llm_log := req :: llm_log w;
        uuid_draws := uuid_draws w; clock_reads := clock_reads w |}).

Definition _build_messages (system_prompt user_message : string)
    (conversation_history : list (string * string))
    (tool_context : option string) : list (string * string) :=
  [("system", system_prompt)]
  ++ last_n 10 conversation_history
  ++ match tool_context with
     | Some c => if String.eqb c EmptyString then [] else [("system", c)]
     | None => []
     end
  ++ [("user", user_message)].

(** [float(v)] *)
Definition py_float (v : pyval) : result Q :=
  match v with
  | VFloat q => Ok q
  | VInt n => Ok (inject_Z n)
  | VBool b => Ok (inject_Z (Z.b2z b))
  | VStr s => float_of_string env s
  | _ =>
      Raise ("float() argument must be a string or a real number, not '"
               +:+ type_name v +:+ "'")
  end.

(** pydantic's validation of an [Optional[str]] field. *)
Definition validate_optional_str (v : pyval) : result (option string) :=
  match v with
  | VNone => Ok None
  | VStr s => Ok (Some s)
  | _ => Raise "1 validation error for IntentClassificationResult"
  end.

(** The body of the [try] of [classify_intent], after the completion has
    come back. *)
Definition parse_classification (response : ChatCompletion)
  : result IntentClassificationResult :=
  let+ choice := first_choice response in
  let+ text :=
    match cm_content choice with
    | Some s => Ok s
    | None =>
        Raise "the JSON object must be str, bytes or bytearray, not NoneType"
    end in
  let+ parsed := json_loads env text in
  let+ result :=
    match parsed with
    | VDict d => Ok d
    | v => Raise ("'" +:+ type_name v +:+ "' object has no attribute 'get'")
    end in
  let intent :=
    match default (VStr "unknown") (dict_get result "intent") with
    | VStr s => default UNKNOWN (Intent_of_value s)
    | _ => UNKNOWN
    end in
  let+ entities :=
    validate_entities env (default (VDict []) (dict_get result "entities")) in
  let+ confidence :=
    py_float (default (VFloat (5 # 10)) (dict_get result "confidence")) in
  let+ requires_clarification :=
    validate_bool env
      (default (VBool false) (dict_get result "requires_clarification")) in
  let+ clarification_question :=
    validate_optional_str
      (default VNone (dict_get result "clarification_question")) in
  Ok {| icr_intent := intent; icr_confidence := confidence;
        icr_entities := entities;
        icr_requires_clarification := requires_clarification;
        icr_clarification_question := clarification_question |}.

(** The result built in the [except] branch of [classify_intent]. *)
Definition classification_fallback : IntentClassificationResult :=
  {| icr_intent := UNKNOWN; icr_confidence := 0;
     icr_entities := ExtractedEntities_empty;
     icr_requires_clarification := true;
     icr_clarification_question :=
       Some "I'm not sure I understood that. Could you please rephrase?" |}.

Definition classify_intent (message : string)
    (conversation_history : list (string * string))
  : M IntentClassificationResult :=
  let messages :=
    [("system", intent_system_prompt env)]
    ++ last_n 5 conversation_history
    ++ [("user", "Classify this message: " +:+ message)] in
  try_except
    (let* response :=
       chat {| cr_messages := messages; cr_tools := false;
               cr_json_mode := true |} in
     lift (parse_classification response))
    (fun _ => ret classification_fallback).

Definition nl : string := String (ascii_of_nat 10) EmptyString.

(** [d[k]], raising [KeyError]. *)
Definition getitem (d : gmap string dval) (k : string) : result dval :=
  match d !! k with
  | Some v => Ok v
  | None => Raise ("'" +:+ k +:+ "'")
  end.

(** The value as an f-string prints it. *)
Definition format_dval (v : dval) : string :=
  match v with
  | DStr s => s
  | DPayload p => str_of_payload env p
  end.

(** The loop of [generate_response] that renders the tool results. *)
Fixpoint render_tool_context (tool_context : string)
    (tool_results : list (gmap string dval)) : result string :=
  match tool_results with
  | [] => Ok tool_context
  | result :: rest =>
      let+ name := getitem result "tool_name" in
      let+ res := getitem result "result" in
      render_tool_context
        (tool_context +:+ "**" +:+ format_dval name +:+ "**:" +:+ nl
           +:+ "```json" +:+ nl +:+ json_dumps_indent env res +:+ nl
           +:+ "```" +:+ nl +:+ nl)
        rest
  end.

Definition generation_apology : string :=
  "I apologize, but I encountered an error processing your request."
  +:+ " Please try again.".

(** The returned value is [message.content], which can be [None]. *)
Definition generate_response (message system_prompt : string)
    (conversation_history : list (string * string))
    (tool_results : option (list (gmap string dval))) : M (option string) :=
  let* tool_context :=
    match tool_results with
    | Some (r :: rs) =>
        let* c :=
          lift (render_tool_context
                  ("Here are the results from the tools I used to help "
                     +:+ "answer your question:" +:+ nl +:+ nl)
                  (r :: rs)) in
        ret (Some c)
    | _ => ret None
    end in
  let messages :=
    _build_messages system_prompt message conversation_history tool_context in
  try_except
    (let* response :=
       chat {| cr_messages := messages; cr_tools := false;
               cr_json_mode := false |} in
     let* choice := lift (first_choice response) in
     ret (cm_content choice))
    (fun _ => ret (Some generation_apology)).

(** [ToolCallRequest(call_id=..., tool_name=..., arguments=json.loads(...))]:
    the arguments must be a dictionary. *)
Definition ToolCallRequest_new (tc : RawToolCall) : result ToolCallRequest :=
  let+ parsed := json_loads env (rtc_arguments tc) in
  match parsed with
  | VDict d =>
      Ok {| tcr_call_id := rtc_id tc; tcr_tool_name := rtc_name tc;
            tcr_arguments := list_to_map d |}
  | _ => Raise "1 validation error for ToolCallRequest"
  end.

Fixpoint parse_tool_calls (tcs : list RawToolCall)
  : result (list ToolCallRequest) :=
  match tcs with
  | [] => Ok []
  | tc :: rest =>
      let+ r := ToolCallRequest_new tc in
      let+ rs := parse_tool_calls rest in
      Ok (r :: rs)
  end.

Definition call_with_tools (message system_prompt : string)
    (conversation_history : list (string * string)) : M LLMResponse :=
  let messages :=
    _build_messages system_prompt message conversation_history None in
  try_except
    (let* response :=
       chat {| cr_messages := messages; cr_tools := true;
               cr_json_mode := false |} in
     let* response_message := lift (first_choice response) in
     match cm_tool_calls response_message with
     | Some (tc :: tcs) =>
         let* tool_calls := lift (parse_tool_calls (tc :: tcs)) in
         ret {| content := EmptyString; tool_calls := Some tool_calls |}
     | _ =>
         ret {| content := default EmptyString (cm_content response_message);
                tool_calls := None |}
     end)
    (fun e =>
       ret {| content := "I encountered an error: " +:+ e;
              tool_calls := None |}).

(** ** ShopAgent (agent_service.py) *)

(** [str(uuid.uuid4())] *)
Definition draw_uuid : M string :=
  fun w =>
    (Ok (uuid4 env (uuid_draws w)),
     {| products := products w; orders := orders w; sessions := sessions w;
        messages := messages w; index_log := index_log w;
        tool_log := tool_log w; llm_log := llm_log w;
        uuid_draws := S (uuid_draws w); clock_reads := clock_reads w |}).

Definition log_tool (tool_name : string) (arguments : gmap string pyval)
  : M unit :=
  fun w =>
    (Ok tt,
     {| products := products w; orders := orders w; sessions := sessions w;
        messages := messages w; index_log := index_log w;
        tool_log := (tool_name, arguments) :: tool_log w;
        llm_log := llm_log w;
        uuid_draws := uuid_draws w; clock_reads := clock_reads w |}).

Definition _search_result_to_dict (r : SearchResult) : ProductResponse * Q :=
  (sr_product r, sr_similarity r).

(** [arguments.get(k)] *)
Definition arg (arguments : gmap string pyval) (k : string) : pyval :=
  default VNone (arguments !! k).

(** [arguments[k]] *)
Definition arg_item (arguments : gmap string pyval) (k : string)
  : result pyval :=
  match arguments !! k with
  | Some v => Ok v
  | None => Raise ("'" +:+ k +:+ "'")
  end.

Definition order_info (o : Order) : OrderInfo :=
  {| oi_order_id := o_id o; oi_status := o_status o;
     oi_total_amount := o_total_amount o;
     oi_created_at := isoformat env (o_created_at o);
     oi_shipping_address := Some (o_shipping_address o) |}.

Definition order_summary (o : Order) : OrderInfo :=
  {| oi_order_id := o_id o; oi_status := o_status o;
     oi_total_amount := o_total_amount o;
     oi_created_at := isoformat env (o_created_at o);
     oi_shipping_address := None |}.

(** The body of the [try] of [execute_tool]. *)
Definition execute_tool_body (call_id tool_name : string)
    (arguments : gmap string pyval) (user_id : option Z) : M ToolResult :=
  let success r :=
    {| tr_call_id := call_id; tr_tool_name := tool_name; tr_result := r;
       tr_success := true; tr_error_message := None |} in
  let failure msg :=
    {| tr_call_id := call_id; tr_tool_name := tool_name; tr_result := PNone;
       tr_success := false; tr_error_message := Some msg |} in
  if String.eqb tool_name "search_products" then
    let query := default (VStr EmptyString) (arguments !! "query") in
    let* top_k := lift (py_min10 (default (VInt 5) (arguments !! "limit"))) in
    let* results :=
      search query top_k (arg arguments "category")
        (arg arguments "min_price") (arg arguments "max_price") None in
    ret (success (PProducts (map _search_result_to_dict results)))
  else if String.eqb tool_name "get_product_details" then
    let* product :=
      if truthy (arg arguments "product_id") then
        let* v := lift (arg_item arguments "product_id") in
        let* key := lift (sql_key v) in
        fun w =>
          (Ok (key ≫= fun id =>
                 List.find (fun p => (p_id p =? id) && p_is_active p)
                   (products w)), w)
      else if truthy (arg arguments "product_name") then
        let* v := lift (arg_item arguments "product_name") in
        let* results := search v (VInt 1) VNone VNone VNone None in
        match results with
        | r :: _ => fun w => (Ok (get_product w (pr_id (sr_product r))), w)
        | [] => ret None
        end
      else ret None in
    match product with
    | Some p => ret (success (PProduct (ProductResponse_model_validate p)))
    | None => ret (failure "Product not found")
    end
  else if String.eqb tool_name "get_recommendations" then
    let* results :=
      if truthy (arg arguments "product_id") then
        let* v := lift (arg_item arguments "product_id") in
        find_similar_products v (default (VInt 5) (arguments !! "limit"))
      else if truthy (arg arguments "preferences")
              || truthy (arg arguments "category") then
        let query :=
          default (default (VStr EmptyString) (arguments !! "category"))
            (arguments !! "preferences") in
        search query (default (VInt 5) (arguments !! "limit"))
          (arg arguments "category") VNone VNone None
      else
        fun w =>
          (let products :=
             firstn 5 (List.filter p_is_active (products w)) in
           let+ rs :=
             List.fold_right
               (fun p acc =>
                  let+ r := SearchResult_new
                              (ProductResponse_model_validate p) 1 in
                  let+ rest := acc in
                  Ok (r :: rest))
               (Ok []) products in
           Ok rs, w) in
    ret (success (PProducts (map _search_result_to_dict results)))
  else if String.eqb tool_name "check_order_status" then
    let* v := lift (arg_item arguments "order_id") in
    let* key := lift (sql_key v) in
    fun w =>
      match key ≫= get_order w with
      | Some order => ret (success (POrder (order_info order))) w
      | None => ret (failure "Order not found") w
      end
  else if String.eqb tool_name "get_user_orders" then
    match truthy_int user_id with
    | None => ret (failure "Please log in to view your orders")
    | Some uid =>
        fun w =>
          (Ok (success
                 (POrders
                    (map order_summary
                       (List.filter (fun o => o_user_id o =? uid)
                          (orders w))))), w)
    end
  else ret (failure ("Unknown tool: " +:+ tool_name)).

Definition execute_tool (tool_name : string) (arguments : gmap string pyval)
    (user_id : option Z) : M ToolResult :=
  let* uuid := draw_uuid in
  let call_id := substring 0 8 uuid in
  let* _ := log_tool tool_name arguments in
  try_except
    (execute_tool_body call_id tool_name arguments user_id)
    (fun e =>
       ret {| tr_call_id := call_id; tr_tool_name := tool_name;
              tr_result := PNone; tr_success := false;
              tr_error_message := Some e |}).

(** *** Conversation state *)

Definition _get_or_create_session (session_id : option string)
    (user_id : option Z) : M ConversationSession :=
  fun w =>
    let found :=
      match session_id with
      | Some sid =>
          if String.eqb sid EmptyString then None
          else
            List.find (fun s => String.eqb (cs_id s) sid && cs_is_active s)
              (sessions w)
      | None => None
      end in
    match found with
    | Some session => (Ok session, w)
    | None =>
        (let* id := draw_uuid in
         let session :=
           {| cs_id := id; cs_user_id := user_id; cs_is_active := true |} in
         fun w' =>
           (Ok session,
            {| products := products w'; orders := orders w';
               sessions := sessions w' ++ [session];
               messages := messages w'; index_log := index_log w';
               tool_log := tool_log w'; llm_log := llm_log w';
               uuid_draws := uuid_draws w';
               clock_reads := clock_reads w' |})) w
    end.

(** Whether [json.dumps] (without [default=]) accepts the payload: a
    product dictionary carries [created_at] as a [datetime], which it
    rejects. *)
Definition json_serializable (p : payload) : bool :=
  match p with
  | PProducts (_ :: _) => false
  | PProduct _ => false
  | _ => true
  end.

(** [json.dumps(tool_results)] of [_save_message]. *)
Definition dumps_tool_results (tool_results : list ToolResult)
  : result (list ToolResult) :=
  if forallb (fun r => json_serializable (tr_result r)) tool_results
  then Ok tool_results
  else Raise "Object of type datetime is not JSON serializable".

(** [x if x else None] for a list. *)
Definition nonempty_or_none {A} (l : list A) : option (list A) :=
  match l with [] => None | _ => Some l end.

(** [content] is declared [nullable=False]: the commit of a row without
    content fails. *)
Definition _save_message (session_id role : string) (content : option string)
    (intent : option string) (entities : option ExtractedEntities)
    (tool_calls : option (list string))
    (tool_results : option (list ToolResult)) : M ConversationMessage :=
  let* dumped_results :=
    match tool_results ≫= nonempty_or_none with
    | Some l => let* d := lift (dumps_tool_results l) in ret (Some d)
    | None => ret None
    end in
  match content with
  | None => raise "NOT NULL constraint failed: conversation_messages.content"
  | Some text =>
      fun w =>
        let message :=
          {| msg_id := Z.of_nat (length (messages w)) + 1;
             msg_session_id := session_id; msg_role := role;
             msg_content := text; msg_intent := intent;
             msg_entities := entities;
             msg_tool_calls := tool_calls ≫= nonempty_or_none;
             msg_tool_results := dumped_results;
             msg_created_at := utcnow env (clock_reads w) |} in
        (Ok message,
         {| products := products w; orders := orders w;
            sessions := sessions w;
            messages := messages w ++ [message];
            index_log := index_log w; tool_log := tool_log w;
            llm_log := llm_log w; uuid_draws := uuid_draws w;
            clock_reads := S (clock_reads w) |})
  end.

(** [ORDER BY created_at DESC]; rows with the same timestamp stay in
    table order. *)
Fixpoint insert_desc (m : ConversationMessage) (l : list ConversationMessage)
  : list ConversationMessage :=
  match l with
  | [] => [m]
  | x :: rest =>
      if msg_created_at x <=? msg_created_at m then m :: l
      else x :: insert_desc m rest
  end.

Definition order_by_created_at_desc (l : list ConversationMessage)
  : list ConversationMessage :=
  List.fold_right insert_desc [] l.

Definition _get_conversation_history (session_id : string) (limit : nat)
  : M (list (string * string)) :=
  fun w =>
    let rows :=
      firstn limit
        (order_by_created_at_desc
           (List.filter (fun m => String.eqb (msg_session_id m) session_id)
              (messages w))) in
    (Ok (map (fun m => (msg_role m, msg_content m)) (rev rows)), w).

Definition _get_follow_up_questions (intent : Intent) : option (list string) :=
  match intent with
  | PRODUCT_SEARCH | PRODUCT_RECOMMENDATION =>
      Some ["Would you like me to filter by price range?";
            "Should I show more options?";
            "Want details about any of these products?"]
  | PRODUCT_DETAILS =>
      Some ["Would you like to see similar products?";
            "Any questions about this product?"]
  | _ => None
  end.

Record AgentChatResponse := {
  acr_response : string;
  acr_session_id : string;
  acr_intent : Intent;
  acr_entities : ExtractedEntities;
  acr_suggestions : option (list ProductResponse);
  acr_tool_calls_made : option (list string);
  acr_follow_up_questions : option (list string)
}.

(** *** The turn *)

(** The local variables of [process_message] that the branches update. *)
Record Turn := {
  tool_calls_made : list string;
  tool_results : list ToolResult;
  suggestions : list ProductResponse;
  accumulated_results : list (gmap string dval);
  response : option string
}.

Definition Turn_initial : Turn :=
  {| tool_calls_made := []; tool_results := []; suggestions := [];
     accumulated_results := []; response := Some EmptyString |}.

(** The appends that follow one [execute_tool]. *)
Definition record_tool (t : Turn) (tool_name : string) (result : ToolResult)
  : Turn :=
  {| tool_calls_made := tool_calls_made t ++ [tool_name];
     tool_results := tool_results t ++ [result];
     suggestions := suggestions t;
     accumulated_results :=
       accumulated_results t
       ++ [{[ "tool" := DStr tool_name;
              "result" := DPayload (tr_result result) ]}];
     response := response t |}.

(** The products re-read from the catalog for the first five items of a
    successful list result that carry an ["id"]. *)
Definition suggestions_of (w : World) (result : ToolResult)
  : list ProductResponse :=
  if tr_success result then
    match tr_result result with
    | PProducts items =>
        omap (fun item =>
                ProductResponse_model_validate
                  <$> get_product w (pr_id (fst item)))
          (firstn 5 items)
    | _ => []
    end
  else [].

Definition add_suggestions (t : Turn) (l : list ProductResponse) : Turn :=
  {| tool_calls_made := tool_calls_made t; tool_results := tool_results t;
     suggestions := suggestions t ++ l;
     accumulated_results := accumulated_results t;
     response := response t |}.

Definition set_response (t : Turn) (r : option string) : Turn :=
  {| tool_calls_made := tool_calls_made t; tool_results := tool_results t;
     suggestions := suggestions t;
     accumulated_results := accumulated_results t;
     response := r |}.

(** [for tool_call in llm_response.tool_calls: ...] *)
Fixpoint run_tool_calls (calls : list ToolCallRequest) (user_id : option Z)
    (t : Turn) : M Turn :=
  match calls with
  | [] => ret t
  | tool_call :: rest =>
      let* result :=
        execute_tool (tcr_tool_name tool_call) (tcr_arguments tool_call)
          user_id in
      let t1 := record_tool t (tcr_tool_name tool_call) result in
      let* t2 :=
        fun w => (Ok (add_suggestions t1 (suggestions_of w result)), w) in
      run_tool_calls rest user_id t2
  end.

(** [while iteration < max_tool_iterations: ...]; [remaining] is
    [max_tool_iterations - iteration]. *)
Fixpoint tool_loop (remaining : nat) (message : string)
    (history : list (string * string)) (user_id : option Z) (t : Turn)
  : M Turn :=
  match remaining with
  | O => ret t
  | S remaining' =>
      let context_history :=
        match accumulated_results t with
        | [] => history
        | _ =>
            history
            ++ [("assistant",
                 "Tool results so far: "
                   +:+ json_dumps_accumulated env (accumulated_results t))]
        end in
      let* llm_response :=
        call_with_tools message (SYSTEM_PROMPT env) context_history in
      match tool_calls llm_response with
      | Some (c :: cs) =>
          let* t' := run_tool_calls (c :: cs) user_id t in
          tool_loop remaining' message history user_id t'
      | _ =>
          if String.eqb (content llm_response) EmptyString then ret t
          else ret (set_response t (Some (content llm_response)))
      end
  end.

(** [not response] *)
Definition response_is_empty (r : option string) : bool :=
  match r with
  | Some s => String.eqb s EmptyString
  | None => true
  end.

(** The branch on the classified intent: what [process_message] does
    between the two [_save_message] calls. *)
Definition intent_branch (intent_result : IntentClassificationResult)
    (message : string) (history : list (string * string))
    (user_id : option Z) (max_tool_iterations : Z) : M Turn :=
  match icr_intent intent_result with
  | GREETING | FAREWELL =>
      let* r :=
        generate_response message (SYSTEM_PROMPT env) history None in
      ret (set_response Turn_initial r)
  | PRODUCT_SEARCH | PRODUCT_RECOMMENDATION | PRODUCT_DETAILS =>
      let* t :=
        tool_loop (Z.to_nat max_tool_iterations) message history user_id
          Turn_initial in
      if response_is_empty (response t) then
        let* r :=
          generate_response message (SYSTEM_PROMPT env) history
            (Some (accumulated_results t)) in
        ret (set_response t r)
      else ret t
  | ORDER_HELP | ORDER_STATUS =>
      let* t :=
        match truthy_int (order_id (icr_entities intent_result)) with
        | Some oid =>
            let* result :=
              execute_tool "check_order_status"
                {[ "order_id" := VInt oid ]} user_id in
            ret (record_tool Turn_initial "check_order_status" result)
        | None =>
            match truthy_int user_id with
            | Some _ =>
                let* result := execute_tool "get_user_orders" ∅ user_id in
                ret (record_tool Turn_initial "get_user_orders" result)
            | None => ret Turn_initial
            end
        end in
      let* r :=
        generate_response message (SYSTEM_PROMPT env) history
          (Some (accumulated_results t)) in
      ret (set_response t r)
  | _ =>
      let* r :=
        generate_response message (SYSTEM_PROMPT env) history None in
      ret (set_response Turn_initial r)
  end.

Definition process_message (message : string) (session_id : option string)
    (user_id : option Z) (max_tool_iterations : Z) : M AgentChatResponse :=
  let* session := _get_or_create_session session_id user_id in
  let* history := _get_conversation_history (cs_id session) 20 in
  let* intent_result := classify_intent message history in
  let* _ :=
    _save_message (cs_id session) "user" (Some message)
      (Some (Intent_value (icr_intent intent_result)))
      (Some (icr_entities intent_result)) None None in
  let* t :=
    intent_branch intent_result message history user_id
      max_tool_iterations in
  let* _ :=
    _save_message (cs_id session) "assistant" (response t) None None
      (nonempty_or_none (tool_calls_made t))
      (nonempty_or_none (tool_results t)) in
  let follow_up_questions :=
    _get_follow_up_questions (icr_intent intent_result) in
  match response t with
  | Some text =>
      ret {| acr_response := text; acr_session_id := cs_id session;
             acr_intent := icr_intent intent_result;
             acr_entities := icr_entities intent_result;
             acr_suggestions := nonempty_or_none (firstn 5 (suggestions t));
             acr_tool_calls_made := nonempty_or_none (tool_calls_made t);
             acr_follow_up_questions := follow_up_questions |}
  | None => raise "1 validation error for AgentChatResponse"
  end.

End Services.

(** ** Vocabulary of the statements *)

(** What [search] guarantees about one returned item, for the score
    floor [min_score] in force and the catalog [w] of the call. *)
Definition search_item_ok (w : World) (min_score : Q) (r : SearchResult)
  : Prop :=
  (0 <= sr_similarity r /\ sr_similarity r <= 1)%Q
  /\ (exists n : Z, sr_similarity r = n # 10000)
  /\ (exists score : Q,
        (min_score <= score)%Q /\ sr_similarity r = round4 score)
  /\ (round4 min_score <= sr_similarity r)%Q
  /\ exists p : Product,
       get_product w (pr_id (sr_product r)) = Some p
       /\ p_is_active p = true
       /\ sr_product r = ProductResponse_model_validate p.

(** Non-increasing similarity. *)
Definition by_similarity (a b : SearchResult) : Prop :=
  (sr_similarity b <= sr_similarity a)%Q.

(** Non-increasing score, the order in which the vector index returns
    its matches. *)
Definition by_score (a b : Match) : Prop := (m_score b <= m_score a)%Q.

Definition index_returns_sorted (env : Env) : Prop :=
  forall qp ms, index_query env qp = Ok ms -> StronglySorted by_score ms.

(** The request that [classify_intent] sends. *)
Definition classification_request (env : Env) (message : string)
    (history : list (string * string)) : ChatRequest :=
  {| cr_messages :=
       [("system", intent_system_prompt env)]
       ++ last_n 5 history
       ++ [("user", "Classify this message: " +:+ message)];
     cr_tools := false; cr_json_mode := true |}.

(** The request that [call_with_tools] sends. *)
Definition tools_request (message system_prompt : string)
    (history : list (string * string)) : ChatRequest :=
  {| cr_messages := _build_messages system_prompt message history None;
     cr_tools := true; cr_json_mode := false |}.


(** The names of [AgentToolkit.TOOLS]. *)
Definition registered_tools : list string :=
  ["search_products"; "get_product_details"; "get_recommendations";
   "check_order_status"; "get_user_orders"].

(** The identifier that [execute_tool] gives to a call made in [w]. *)
Definition call_id_in (env : Env) (w : World) : string :=
  substring 0 8 (uuid4 env (uuid_draws w)).

(** The world in which the [try] of [execute_tool] starts: one uuid
    drawn, the call logged. *)
Definition tool_entry (tool_name : string) (arguments : gmap string pyval)
    (w : World) : World :=
  {| products := products w; orders := orders w; sessions := sessions w;
     messages := messages w; index_log := index_log w;
     tool_log := (tool_name, arguments) :: tool_log w;
     llm_log := llm_log w;
     uuid_draws := S (uuid_draws w); clock_reads := clock_reads w |}.

(** The final world of a computation. *)
Definition final {A} (m : M A) (w : World) : World := snd (m w).

(** [m] relates every world to its final world by [R]. *)
Definition keeps (R : World -> World -> Prop) {A} (m : M A) : Prop :=
  forall w, R w (final m w).


(** No chat completion was requested. *)
Definition same_llm_log (w w' : World) : Prop := llm_log w' = llm_log w.

(** The number of logged requests that offered tools: the calls of
    [call_with_tools]. *)
Definition tool_rounds (w : World) : nat :=
  length (List.filter cr_tools (llm_log w)).

(** The clock never gives the same or an earlier reading twice. *)
Definition clock_strictly_increasing (env : Env) : Prop :=
  forall i j : nat, (i < j)%nat -> utcnow env i < utcnow env j.

(** The message table is in strictly increasing [created_at] order, and
    every row is older than the next clock reading. *)
Definition chronological (env : Env) (w : World) : Prop :=
  StronglySorted (fun a b => msg_created_at a < msg_created_at b)
    (messages w)
  /\ Forall (fun m => msg_created_at m < utcnow env (clock_reads w))
       (messages w).

(** The arguments of one call of [_save_message]. *)
Record Write := {
  wr_session_id : string;
  wr_role : string;
  wr_content : string;
  wr_intent : option string;
  wr_entities : option ExtractedEntities;
  wr_tool_calls : option (list string);
  wr_tool_results : option (list ToolResult)
}.

(** The calls of [_save_message] for [writes], one after the other. *)
Fixpoint save_all (env : Env) (writes : list Write) : M unit :=
  match writes with
  | [] => ret tt
  | x :: rest =>
      let* _ :=
        _save_message env (wr_session_id x) (wr_role x)
          (Some (wr_content x)) (wr_intent x) (wr_entities x)
          (wr_tool_calls x) (wr_tool_results x) in
      save_all env rest
  end.

(** The rows of one session, as [_get_conversation_history] shows them. *)
Definition session_pairs (session_id : string)
    (rows : list ConversationMessage) : list (string * string) :=
  map (fun m => (msg_role m, msg_content m))
    (List.filter (fun m => String.eqb (msg_session_id m) session_id) rows).

(** The dictionaries that [record_tool] accumulates have the keys
    ["tool"] and ["result"] only. *)
Definition no_tool_name (t : Turn) : Prop :=
  Forall (fun d : gmap string dval => d !! "tool_name" = None)
    (accumulated_results t).

(** No tool was entered. *)
Definition same_tool_log (w w' : World) : Prop := tool_log w' = tool_log w.

(** The history that one round of the tool loop sends: the stored
    history, followed by the synthetic entry once results exist. *)
Definition context_history (env : Env) (history : list (string * string))
    (t : Turn) : list (string * string) :=
  match accumulated_results t with
  | [] => history
  | _ =>
      history
      ++ [("assistant",
           "Tool results so far: "
             +:+ json_dumps_accumulated env (accumulated_results t))]
  end.

Definition is_product_intent (i : Intent) : bool :=
  match i with
  | PRODUCT_SEARCH | PRODUCT_RECOMMENDATION | PRODUCT_DETAILS => true
  | _ => false
  end.

Definition is_order_intent (i : Intent) : bool :=
  match i with
  | ORDER_HELP | ORDER_STATUS => true
  | _ => false
  end.

(** ** A small catalog and scripted collaborators, for worked examples *)

Module Demo.

Definition headphones : Product :=
  {| p_id := 1; p_name := "Headphones"; p_description := Some "Wireless";
     p_price := 5999 # 100; p_category := "electronics";
     p_brand := Some "Acme"; p_image_url := None; p_stock_quantity := 3;
     p_is_active := true; p_created_at := 100 |}.

Definition speaker : Product :=
  {| p_id := 2; p_name := "Speaker"; p_description := None;
     p_price := 25; p_category := "electronics"; p_brand := None;
     p_image_url := None; p_stock_quantity := 0; p_is_active := true;
     p_created_at := 101 |}.

Definition retired : Product :=
  {| p_id := 3; p_name := "Walkman"; p_description := None;
     p_price := 10; p_category := "electronics"; p_brand := None;
     p_image_url := None; p_stock_quantity := 0; p_is_active := false;
     p_created_at := 50 |}.

Definition order42 : Order :=
  {| o_id := 42; o_user_id := 7; o_total_amount := 8499 # 100;
     o_status := "shipped"; o_shipping_address := "1 Main Street";
     o_created_at := 200 |}.

Definition world : World :=
  {| products := [headphones; speaker; retired]; orders := [order42];
     sessions := []; messages := []; index_log := []; tool_log := [];
     llm_log := []; uuid_draws := 0; clock_reads := 0 |}.

Definition quoted (s : string) : string := dquote +:+ s +:+ dquote.

(** The JSON text of a classification that only names the intent. *)
Definition classification_text (intent : string) : string :=
  "{" +:+ quoted "intent" +:+ ": " +:+ quoted intent +:+ "}".

(** The JSON text of the arguments of a product search. *)
Definition search_arguments_text : string :=
  "{" +:+ quoted "query" +:+ ": " +:+ quoted "headphones" +:+ "}".

(** [json.loads] on the two texts above. *)
Definition loads (s : string) : result pyval :=
  if String.eqb s search_arguments_text
  then Ok (VDict [("query", VStr "headphones")])
  else
    match
      List.find (fun i => String.eqb s (classification_text (Intent_value i)))
        all_intents
    with
    | Some i => Ok (VDict [("intent", VStr (Intent_value i))])
    | None => Raise "Expecting value: line 1 column 1 (char 0)"
    end.

(** Collaborators that answer every index query with [index] and every
    chat completion with [llm], and that extract [entities] from every
    classification; the clock advances by one per read. *)
Definition env_with (index : result (list Match))
    (llm : nat -> ChatRequest -> result ChatCompletion)
    (entities : ExtractedEntities) : Env :=
  {| intent_system_prompt := "You are an intent classification system.";
     SYSTEM_PROMPT := "You are an intelligent e-commerce shopping assistant.";
     default_min_score := search_min_score_default;
     encode := fun _ => Ok [1%Q];
     index_query := fun _ => index;
     format_float := fun _ => "0.0";
     db_bind_other := fun _ => Ok None;
     chat_completions_create := llm;
     json_loads := loads;
     json_dumps_accumulated := fun _ => "[]";
     json_dumps_indent := fun _ => "null";
     str_of_payload := fun _ => "None";
     validate_entities := fun _ => Ok entities;
     validate_bool := fun _ => Ok false;
     float_of_string := fun _ => Ok 0%Q;
     isoformat := fun _ => "2024-01-01T00:00:00";
     uuid4 := fun _ => "123e4567-e89b-12d3-a456-426614174000";
     utcnow := fun n => Z.of_nat n |}.

Definition env (index : result (list Match))
    (llm : nat -> ChatRequest -> result ChatCompletion) : Env :=
  env_with index llm ExtractedEntities_empty.

(** A provider that is unreachable. *)
Definition llm_down : nat -> ChatRequest -> result ChatCompletion :=
  fun _ _ => Raise "Connection error.".

(** A provider that always answers with the given message. *)
Definition llm_says (m : ChoiceMessage)
  : nat -> ChatRequest -> result ChatCompletion :=
  fun _ _ => Ok {| choices := [m] |}.

(** A provider that classifies every message as [intent], answers every
    request made with tools by [tools_reply], and every other request
    with [text]. *)
Definition llm_script (intent : Intent) (tools_reply : ChoiceMessage)
    (text : string) : nat -> ChatRequest -> result ChatCompletion :=
  fun _ req =>
    Ok {| choices :=
            [ if cr_json_mode req then
                {| cm_content :=
                     Some (classification_text (Intent_value intent));
                   cm_tool_calls := None |}
              else if cr_tools req then tools_reply
              else {| cm_content := Some text; cm_tool_calls := None |} ] |}.

(** The provider asks for a product search. *)
Definition wants_search : ChoiceMessage :=
  {| cm_content := None;
     cm_tool_calls :=
       Some [ {| rtc_id := "call_1"; rtc_name := "search_products";
                 rtc_arguments := search_arguments_text |} ] |}.

Definition entities_order_42 : ExtractedEntities :=
  {| product_names := None; categories := None; brands := None;
     price_min := None; price_max := None; order_id := Some 42;
     quantity := None; attributes := None |}.

(** Three writes: two in session [s1], one in session [s2]. *)
Definition writes : list Write :=
  [ {| wr_session_id := "s1"; wr_role := "user"; wr_content := "hi";
       wr_intent := Some "greeting"; wr_entities := None;
       wr_tool_calls := None; wr_tool_results := None |};
    {| wr_session_id := "s2"; wr_role := "user"; wr_content := "bye";
       wr_intent := Some "farewell"; wr_entities := None;
       wr_tool_calls := None; wr_tool_results := None |};
    {| wr_session_id := "s1"; wr_role := "assistant"; wr_content := "hello";
       wr_intent := None; wr_entities := None;
       wr_tool_calls := None; wr_tool_results := None |} ].


End Demo.

(** ** Indexing (pinecone_service.py) *)

(** [pinecone_service.ProductMetadata]. *)
Record ProductMetadata := {
  md_product_id : Z;
  md_name : string;
  md_category : string;
  md_brand : string;
  md_price : Q;
  md_stock_quantity : Z;
  md_is_active : bool
}.

(** [x or EMPTY] for an optional string, EMPTY the empty string. *)
Definition or_empty (o : option string) : string :=
  match o with
  | Some s => s
  | None => EmptyString
  end.

Definition _product_to_metadata (product : Product) : ProductMetadata :=
  {| md_product_id := p_id product; md_name := p_name product;
     md_category := p_category product;
     md_brand := or_empty (p_brand product);
     md_price := p_price product;
     md_stock_quantity := p_stock_quantity product;
     md_is_active := p_is_active product |}.

(** [str(n)] of an integer. *)
Definition str_int (n : Z) : string := NilZero.string_of_int (Z.to_int n).

(** One element of the [vectors] argument of [index.upsert]. *)
Record Vector := {
  vec_id : string;
  vec_values : list Q;
  vec_metadata : ProductMetadata
}.

(** A write sent to the vector index. *)
Inductive IndexCall :=
| Upsert (vectors : list Vector)
| Delete (ids : list string).

(** The text, embedding and metadata of one product: the three lines
    that [index_product] and the loop of [index_all_products] share. *)
Definition product_vector (env : Env) (product : Product) : result Vector :=
  let text := _product_to_text env product in
  let+ embedding := encode env (VStr text) in
  let metadata := _product_to_metadata product in
  Ok {| vec_id := str_int (p_id product); vec_values := embedding;
        vec_metadata := metadata |}.

(** The answer of the vector index to a write, given the number of
    writes made before it. *)
Definition IndexWriter : Type := nat -> IndexCall -> result unit.

(** The indexing functions return their outcome and the writes made to
    the index so far, oldest first; a refused write is in the list. *)
Definition send (index_write : IndexWriter) (call : IndexCall)
    (sent : list IndexCall) : result unit * list IndexCall :=
  (index_write (length sent) call, sent ++ [call]).

Definition index_product (env : Env) (index_write : IndexWriter)
    (product : Product) (sent : list IndexCall)
  : result unit * list IndexCall :=
  match product_vector env product with
  | Ok v => send index_write (Upsert [v]) sent
  | Raise e => (Raise e, sent)
  end.

(** The loop of [index_all_products]; [vectors] is the pending batch. *)
Fixpoint index_batches (env : Env) (index_write : IndexWriter)
    (batch_size : Z) (products : list Product) (vectors : list Vector)
    (sent : list IndexCall) : result (list Vector) * list IndexCall :=
  match products with
  | [] => (Ok vectors, sent)
  | product :: rest =>
      match product_vector env product with
      | Raise e => (Raise e, sent)
      | Ok v =>
          let vectors := vectors ++ [v] in
          if batch_size <=? Z.of_nat (length vectors) then
            match send index_write (Upsert vectors) sent with
            | (Ok _, sent') =>
                index_batches env index_write batch_size rest [] sent'
            | (Raise e, sent') => (Raise e, sent')
            end
          else index_batches env index_write batch_size rest vectors sent
      end
  end.

Definition index_all_products (env : Env) (index_write : IndexWriter)
    (w : World) (batch_size : Z) (sent : list IndexCall)
  : result Z * list IndexCall :=
  let products := List.filter p_is_active (products w) in
  match index_batches env index_write batch_size products [] sent with
  | (Ok vectors, sent') =>
      match vectors with
      | [] => (Ok (Z.of_nat (length products)), sent')
      | _ =>
          match send index_write (Upsert vectors) sent' with
          | (Ok _, sent'') => (Ok (Z.of_nat (length products)), sent'')
          | (Raise e, sent'') => (Raise e, sent'')
          end
      end
  | (Raise e, sent') => (Raise e, sent')
  end.

Definition delete_product (index_write : IndexWriter) (product_id : Z)
    (sent : list IndexCall) : result unit * list IndexCall :=
  send index_write (Delete [str_int product_id]) sent.

(** ** Vocabulary of the further statements *)

(** The vectors of the upserts of a list of writes, in order. *)
Definition upserted (calls : list IndexCall) : list Vector :=
  concat (map (fun c => match c with Upsert vs => vs | Delete _ => [] end)
            calls).

(** The largest batch that [index_all_products] sends: [batch_size], and
    one vector when [batch_size] is below one. *)
Definition batch_limit (batch_size : Z) : nat := Z.to_nat (Z.max batch_size 1).

(** A match that [search] keeps: at or above the score floor, with an
    active catalog row. *)
Definition qualifies (w : World) (floor : Q) (m : Match) : bool :=
  Qle_bool floor (m_score m)
  && match get_product w (m_id m) with
     | Some p => p_is_active p
     | None => false
     end.

(** The catalog row behind a product projection: present and active. *)
Definition active_product (w : World) (pr : ProductResponse) : Prop :=
  exists p, In p (products w) /\ p_is_active p = true
            /\ pr = ProductResponse_model_validate p.

(** The products of a tool payload are active catalog rows. *)
Definition payload_active (w : World) (p : payload) : Prop :=
  match p with
  | PProducts items =>
      Forall (fun item => active_product w (fst item)
                          /\ (0 <= snd item /\ snd item <= 1)%Q) items
  | PProduct pr => active_product w pr
  | _ => True
  end.


(** Nothing stored in the database has changed. *)
Definition same_database (w w' : World) : Prop :=
  products w' = products w /\ orders w' = orders w
  /\ sessions w' = sessions w /\ messages w' = messages w.

(** Neither the message table nor the clock has changed. *)
Definition same_messages (w w' : World) : Prop :=
  messages w' = messages w /\ clock_reads w' = clock_reads w.

(** Whether [json.dumps] accepts every result of a list. *)
Definition all_serializable (results : list ToolResult) : bool :=
  forallb (fun r => json_serializable (tr_result r)) results.

(** Suggestions were only gathered together with a tool result that
    [json.dumps] rejects. *)
Definition suggestions_unstorable (t : Turn) : Prop :=
  suggestions t = [] \/ all_serializable (tool_results t) = false.

(** The bundle that [process_message] returns. *)
Definition turn_bundle (session : ConversationSession)
    (intent_result : IntentClassificationResult) (t : Turn) (text : string)
  : AgentChatResponse :=
  {| acr_response := text; acr_session_id := cs_id session;
     acr_intent := icr_intent intent_result;
     acr_entities := icr_entities intent_result;
     acr_suggestions := nonempty_or_none (firstn 5 (suggestions t));
     acr_tool_calls_made := nonempty_or_none (tool_calls_made t);
     acr_follow_up_questions :=
       _get_follow_up_questions (icr_intent intent_result) |}.

(** What [process_message] does once the user message is stored. *)
Definition finish_turn (env : Env) (session : ConversationSession)
    (intent_result : IntentClassificationResult) (message : string)
    (history : list (string * string)) (user_id : option Z)
    (max_tool_iterations : Z) : M AgentChatResponse :=
  let* t :=
    intent_branch env intent_result message history user_id
      max_tool_iterations in
  let* _ :=
    _save_message env (cs_id session) "assistant" (response t) None None
      (nonempty_or_none (tool_calls_made t))
      (nonempty_or_none (tool_results t)) in
  match response t with
  | Some text => ret (turn_bundle session intent_result t text)
  | None => raise "1 validation error for AgentChatResponse"
  end.


(** Every chat completion fails. *)
Definition provider_down (env : Env) : Prop :=
  forall n req, exists e, chat_completions_create env n req = Raise e.

(** A dictionary with the two keys that [generate_response] reads. *)
Definition well_keyed (d : gmap string dval) : Prop :=
  is_Some (d !! "tool_name") /\ is_Some (d !! "result").

(** What [index_product], called for each product in turn, sends. *)
Fixpoint index_each (env : Env) (index_write : IndexWriter)
    (products : list Product) (sent : list IndexCall)
  : result unit * list IndexCall :=
  match products with
  | [] => (Ok tt, sent)
  | product :: rest =>
      match index_product env index_write product sent with
      | (Ok _, sent') => index_each env index_write rest sent'
      | (Raise e, sent') => (Raise e, sent')
      end
  end.

(** An index that accepts every write. *)
Definition accepting : IndexWriter := fun _ _ => Ok tt.

(** A write that upserts exactly [n] vectors. *)
Definition upsert_of_size (n : nat) (c : IndexCall) : Prop :=
  exists batch, c = Upsert batch /\ length batch = n.

(** The turns that [process_message] answers without entering a tool,
    whatever the provider says: the intents outside the product and
    order groups, a product intent when no iteration is allowed, and an
    order intent with neither an order id nor a user. *)
Definition answers_without_tools (intent_result : IntentClassificationResult)
    (user_id : option Z) (max_tool_iterations : Z) : bool :=
  if is_product_intent (icr_intent intent_result) then
    max_tool_iterations <=? 0
  else if is_order_intent (icr_intent intent_result) then
    match truthy_int (order_id (icr_entities intent_result)),
          truthy_int user_id with
    | None, None => true
    | _, _ => false
    end
  else true.

(** ** Further worked examples *)

Module Examples.

(** A provider that classifies every message as a product search, asks
    for one search in its first round with tools, and answers with text
    afterwards. *)
Definition llm_search_then_text
  : nat -> ChatRequest -> result ChatCompletion :=
  fun n req =>
    Ok {| choices :=
            [ if cr_json_mode req then
                {| cm_content :=
                     Some (Demo.classification_text
                             (Intent_value PRODUCT_SEARCH));
                   cm_tool_calls := None |}
              else if (n <=? 1)%nat then Demo.wants_search
              else {| cm_content := Some "Nothing matched your search.";
                      cm_tool_calls := None |} ] |}.

(** An index that accepts one write and refuses every later one. *)
Definition one_write_only : IndexWriter :=
  fun n _ => if (n <? 1)%nat then Ok tt else Raise "index unreachable".


End Examples.

(** The request passed on for a tool call of the provider: same
    identifier and name, arguments parsed from its JSON object. *)
Definition passes_on (env : Env) (tc : RawToolCall) (c : ToolCallRequest)
  : Prop :=
  tcr_call_id c = rtc_id tc /\ tcr_tool_name c = rtc_name tc
  /\ exists d, json_loads env (rtc_arguments tc) = Ok (VDict d)
               /\ tcr_arguments c = list_to_map d.

(** A search result whose product is an active catalog row. *)
Definition result_active (w : World) (r : SearchResult) : Prop :=
  active_product w (sr_product r)
  /\ (0 <= sr_similarity r /\ sr_similarity r <= 1)%Q.

(** * Theorems *)

(** ** Rounding *)

Lemma round_half_even_comp (x y : Q) :
  (x == y)%Q -> round_half_even x = round_half_even y.
Proof.
  intros E. unfold round_half_even.
  assert (F : Qfloor x = Qfloor y) by (now apply Qfloor_comp).
  rewrite F.
  assert (C : (x - inject_Z (Qfloor y) ?= 1 # 2)%Q
              = (y - inject_Z (Qfloor y) ?= 1 # 2)%Q)
    by (apply Qcompare_comp; [now rewrite E | reflexivity]).
  now rewrite C.
Qed.

(** The rounded integer is within one half of the argument. *)
Lemma round_half_even_near (x : Q) :
  (inject_Z (round_half_even x) - (1 # 2) <= x
   /\ x <= inject_Z (round_half_even x) + (1 # 2))%Q.
Proof.
  unfold round_half_even.
  pose proof (Qfloor_le x) as Hlo.
  pose proof (Qlt_floor x) as Hhi.
  rewrite inject_Z_plus in Hhi. change (inject_Z 1) with 1%Q in Hhi.
  set (f := Qfloor x) in *.
  destruct (Qcompare_spec (x - inject_Z f) (1 # 2)) as [E | L | G].
  - destruct (Z.even f).
    + split; lra.
    + rewrite inject_Z_plus. change (inject_Z 1) with 1%Q. split; lra.
  - split; lra.
  - rewrite inject_Z_plus. change (inject_Z 1) with 1%Q. split; lra.
Qed.

Lemma round_half_even_mono (x y : Q) :
  (x <= y)%Q -> round_half_even x <= round_half_even y.
Proof.
  intros Hxy.
  destruct (Z_le_gt_dec (round_half_even x) (round_half_even y)) as [|Hgt];
    [assumption | exfalso].
  destruct (round_half_even_near x) as [Hx _].
  destruct (round_half_even_near y) as [_ Hy].
  assert (H1 : (inject_Z (round_half_even y) + 1
                <= inject_Z (round_half_even x))%Q).
  { rewrite <- (inject_Z_plus _ 1). rewrite <- Zle_Qle. lia. }
  assert (E : (x == y)%Q) by lra.
  apply round_half_even_comp in E. lia.
Qed.

Lemma round_half_even_inject (n : Z) : round_half_even (inject_Z n) = n.
Proof.
  unfold round_half_even. rewrite Qfloor_Z.
  assert (E : (inject_Z n - inject_Z n ?= 1 # 2)%Q = Lt).
  { rewrite <- Qlt_alt. lra. }
  now rewrite E.
Qed.

Lemma round4_mono (x y : Q) : (x <= y)%Q -> (round4 x <= round4 y)%Q.
Proof.
  intros H. unfold round4, Qle. simpl.
  apply Z.mul_le_mono_nonneg_r; [lia |].
  apply round_half_even_mono. lra.
Qed.

(** A value with at most four decimals is its own rounding. *)
Lemma round4_grid (n : Z) : (round4 (n # 10000) == n # 10000)%Q.
Proof.
  unfold round4.
  assert (E : ((n # 10000) * 10000 == inject_Z n)%Q).
  { unfold Qeq, Qmult, inject_Z. simpl. lia. }
  rewrite (round_half_even_comp _ _ E), round_half_even_inject.
  reflexivity.
Qed.

Lemma round4_idempotent (x : Q) : (round4 (round4 x) == round4 x)%Q.
Proof. unfold round4 at 2 3. apply round4_grid. Qed.

(** ** PineconeService.search *)

Lemma SearchResult_new_inv p s r :
  SearchResult_new p s = Ok r ->
  r = {| sr_product := p; sr_similarity := s |} /\ (0 <= s /\ s <= 1)%Q.
Proof.
  unfold SearchResult_new.
  destruct (Qle_bool 0 s) eqn:E0; simpl; [| discriminate].
  destruct (Qle_bool s 1) eqn:E1; [| discriminate].
  intros [= <-]. apply Qle_bool_iff in E0, E1. auto.
Qed.

Lemma get_product_id w id p : get_product w id = Some p -> p_id p = id.
Proof.
  unfold get_product. intros H. apply List.find_some in H.
  destruct H as [_ H]. lia.
Qed.

(** One step of the loop, as a case analysis on its first match. *)
Lemma search_loop_cons w floor m ms l :
  search_loop w floor (m :: ms) = Ok l ->
  search_loop w floor ms = Ok l
  \/ exists r rs p,
       l = r :: rs /\ search_loop w floor ms = Ok rs
       /\ (floor <= m_score m)%Q
       /\ get_product w (m_id m) = Some p /\ p_is_active p = true
       /\ SearchResult_new (ProductResponse_model_validate p)
            (round4 (m_score m)) = Ok r.
Proof.
  simpl.
  destruct (Qle_bool floor (m_score m)) eqn:Efl; [| auto].
  destruct (get_product w (m_id m)) as [p |] eqn:Ep; [| auto].
  destruct (p_is_active p) eqn:Ea; [| auto].
  destruct (SearchResult_new _ _) as [r |] eqn:Er; simpl; [| discriminate].
  destruct (search_loop w floor ms) as [rs |]; simpl; [| discriminate].
  intros [= <-]. right. exists r, rs, p.
  apply Qle_bool_iff in Efl. auto 10.
Qed.

Lemma search_loop_items w floor ms l :
  search_loop w floor ms = Ok l -> Forall (search_item_ok w floor) l.
Proof.
  revert l. induction ms as [| m ms IH]; intros l H.
  - injection H as <-. constructor.
  - apply search_loop_cons in H.
    destruct H as [H | (r & rs & p & -> & Hrs & Hfl & Hp & Ha & Hr)]; [auto |].
    constructor; [| auto].
    apply SearchResult_new_inv in Hr. destruct Hr as [-> Hrange].
    unfold search_item_ok. simpl. repeat split; try tauto.
    + eexists. reflexivity.
    + exists (m_score m). split; [assumption | reflexivity].
    + now apply round4_mono.
    + exists p. rewrite (get_product_id _ _ _ Hp). auto.
Qed.

(** Every returned similarity is the rounding of a score of the input
    that is not above the score of any match before it. *)
Lemma search_loop_bounded w floor ms l (bound : Q) :
  search_loop w floor ms = Ok l ->
  Forall (fun m => (m_score m <= bound)%Q) ms ->
  Forall (fun r => (sr_similarity r <= round4 bound)%Q) l.
Proof.
  revert l. induction ms as [| m ms IH]; intros l H Hb.
  - injection H as <-. constructor.
  - inversion Hb as [| ? ? Hm Hms]; subst.
    apply search_loop_cons in H.
    destruct H as [H | (r & rs & p & -> & Hrs & _ & _ & _ & Hr)]; [auto |].
    constructor; [| auto].
    apply SearchResult_new_inv in Hr. destruct Hr as [-> _]. simpl.
    now apply round4_mono.
Qed.

Lemma search_loop_sorted w floor ms l :
  search_loop w floor ms = Ok l ->
  StronglySorted by_score ms -> StronglySorted by_similarity l.
Proof.
  revert l. induction ms as [| m ms IH]; intros l H Hs.
  - injection H as <-. constructor.
  - inversion Hs as [| ? ? Hms Hm]; subst.
    apply search_loop_cons in H.
    destruct H as [H | (r & rs & p & -> & Hrs & _ & _ & _ & Hr)]; [auto |].
    constructor; [auto |].
    apply SearchResult_new_inv in Hr. destruct Hr as [-> _].
    unfold by_similarity. simpl.
    now apply (search_loop_bounded w floor ms).
Qed.

Lemma search_loop_ext w1 w2 floor ms :
  products w1 = products w2 ->
  search_loop w1 floor ms = search_loop w2 floor ms.
Proof.
  intros E. induction ms as [| m ms IH]; [reflexivity |].
  simpl. unfold get_product. rewrite E, IH. reflexivity.
Qed.

(** [search] returns exactly when the embedding, the index query and
    the loop do; it leaves the database as it found it. *)
Lemma search_inv env query top_k cat minp maxp min_score w l w' :
  search env query top_k cat minp maxp min_score w = (Ok l, w') ->
  exists emb ms,
    encode env query = Ok emb
    /\ index_query env
         {| qp_vector := emb; qp_top_k := top_k;
            qp_filter := _build_filter cat minp maxp |} = Ok ms
    /\ search_loop w (default (default_min_score env) min_score) ms = Ok l
    /\ products w' = products w /\ orders w' = orders w
    /\ sessions w' = sessions w /\ messages w' = messages w
    /\ index_log w'
       = {| qp_vector := emb; qp_top_k := top_k;
            qp_filter := _build_filter cat minp maxp |} :: index_log w
    /\ tool_log w' = tool_log w /\ llm_log w' = llm_log w
    /\ uuid_draws w' = uuid_draws w /\ clock_reads w' = clock_reads w.
Proof.
  unfold search, bind, lift, query_index.
  destruct (encode env query) as [emb |] eqn:Ee; [| discriminate].
  destruct (index_query env _) as [ms |] eqn:Ei; [| discriminate].
  intros [= Hl <-]. exists emb, ms. simpl.
  repeat split; try reflexivity; try assumption.
  rewrite <- Hl. now apply search_loop_ext.
Qed.

(** C1 (as amended): whenever [search] returns a list, every item has a
    similarity in [0,1] that is a multiple of 1/10000, namely the
    rounding to four places of an index score that is at least
    [min_score] (the configured default when none is given); hence every
    similarity is at least [min_score] rounded to four places, and at
    least [min_score] itself when that has at most four decimals; every
    item is the catalog row of its identifier, present and active in the
    database of the call, which [search] does not change; and the list
    is in non-increasing similarity order whenever the vector index
    returns its matches in non-increasing score order. *)
Theorem search_results_sound env query top_k cat minp maxp min_score w l w' :
  search env query top_k cat minp maxp min_score w = (Ok l, w') ->
  let floor := default (default_min_score env) min_score in
  products w' = products w
  /\ Forall (search_item_ok w floor) l
  /\ ((exists n : Z, (floor == n # 10000)%Q) ->
      Forall (fun r => (floor <= sr_similarity r)%Q) l)
  /\ (index_returns_sorted env -> StronglySorted by_similarity l).
Proof.
  intros H floor. apply search_inv in H.
  destruct H as (emb & ms & _ & Hq & Hloop & Hp & _).
  fold floor in Hloop.
  pose proof (search_loop_items _ _ _ _ Hloop) as Hitems.
  repeat split; try assumption.
  - intros [n Hn]. eapply List.Forall_impl; [| exact Hitems].
    intros r (_ & _ & _ & Hr & _).
    assert (E : (round4 floor == floor)%Q).
    { unfold round4.
      assert (E' : (floor * 10000 == (n # 10000) * 10000)%Q)
        by now rewrite Hn.
      rewrite (round_half_even_comp _ _ E').
      fold (round4 (n # 10000)). now rewrite round4_grid, Hn. }
    now rewrite <- E.
  - intros Hsorted. eapply search_loop_sorted; [exact Hloop |].
    eapply Hsorted. exact Hq.
Qed.

Lemma search_results_sound_witness :
  exists l w',
    search (Demo.env (Ok [ {| m_id := 1; m_score := 912344 # 1000000 |};
                           {| m_id := 3; m_score := 8 # 10 |};
                           {| m_id := 2; m_score := 1 # 2 |};
                           {| m_id := 2; m_score := 1 # 10 |} ])
              Demo.llm_down)
      (VStr "headphones") (VInt 10) VNone VNone VNone None Demo.world
    = (Ok l, w')
    /\ Forall (search_item_ok Demo.world search_min_score_default) l
    /\ Forall (fun r => (search_min_score_default <= sr_similarity r)%Q) l
    /\ StronglySorted by_similarity l.
Proof.
  match goal with |- exists l w', ?call = _ /\ _ =>
    assert (E : exists l w', call = (Ok l, w'))
      by (eexists; eexists; vm_compute; reflexivity) end.
  destruct E as (l & w' & E). exists l, w'. split; [exact E |].
  destruct (search_results_sound _ _ _ _ _ _ _ _ _ _ E)
    as (_ & Hitems & Hfloor & Hsorted).
  split; [exact Hitems |]. split.
  - apply Hfloor. exists 3000. reflexivity.
  - apply Hsorted. intros qp ms [= <-].
    repeat constructor; unfold by_score, Qle; simpl; lia.
Defined.

(** C1 as stated fails: with [min_score = 0.30003], a match of score
    0.30004 passes the threshold and is returned with similarity 0.3,
    which is below [min_score]. *)
Lemma search_similarity_below_min_score :
  exists r w',
    search (Demo.env (Ok [ {| m_id := 1; m_score := 30004 # 100000 |} ])
              Demo.llm_down)
      (VStr "headphones") (VInt 10) VNone VNone VNone
      (Some (30003 # 100000)) Demo.world
    = (Ok [r], w')
    /\ (sr_similarity r == 3 # 10)%Q
    /\ (sr_similarity r < 30003 # 100000)%Q.
Proof.
  eexists. eexists. split; [vm_compute; reflexivity |].
  split; reflexivity.
Qed.

Lemma search_loop_returns w floor ms :
  Forall (fun m => (0 <= m_score m /\ m_score m <= 1)%Q) ms ->
  exists l, search_loop w floor ms = Ok l.
Proof.
  induction 1 as [| m ms' [H0 H1] _ [l IH]]; [now exists [] |].
  simpl. rewrite IH.
  destruct (Qle_bool _ (m_score m)); [| eauto].
  destruct (get_product _ _); [| eauto].
  destruct (p_is_active _); [| eauto].
  unfold SearchResult_new.
  assert (Hr0 : (0 <= round4 (m_score m))%Q).
  { apply Qle_trans with (round4 0);
      [vm_compute; discriminate | now apply round4_mono]. }
  assert (Hr1 : (round4 (m_score m) <= 1)%Q).
  { apply Qle_trans with (round4 1);
      [now apply round4_mono | vm_compute; discriminate]. }
  apply Qle_bool_iff in Hr0, Hr1. rewrite Hr0, Hr1. simpl. eauto.
Qed.

(** [search] returns a list as soon as the embedding and the index
    query succeed and the index scores lie in [0,1]. *)
Lemma search_returns env query top_k cat minp maxp min_score w emb ms :
  encode env query = Ok emb ->
  index_query env
    {| qp_vector := emb; qp_top_k := top_k;
       qp_filter := _build_filter cat minp maxp |} = Ok ms ->
  Forall (fun m => (0 <= m_score m /\ m_score m <= 1)%Q) ms ->
  exists l w', search env query top_k cat minp maxp min_score w = (Ok l, w').
Proof.
  intros He Hq Hms. unfold search, bind, lift, query_index.
  rewrite He, Hq.
  match goal with |- context [search_loop ?w0 ?f ms] =>
    destruct (search_loop_returns w0 f ms Hms) as [l Hl] end.
  rewrite Hl. eauto.
Qed.

(** ** PineconeService.find_similar_products *)

Lemma py_int_ne_int (a b : Z) : py_int_ne a (VInt b) = negb (a =? b).
Proof.
  unfold py_int_ne, num_of, Qeq_bool, inject_Z. simpl.
  rewrite !Z.mul_1_r. reflexivity.
Qed.

Lemma py_slice_to_nonneg {A} (l : list A) (k : Z) :
  0 <= k -> py_slice_to l (VInt k) = Ok (firstn (Z.to_nat k) l).
Proof.
  intros Hk. unfold py_slice_to.
  destruct (k <? 0) eqn:E; [lia | reflexivity].
Qed.

#[local] Arguments py_slice_to : simpl never.
#[local] Arguments py_int_ne : simpl never.

(** C6: for an integer product identifier and an integer [k >= 0],
    [find_similar_products] searches with the product's own text,
    [top_k = k + 1] and the score floor 0.2, drops the source product
    from the results and keeps the first [k] (when the product is not in
    the catalog it returns the empty list without searching); so a
    returned list never contains the source product and has at most [k]
    elements. *)
Theorem find_similar_products_spec env (id k : Z) w :
  0 <= k ->
  (forall p, get_product w id = Some p ->
     find_similar_products env (VInt id) (VInt k) w
     = (let* results :=
          search env (VStr (_product_to_text env p)) (VInt (k + 1))
            VNone VNone VNone (Some (2 # 10)) in
        ret (firstn (Z.to_nat k)
               (List.filter (fun r => negb (pr_id (sr_product r) =? id))
                  results))) w)
  /\ (get_product w id = None ->
      find_similar_products env (VInt id) (VInt k) w = (Ok [], w))
  /\ (forall l w',
        find_similar_products env (VInt id) (VInt k) w = (Ok l, w') ->
        (length l <= Z.to_nat k)%nat
        /\ Forall (fun r => pr_id (sr_product r) <> id) l).
Proof.
  intros Hk.
  assert (Hsome : forall p, get_product w id = Some p ->
     find_similar_products env (VInt id) (VInt k) w
     = (let* results :=
          search env (VStr (_product_to_text env p)) (VInt (k + 1))
            VNone VNone VNone (Some (2 # 10)) in
        ret (firstn (Z.to_nat k)
               (List.filter (fun r => negb (pr_id (sr_product r) =? id))
                  results))) w).
  { intros p Hp. unfold find_similar_products, bind, lift, ret. simpl.
    rewrite Hp. simpl.
    destruct (search env _ _ _ _ _ _ w) as [[results | e] w1]; [| reflexivity].
    rewrite py_slice_to_nonneg by assumption.
    do 3 f_equal. apply List.filter_ext. intros r. apply py_int_ne_int. }
  assert (Hnone : get_product w id = None ->
      find_similar_products env (VInt id) (VInt k) w = (Ok [], w)).
  { intros Hp. unfold find_similar_products, bind, lift, ret. simpl.
    now rewrite Hp. }
  split; [exact Hsome |]. split; [exact Hnone |].
  intros l w' H.
  destruct (get_product w id) as [p |] eqn:Hp.
  - rewrite (Hsome p eq_refl) in H. unfold bind, ret in H.
    destruct (search env _ _ _ _ _ _ w) as [[results | e] w1];
      [| discriminate].
    injection H as <- <-. split.
    + rewrite length_firstn. lia.
    + apply Forall_take, List.Forall_forall. intros r Hr.
      apply List.filter_In in Hr. destruct Hr as [_ Hr]. lia.
  - rewrite (Hnone eq_refl) in H. injection H as <- <-.
    split; [simpl; lia | constructor].
Qed.

Lemma find_similar_products_spec_witness :
  exists l w',
    find_similar_products
      (Demo.env (Ok [ {| m_id := 1; m_score := 99 # 100 |};
                      {| m_id := 2; m_score := 7 # 10 |} ])
         Demo.llm_down)
      (VInt 1) (VInt 1) Demo.world = (Ok l, w')
    /\ (length l <= 1)%nat
    /\ Forall (fun r => pr_id (sr_product r) <> 1) l.
Proof.
  match goal with |- exists l w', ?call = _ /\ _ =>
    assert (E : exists l w', call = (Ok l, w'))
      by (eexists; eexists; vm_compute; reflexivity) end.
  destruct E as (l & w' & E). exists l, w'. split; [exact E |].
  assert (Hk : 0 <= 1) by lia.
  exact (proj2 (proj2 (find_similar_products_spec _ 1 1 Demo.world Hk))
           l w' E).
Defined.

(** ** GroqLLMService *)

(** C3: [classify_intent] always returns a result; when the completion
    call raises, or its answer cannot be parsed and validated, the result
    is the fallback: intent [unknown], confidence 0, no entity, a
    clarification requested with a non-empty question. *)
Theorem classify_intent_degrades env message history w :
  (exists r w', classify_intent env message history w = (Ok r, w'))
  /\ (forall e,
        chat_completions_create env (length (llm_log w))
          (classification_request env message history) = Raise e
        \/ (exists response,
              chat_completions_create env (length (llm_log w))
                (classification_request env message history) = Ok response
              /\ parse_classification env response = Raise e) ->
        exists w',
          classify_intent env message history w
          = (Ok classification_fallback, w'))
  /\ icr_intent classification_fallback = UNKNOWN
  /\ icr_confidence classification_fallback = 0%Q
  /\ icr_entities classification_fallback = ExtractedEntities_empty
  /\ icr_requires_clarification classification_fallback = true
  /\ (exists question,
        icr_clarification_question classification_fallback = Some question
        /\ question <> EmptyString).
Proof.
  unfold classify_intent, try_except, bind, lift, chat, ret.
  fold (classification_request env message history).
  split; [| split].
  - destruct (chat_completions_create _ _ _) as [response | e]; [| eauto].
    destruct (parse_classification env response); eauto.
  - intros e [H | (response & H & Hp)]; rewrite H; [| rewrite Hp]; eauto.
  - repeat split; try reflexivity. eexists. split; [reflexivity | discriminate].
Qed.

Lemma classify_intent_degrades_witness :
  exists w',
    classify_intent (Demo.env (Ok []) Demo.llm_down) "hello" [] Demo.world
    = (Ok classification_fallback, w').
Proof.
  apply (proj1 (proj2 (classify_intent_degrades
                         (Demo.env (Ok []) Demo.llm_down) "hello" []
                         Demo.world))
           "Connection error.").
  left. reflexivity.
Defined.

(** [call_with_tools] returns, after exactly one request with tools. *)
Lemma call_with_tools_returns env message system_prompt history w :
  exists r w',
    call_with_tools env message system_prompt history w = (Ok r, w')
    /\ llm_log w' = tools_request message system_prompt history :: llm_log w.
Proof.
  unfold call_with_tools, try_except, bind, lift, chat, ret.
  fold (tools_request message system_prompt history).
  destruct (chat_completions_create _ _ _) as [response | e];
    [destruct (first_choice response) as [m | e];
     [destruct (cm_tool_calls m) as [[| tc tcs] |];
      [| destruct (parse_tool_calls env (tc :: tcs)) |] |] |];
    eexists _, _; split; reflexivity.
Qed.




(** ** ShopAgent.execute_tool *)

(** [execute_tool] is its body run after the uuid draw and the log
    entry, with every exception turned into a failed result. *)
Lemma execute_tool_unfold env name args uid w :
  execute_tool env name args uid w
  = match execute_tool_body env (call_id_in env w) name args uid
            (tool_entry name args w) with
    | (Ok r, w') => (Ok r, w')
    | (Raise e, w') =>
        (Ok {| tr_call_id := call_id_in env w; tr_tool_name := name;
               tr_result := PNone; tr_success := false;
               tr_error_message := Some e |}, w')
    end.
Proof. reflexivity. Qed.

(** C10: the result of [check_order_status] does not depend on the
    caller: for any two identities the whole outcome is the same, and
    when the order exists it is a success carrying the status, total
    amount, creation time and shipping address of that order, whoever
    owns it. *)
Theorem check_order_status_ignores_caller env args (u1 u2 : option Z) w :
  execute_tool env "check_order_status" args u1 w
  = execute_tool env "check_order_status" args u2 w
  /\ (forall n o,
        args !! "order_id" = Some (VInt n) ->
        get_order w n = Some o ->
        exists w',
          execute_tool env "check_order_status" args u1 w
          = (Ok {| tr_call_id := call_id_in env w;
                   tr_tool_name := "check_order_status";
                   tr_result :=
                     POrder
                       {| oi_order_id := o_id o; oi_status := o_status o;
                          oi_total_amount := o_total_amount o;
                          oi_created_at := isoformat env (o_created_at o);
                          oi_shipping_address :=
                            Some (o_shipping_address o) |};
                   tr_success := true; tr_error_message := None |}, w')).
Proof.
  split; [reflexivity |].
  intros n o Hn Ho. rewrite execute_tool_unfold.
  unfold execute_tool_body, bind, lift, ret, arg_item. simpl.
  rewrite Hn. simpl.
  change (get_order (tool_entry "check_order_status" args w) n)
    with (get_order w n).
  rewrite Ho. eauto.
Qed.

Lemma check_order_status_ignores_caller_witness :
  exists w',
    execute_tool (Demo.env (Ok []) Demo.llm_down) "check_order_status"
      {[ "order_id" := VInt 42 ]} None Demo.world
    = (Ok {| tr_call_id := "123e4567";
             tr_tool_name := "check_order_status";
             tr_result :=
               POrder
                 {| oi_order_id := 42; oi_status := "shipped";
                    oi_total_amount := 8499 # 100;
                    oi_created_at := "2024-01-01T00:00:00";
                    oi_shipping_address := Some "1 Main Street" |};
             tr_success := true; tr_error_message := None |}, w').
Proof.
  apply (proj2 (check_order_status_ignores_caller
                  (Demo.env (Ok []) Demo.llm_down)
                  {[ "order_id" := VInt 42 ]} None (Some 7) Demo.world)
           42 Demo.order42); reflexivity.
Defined.

(** Case analysis of a monadic computation that is known to return. *)
Ltac run_cases H :=
  repeat
    (cbv beta zeta delta [bind ret lift raise] in H;
     match type of H with
     | (Ok _, _) = (Ok _, _) => injection H as <- <-
     | (Raise _, _) = (Ok _, _) => discriminate H
     | context [match ?x with _ => _ end] => destruct x eqn:?
     end).

(** What a result of the body of [execute_tool] can be. *)
Lemma execute_tool_body_returns env cid name args uid w r w' :
  execute_tool_body env cid name args uid w = (Ok r, w') ->
  tr_call_id r = cid /\ tr_tool_name r = name
  /\ (tr_success r = true /\ tr_error_message r = None
      \/ tr_success r = false /\ tr_result r = PNone
         /\ (name = "get_product_details"
             /\ tr_error_message r = Some "Product not found"
             \/ name = "check_order_status"
                /\ tr_error_message r = Some "Order not found"
             \/ name = "get_user_orders" /\ truthy_int uid = None
                /\ tr_error_message r
                   = Some "Please log in to view your orders"
             \/ ~ In name registered_tools
                /\ tr_error_message r = Some ("Unknown tool: " +:+ name))).
Proof.
  unfold execute_tool_body. intros H.
  destruct (String.eqb name "search_products") eqn:E1.
  { run_cases H. simpl. auto. }
  destruct (String.eqb name "get_product_details") eqn:E2.
  { apply String.eqb_eq in E2. run_cases H; simpl; auto 15. }
  destruct (String.eqb name "get_recommendations") eqn:E3.
  { run_cases H; simpl; auto. }
  destruct (String.eqb name "check_order_status") eqn:E4.
  { apply String.eqb_eq in E4. run_cases H; simpl; auto 15. }
  destruct (String.eqb name "get_user_orders") eqn:E5.
  { apply String.eqb_eq in E5. run_cases H; simpl; auto 15. }
  run_cases H. simpl. repeat split. right. repeat split.
  do 3 right. split; [| reflexivity].
  apply String.eqb_neq in E1, E2, E3, E4, E5.
  unfold registered_tools. simpl. intuition congruence.
Qed.

(** The failing paths of the body, one by one. *)

Lemma body_unknown_tool env cid name args uid w :
  ~ In name registered_tools ->
  execute_tool_body env cid name args uid w
  = (Ok {| tr_call_id := cid; tr_tool_name := name; tr_result := PNone;
           tr_success := false;
           tr_error_message := Some ("Unknown tool: " +:+ name) |}, w).
Proof.
  intros Hn. unfold execute_tool_body, registered_tools in *. simpl in Hn.
  repeat match goal with
         | |- context [String.eqb name ?s] =>
             let E := fresh "E" in
             destruct (String.eqb name s) eqn:E;
             [apply String.eqb_eq in E; subst; exfalso; apply Hn; auto 10 |]
         end.
  reflexivity.
Qed.

Lemma body_missing_order_id env cid args uid w :
  args !! "order_id" = None ->
  execute_tool_body env cid "check_order_status" args uid w
  = (Raise "'order_id'", w).
Proof.
  intros H. unfold execute_tool_body, bind, lift, arg_item. simpl.
  now rewrite H.
Qed.

Lemma body_order_not_found env cid args uid w n :
  args !! "order_id" = Some (VInt n) ->
  get_order w n = None ->
  execute_tool_body env cid "check_order_status" args uid w
  = (Ok {| tr_call_id := cid; tr_tool_name := "check_order_status";
           tr_result := PNone; tr_success := false;
           tr_error_message := Some "Order not found" |}, w).
Proof.
  intros H Ho. unfold execute_tool_body, bind, lift, arg_item. simpl.
  rewrite H. simpl. now rewrite Ho.
Qed.

Lemma body_product_not_found env cid args uid w n :
  args !! "product_id" = Some (VInt n) ->
  n <> 0 ->
  List.find (fun p => (p_id p =? n) && p_is_active p) (products w) = None ->
  execute_tool_body env cid "get_product_details" args uid w
  = (Ok {| tr_call_id := cid; tr_tool_name := "get_product_details";
           tr_result := PNone; tr_success := false;
           tr_error_message := Some "Product not found" |}, w).
Proof.
  intros H Hn Hp. unfold execute_tool_body, bind, lift, arg_item, arg.
  simpl. rewrite H. simpl.
  destruct (n =? 0) eqn:E; [lia |]. simpl. now rewrite Hp.
Qed.

Lemma body_unauthenticated env cid args uid w :
  truthy_int uid = None ->
  execute_tool_body env cid "get_user_orders" args uid w
  = (Ok {| tr_call_id := cid; tr_tool_name := "get_user_orders";
           tr_result := PNone; tr_success := false;
           tr_error_message := Some "Please log in to view your orders" |},
     w).
Proof.
  intros H. unfold execute_tool_body. simpl. now rewrite H.
Qed.

(** C2 (as amended): [execute_tool] returns a [ToolResult] for every
    tool name, argument mapping and caller, and never raises. A result
    is either a success without error message, or a failure without
    payload whose message is non-empty or is the text of the exception
    that the body raised. An unregistered name fails with "Unknown tool: "
    followed by the name; [check_order_status] without [order_id] fails
    with the text of the [KeyError]; an order or a product that is not
    found, and [get_user_orders] without an authenticated caller, fail
    with their fixed messages; an exception raised below fails with the
    text of that exception. (A [search_products] call without [query] is
    not a failing path: the query defaults to the empty string.) *)
Theorem execute_tool_total env name args uid w :
  exists r w',
    execute_tool env name args uid w = (Ok r, w')
    /\ tr_tool_name r = name
    /\ (tr_success r = true /\ tr_error_message r = None
        \/ tr_success r = false /\ tr_result r = PNone
           /\ exists msg,
                tr_error_message r = Some msg
                /\ (msg <> EmptyString
                    \/ exists w1,
                         execute_tool_body env (call_id_in env w) name args
                           uid (tool_entry name args w) = (Raise msg, w1)))
    /\ (~ In name registered_tools ->
        tr_success r = false
        /\ tr_error_message r = Some ("Unknown tool: " +:+ name))
    /\ (name = "check_order_status" -> args !! "order_id" = None ->
        tr_success r = false /\ tr_error_message r = Some "'order_id'")
    /\ (forall n, name = "check_order_status" ->
        args !! "order_id" = Some (VInt n) -> get_order w n = None ->
        tr_success r = false /\ tr_error_message r = Some "Order not found")
    /\ (forall n, name = "get_product_details" ->
        args !! "product_id" = Some (VInt n) -> n <> 0 ->
        List.find (fun p => (p_id p =? n) && p_is_active p) (products w)
        = None ->
        tr_success r = false
        /\ tr_error_message r = Some "Product not found")
    /\ (name = "get_user_orders" -> truthy_int uid = None ->
        tr_success r = false
        /\ tr_error_message r = Some "Please log in to view your orders")
    /\ (forall e w1,
          execute_tool_body env (call_id_in env w) name args uid
            (tool_entry name args w) = (Raise e, w1) ->
          tr_success r = false /\ tr_error_message r = Some e).
Proof.
  rewrite execute_tool_unfold.
  destruct (execute_tool_body _ _ _ _ _ _) as [[r | e] w1] eqn:Hb;
    eexists _, _; (split; [reflexivity |]).
  - pose proof (execute_tool_body_returns _ _ _ _ _ _ _ _ Hb)
      as (_ & Hname & Hshape).
    split; [exact Hname |]. split.
    { destruct Hshape as [? | (Hf & Hr & Hmsg)]; [now left | right].
      split; [exact Hf |]. split; [exact Hr |].
      destruct Hmsg as [[_ ->] | [[_ ->] | [(_ & _ & ->) | [_ ->]]]];
        eexists; (split; [reflexivity | left; discriminate]). }
    split.
    { intros Hn. rewrite (body_unknown_tool _ _ _ _ _ _ Hn) in Hb.
      now injection Hb as <- <-. }
    split.
    { intros -> Ha. rewrite (body_missing_order_id _ _ _ _ _ Ha) in Hb.
      discriminate. }
    split.
    { intros n -> Ha Ho.
      rewrite (body_order_not_found _ _ _ _ _ n Ha) in Hb by exact Ho.
      now injection Hb as <- <-. }
    split.
    { intros n -> Ha Hn Hp.
      rewrite (body_product_not_found _ _ _ _ _ n Ha Hn) in Hb by exact Hp.
      now injection Hb as <- <-. }
    split.
    { intros -> Hu. rewrite (body_unauthenticated _ _ _ _ _ Hu) in Hb.
      now injection Hb as <- <-. }
    discriminate.
  - simpl. split; [reflexivity |]. split.
    { right. repeat split. exists e. split; [reflexivity |].
      right. eauto. }
    split.
    { intros Hn. rewrite (body_unknown_tool _ _ _ _ _ _ Hn) in Hb.
      discriminate. }
    split.
    { intros -> Ha. rewrite (body_missing_order_id _ _ _ _ _ Ha) in Hb.
      now injection Hb as <- <-. }
    split.
    { intros n -> Ha Ho.
      rewrite (body_order_not_found _ _ _ _ _ n Ha) in Hb by exact Ho.
      discriminate. }
    split.
    { intros n -> Ha Hn Hp.
      rewrite (body_product_not_found _ _ _ _ _ n Ha Hn) in Hb by exact Hp.
      discriminate. }
    split.
    { intros -> Hu. rewrite (body_unauthenticated _ _ _ _ _ Hu) in Hb.
      discriminate. }
    intros e' w2 [= <- <-]. auto.
Qed.

Lemma execute_tool_total_witness :
  exists r w',
    execute_tool (Demo.env (Ok []) Demo.llm_down) "delete_everything" ∅
      None Demo.world = (Ok r, w')
    /\ tr_success r = false
    /\ tr_error_message r = Some "Unknown tool: delete_everything".
Proof.
  destruct (execute_tool_total (Demo.env (Ok []) Demo.llm_down)
              "delete_everything" ∅ None Demo.world)
    as (r & w' & E & _ & _ & Hunknown & _).
  exists r, w'. split; [exact E |].
  apply Hunknown. unfold registered_tools. simpl. intuition discriminate.
Defined.

(** C2 as stated fails twice. A [search_products] call that lacks the
    required [query] succeeds, and a downstream exception whose text is
    empty gives a failure with an empty error message. *)
Lemma execute_tool_claimed_failures :
  (exists w',
     execute_tool (Demo.env (Ok []) Demo.llm_down) "search_products" ∅
       None Demo.world
     = (Ok {| tr_call_id := "123e4567"; tr_tool_name := "search_products";
              tr_result := PProducts []; tr_success := true;
              tr_error_message := None |}, w'))
  /\ (exists w',
        execute_tool (Demo.env (Raise EmptyString) Demo.llm_down)
          "search_products" {[ "query" := VStr "headphones" ]} None
          Demo.world
        = (Ok {| tr_call_id := "123e4567";
                 tr_tool_name := "search_products";
                 tr_result := PNone; tr_success := false;
                 tr_error_message := Some EmptyString |}, w')).
Proof. split; eexists; vm_compute; reflexivity. Qed.

(** ** The result count requested from the vector index *)

Lemma py_min10_capped v t :
  py_min10 v = Ok t -> exists q, num_of t = Some q /\ (q <= 10)%Q.
Proof.
  unfold py_min10. destruct (num_of v) as [q |] eqn:Hv; [| discriminate].
  destruct (Qlt_le_dec 10 q) as [Hlt | Hle]; intros [= <-].
  - exists (inject_Z 10). split; [reflexivity | apply Qle_refl].
  - exists q. auto.
Qed.

Lemma py_min10_int n : py_min10 (VInt n) = Ok (VInt (Z.min n 10)).
Proof.
  unfold py_min10. simpl.
  destruct (Qlt_le_dec 10 (inject_Z n)) as [Hlt | Hle].
  - change 10%Q with (inject_Z 10) in Hlt. rewrite <- Zlt_Qlt in Hlt.
    do 2 f_equal. lia.
  - change 10%Q with (inject_Z 10) in Hle. rewrite <- Zle_Qle in Hle.
    do 2 f_equal. lia.
Qed.

(** [search] issues at most one index query, with the [top_k] it was
    given, whatever its outcome. *)
Lemma search_index_log env query top_k cat minp maxp min_score w :
  let w' := snd (search env query top_k cat minp maxp min_score w) in
  index_log w' = index_log w
  \/ exists qp, index_log w' = qp :: index_log w /\ qp_top_k qp = top_k.
Proof.
  unfold search, bind, lift, query_index.
  destruct (encode env query) as [emb | e]; [| now left].
  destruct (index_query env _) as [ms | e]; simpl; right; eauto.
Qed.

Lemma find_similar_products_index_log env product_id top_k w :
  let w' := snd (find_similar_products env product_id top_k w) in
  index_log w' = index_log w
  \/ exists qp,
       index_log w' = qp :: index_log w
       /\ py_add1 top_k = Ok (qp_top_k qp).
Proof.
  unfold find_similar_products, bind, lift.
  destruct (sql_key env product_id) as [key | e]; [| now left].
  destruct (key ≫= get_product w) as [p |]; [| now left].
  destruct (py_add1 top_k) as [k1 | e] eqn:Hk; [| now left].
  pose proof (search_index_log env (VStr (_product_to_text env p)) k1
                VNone VNone VNone (Some (2 # 10)) w) as Hs.
  destruct (search env _ _ _ _ _ _ w) as [[results | e] w1]; simpl in *;
    (destruct Hs as [Hs | (qp & Hs & <-)]; [now left | right; eauto]).
Qed.

(** C8 (as amended): of the two tools that accept [limit], only
    [search_products] caps it. The one index query that
    [search_products] can issue asks for [min(limit, 10)] results, with
    [limit] defaulting to 5: a number that is at most 10. The query
    issued by [get_recommendations] asks for [limit] results, or for
    [limit + 1] when similar products are looked up, with [limit]
    defaulting to 5 and no upper bound. *)
Theorem requested_result_count env args uid w :
  (let w' := snd (execute_tool env "search_products" args uid w) in
   index_log w' = index_log w
   \/ exists qp,
        index_log w' = qp :: index_log w
        /\ py_min10 (default (VInt 5) (args !! "limit")) = Ok (qp_top_k qp)
        /\ (exists q, num_of (qp_top_k qp) = Some q /\ (q <= 10)%Q)
        /\ (args !! "limit" = None -> qp_top_k qp = VInt 5)
        /\ (forall n, args !! "limit" = Some (VInt n) ->
            qp_top_k qp = VInt (Z.min n 10)))
  /\ (let w' := snd (execute_tool env "get_recommendations" args uid w) in
      index_log w' = index_log w
      \/ exists qp,
           index_log w' = qp :: index_log w
           /\ (qp_top_k qp = default (VInt 5) (args !! "limit")
               \/ py_add1 (default (VInt 5) (args !! "limit"))
                  = Ok (qp_top_k qp))).
Proof.
  split.
  - rewrite execute_tool_unfold. unfold execute_tool_body, bind, lift.
    cbv beta iota delta [String.eqb Ascii.eqb Bool.eqb].
    destruct (py_min10 _) as [top_k | e] eqn:Hk; [| left; reflexivity].
    cbv beta iota.
    match goal with |- context [search env ?q ?k ?c ?a ?b ?m ?w0] =>
      pose proof (search_index_log env q k c a b m w0) as Hs;
      destruct (search env q k c a b m w0) as [[results | e] w1]
    end; simpl in *;
      (destruct Hs as [Hs | (qp & Hs & <-)]; [left; exact Hs | right]);
      (exists qp; split; [exact Hs |]; split; [reflexivity |];
       split; [exact (py_min10_capped _ _ Hk) |]; split;
       [intros Hn; rewrite Hn in Hk; simpl default in Hk;
        rewrite py_min10_int in Hk; injection Hk as <-; reflexivity
       | intros n Hn; rewrite Hn in Hk; simpl default in Hk;
         rewrite py_min10_int in Hk; injection Hk as <-; reflexivity]).
  - rewrite execute_tool_unfold. unfold execute_tool_body, bind, lift.
    cbv beta iota delta [String.eqb Ascii.eqb Bool.eqb].
    destruct (truthy (arg args "product_id")).
    + destruct (arg_item args "product_id") as [v | e]; [| left; reflexivity].
      cbv beta iota.
      match goal with |- context [find_similar_products env ?v ?k ?w0] =>
        pose proof (find_similar_products_index_log env v k w0) as Hs;
        destruct (find_similar_products env v k w0) as [[results | e] w1]
      end; simpl in *;
        (destruct Hs as [Hs | (qp & Hs & Hq)]; [left; exact Hs | right; eauto]).
    + destruct (truthy (arg args "preferences")
                || truthy (arg args "category")).
      * cbv beta iota.
        match goal with |- context [search env ?q ?k ?c ?a ?b ?m ?w0] =>
          pose proof (search_index_log env q k c a b m w0) as Hs;
          destruct (search env q k c a b m w0) as [[results | e] w1]
        end; simpl in *;
          (destruct Hs as [Hs | (qp & Hs & Hq)];
           [left; exact Hs | right; eauto]).
      * left.
        match goal with |- context [List.fold_right ?f ?a ?l] =>
          destruct (List.fold_right f a l) end; reflexivity.
Qed.

(** C8 as stated fails for [get_recommendations]: a [limit] of 1000 is
    passed to the index as it is, and as 1001 on the similar-products
    path. *)
Lemma get_recommendations_limit_uncapped :
  map qp_top_k
    (index_log
       (snd (execute_tool (Demo.env (Ok []) Demo.llm_down)
               "get_recommendations"
               {[ "preferences" := VStr "a gift"; "limit" := VInt 1000 ]}
               None Demo.world)))
  = [VInt 1000]
  /\ map qp_top_k
       (index_log
          (snd (execute_tool (Demo.env (Ok []) Demo.llm_down)
                  "get_recommendations"
                  {[ "product_id" := VInt 1; "limit" := VInt 1000 ]}
                  None Demo.world)))
     = [VInt 1001].
Proof. split; vm_compute; reflexivity. Qed.

Lemma requested_result_count_witness :
  map qp_top_k
    (index_log
       (snd (execute_tool (Demo.env (Ok []) Demo.llm_down) "search_products"
               {[ "query" := VStr "headphones"; "limit" := VInt 50 ]}
               None Demo.world)))
  = [VInt 10].
Proof.
  destruct (proj1 (requested_result_count (Demo.env (Ok []) Demo.llm_down)
                     {[ "query" := VStr "headphones"; "limit" := VInt 50 ]}
                     None Demo.world))
    as [H | (qp & Hlog & _ & _ & _ & Hint)].
  - vm_compute in H. discriminate H.
  - rewrite Hlog. simpl. rewrite (Hint 50); reflexivity.
Defined.

(** ** Frame properties *)

Section Frame.

Context (R : World -> World -> Prop).
Hypothesis R_refl : forall w, R w w.
Hypothesis R_trans : forall w1 w2 w3, R w1 w2 -> R w2 w3 -> R w1 w3.

Lemma keeps_ret {A} (a : A) : keeps R (ret a).
Proof. intros w. apply R_refl. Qed.

Lemma keeps_raise {A} (e : exn) : keeps R (@raise A e).
Proof. intros w. apply R_refl. Qed.

Lemma keeps_lift {A} (r : result A) : keeps R (lift r).
Proof. intros w. apply R_refl. Qed.

Lemma keeps_read {A} (f : World -> result A) : keeps R (fun w => (f w, w)).
Proof. intros w. apply R_refl. Qed.

Lemma keeps_bind {A B} (m : M A) (k : A -> M B) :
  keeps R m -> (forall a, keeps R (k a)) -> keeps R (bind m k).
Proof.
  intros Hm Hk w. unfold final, bind.
  specialize (Hm w). unfold final in Hm.
  destruct (m w) as [[a | e] w1]; simpl in *; [| exact Hm].
  eapply R_trans; [exact Hm | apply Hk].
Qed.

Lemma keeps_try_except {A} (m : M A) (h : exn -> M A) :
  keeps R m -> (forall e, keeps R (h e)) -> keeps R (try_except m h).
Proof.
  intros Hm Hh w. unfold final, try_except.
  specialize (Hm w). unfold final in Hm.
  destruct (m w) as [[a | e] w1]; simpl in *; [exact Hm |].
  eapply R_trans; [exact Hm | apply Hh].
Qed.

Lemma keeps_eta {A} (m : M A) : keeps R m -> keeps R (fun w => m w).
Proof. exact (fun H => H). Qed.

(** A computation that first looks at the world. *)
Lemma keeps_inspect {A} (F : World -> M A) :
  (forall w0, keeps R (F w0)) -> keeps R (fun w => F w w).
Proof. intros H w. apply (H w w). Qed.

Section Tools.

Context (env : Env).
Hypothesis R_query_index : forall qp, keeps R (query_index env qp).
Hypothesis R_draw_uuid : keeps R (draw_uuid env).
Hypothesis R_log_tool : forall name args, keeps R (log_tool name args).

Ltac keeps_step :=
  match goal with
  | |- keeps R (bind _ _) => apply keeps_bind; [| intro]
  | |- keeps R (try_except _ _) => apply keeps_try_except; [| intro]
  | |- keeps R (ret _) => apply keeps_ret
  | |- keeps R (raise _) => apply keeps_raise
  | |- keeps R (lift _) => apply keeps_lift
  | |- keeps R (query_index _ _) => apply R_query_index
  | |- keeps R (draw_uuid _) => apply R_draw_uuid
  | |- keeps R (log_tool _ _) => apply R_log_tool
  | |- keeps R (fun w => (_, w)) => apply keeps_read
  | |- keeps R (if ?c then _ else _) => destruct c
  | |- keeps R (match ?c with _ => _ end) => destruct c
  | |- keeps R (fun w => _ w) => apply keeps_eta
  end.

Lemma keeps_search query top_k cat minp maxp min_score :
  keeps R (search env query top_k cat minp maxp min_score).
Proof. unfold search. repeat keeps_step. Qed.

Lemma keeps_find_similar_products product_id top_k :
  keeps R (find_similar_products env product_id top_k).
Proof.
  unfold find_similar_products. keeps_step; [keeps_step |].
  apply (keeps_inspect
           (fun w0 w =>
              match a ≫= get_product w0 with
              | Some product => _ w
              | None => ret [] w
              end)).
  intros w0. destruct (a ≫= get_product w0).
  - repeat (keeps_step || apply keeps_search).
  - apply (keeps_ret []).
Qed.

Lemma keeps_execute_tool_body cid name args uid :
  keeps R (execute_tool_body env cid name args uid).
Proof.
  unfold execute_tool_body.
  repeat (keeps_step || apply keeps_search
          || apply keeps_find_similar_products).
  - apply (keeps_inspect
             (fun w0 w =>
                match a0 ≫= get_order w0 with
                | Some order => ret _ w
                | None => ret _ w
                end)).
    intros w0. destruct (a0 ≫= get_order w0); apply keeps_ret.
Qed.

Lemma keeps_execute_tool name args uid :
  keeps R (execute_tool env name args uid).
Proof.
  unfold execute_tool.
  repeat (keeps_step || apply keeps_execute_tool_body).
Qed.

Lemma keeps_run_tool_calls calls uid t :
  keeps R (run_tool_calls env calls uid t).
Proof.
  revert t. induction calls as [| c calls IH]; intros t; simpl.
  - apply keeps_ret.
  - repeat (keeps_step || apply keeps_execute_tool || apply IH).
Qed.

Section Turn.

Hypothesis R_chat : forall req, keeps R (chat env req).
Hypothesis R_save :
  forall sid role text intent entities calls results,
    keeps R (_save_message env sid role text intent entities calls results).
Hypothesis R_session :
  forall sid uid, keeps R (_get_or_create_session env sid uid).

Ltac turn_step :=
  keeps_step || apply R_chat || apply R_save || apply R_session
  || apply keeps_execute_tool || apply keeps_run_tool_calls.


Lemma keeps_generate_response message system_prompt history tool_results :
  keeps R (generate_response env message system_prompt history tool_results).
Proof. unfold generate_response. repeat turn_step. Qed.

Lemma keeps_call_with_tools message system_prompt history :
  keeps R (call_with_tools env message system_prompt history).
Proof. unfold call_with_tools. repeat turn_step. Qed.

Lemma keeps_tool_loop remaining message history uid t :
  keeps R (tool_loop env remaining message history uid t).
Proof.
  revert t. induction remaining as [| n IH]; intros t; simpl.
  - apply keeps_ret.
  - repeat (turn_step || apply keeps_call_with_tools || apply IH).
Qed.

Lemma keeps_intent_branch intent_result message history uid max_iterations :
  keeps R (intent_branch env intent_result message history uid
             max_iterations).
Proof.
  unfold intent_branch.
  repeat (turn_step || apply keeps_generate_response
          || apply keeps_tool_loop).
Qed.


End Turn.

End Tools.

End Frame.

(** *** The two instances *)






Lemma same_llm_log_execute_tool env name args uid :
  keeps same_llm_log (execute_tool env name args uid).
Proof.
  apply keeps_execute_tool;
    first [ intros w0; hnf; reflexivity
          | intros w1 w2 w3; unfold same_llm_log; congruence
          | intros; intros w0; hnf; reflexivity ].
Qed.

Lemma same_llm_log_run_tool_calls env calls uid t :
  keeps same_llm_log (run_tool_calls env calls uid t).
Proof.
  apply keeps_run_tool_calls;
    first [ intros w0; hnf; reflexivity
          | intros w1 w2 w3; unfold same_llm_log; congruence
          | intros; intros w0; hnf; reflexivity ].
Qed.


(** ** The message log *)

(** A row older than every row of [l] sorts after all of them. *)
Lemma insert_desc_oldest m l :
  Forall (fun x => msg_created_at m < msg_created_at x) l ->
  insert_desc m l = l ++ [m].
Proof.
  induction 1 as [| x l Hx _ IH]; [reflexivity |].
  simpl. destruct (msg_created_at x <=? msg_created_at m) eqn:E; [lia |].
  now rewrite IH.
Qed.

(** On rows in strictly increasing [created_at] order, the descending
    sort is the reversal. *)
Lemma order_by_created_at_desc_sorted l :
  StronglySorted (fun a b => msg_created_at a < msg_created_at b) l ->
  order_by_created_at_desc l = rev l.
Proof.
  induction 1 as [| x l _ IH Hx]; [reflexivity |].
  unfold order_by_created_at_desc in *. simpl. rewrite IH.
  apply insert_desc_oldest. apply Forall_rev. exact Hx.
Qed.

Lemma StronglySorted_filter {A} (R : A -> A -> Prop) (f : A -> bool) l :
  StronglySorted R l -> StronglySorted R (List.filter f l).
Proof.
  induction 1 as [| x l _ IH Hx]; simpl; [constructor |].
  destruct (f x); [| exact IH].
  constructor; [exact IH |].
  apply List.Forall_forall. intros y Hy. apply List.filter_In in Hy.
  rewrite List.Forall_forall in Hx. now apply Hx.
Qed.


(** A successful write appends one row, stamped with the clock. *)
Lemma save_message_ok env sid role text intent entities calls results w m w' :
  _save_message env sid role text intent entities calls results w
  = (Ok m, w') ->
  messages w' = messages w ++ [m]
  /\ msg_session_id m = sid /\ msg_role m = role
  /\ text = Some (msg_content m)
  /\ msg_created_at m = utcnow env (clock_reads w)
  /\ clock_reads w' = S (clock_reads w).
Proof.
  unfold _save_message, bind, ret, lift, raise.
  destruct (results ≫= nonempty_or_none) as [l |];
    [destruct (dumps_tool_results l) |]; destruct text; try discriminate;
    intros [= <- <-]; simpl; auto 10.
Qed.

Lemma chronological_after_save env w m w' :
  clock_strictly_increasing env ->
  chronological env w ->
  messages w' = messages w ++ [m] ->
  msg_created_at m = utcnow env (clock_reads w) ->
  clock_reads w' = S (clock_reads w) ->
  chronological env w'.
Proof.
  intros Hclock [Hs Hb] Hm Ht Hc. unfold chronological.
  rewrite Hm, Hc.
  assert (Hnext : utcnow env (clock_reads w) < utcnow env (S (clock_reads w)))
    by (apply Hclock; lia).
  split.
  - clear Hm Hc. induction Hs as [| x l Hl IH Hx]; simpl.
    + repeat constructor.
    + inversion Hb as [| ? ? Hbx Hbl]; subst.
      constructor; [now apply IH |].
      apply Forall_app. split; [exact Hx |].
      constructor; [lia | constructor].
  - apply Forall_app. split.
    + eapply List.Forall_impl; [| exact Hb]. simpl. intros; lia.
    + constructor; [lia | constructor].
Qed.


Lemma session_pairs_app sid l1 l2 :
  session_pairs sid (l1 ++ l2) = session_pairs sid l1 ++ session_pairs sid l2.
Proof. unfold session_pairs. now rewrite List.filter_app, map_app. Qed.





(** ** The turn: tool loop and order lookup *)

(** A dictionary without the key ["tool_name"] stops
    [generate_response] before any request is made. *)
Lemma generate_response_missing_key env message system_prompt history d rest w :
  d !! "tool_name" = None ->
  generate_response env message system_prompt history (Some (d :: rest)) w
  = (Raise "'tool_name'", w).
Proof.
  intros H. unfold generate_response, bind, lift. simpl.
  unfold getitem. now rewrite H.
Qed.

(** Without tool results, [generate_response] always returns. *)
Lemma generate_response_no_context env message system_prompt history w :
  exists r w',
    generate_response env message system_prompt history (Some []) w
    = (Ok r, w')
    /\ generate_response env message system_prompt history None w
       = (Ok r, w')
    /\ tool_log w' = tool_log w.
Proof.
  unfold generate_response, try_except, bind, lift, ret, chat. simpl.
  destruct (chat_completions_create _ _ _) as [response | e]; simpl;
    [destruct (first_choice response) |]; simpl; eauto.
Qed.

Lemma no_tool_name_record t name result :
  no_tool_name t -> no_tool_name (record_tool t name result).
Proof.
  intros H. unfold no_tool_name, record_tool. simpl.
  apply Forall_app. split; [exact H |].
  constructor; [| constructor]. vm_compute. reflexivity.
Qed.

Lemma run_tool_calls_accumulates env calls uid t w t' w' :
  run_tool_calls env calls uid t w = (Ok t', w') ->
  no_tool_name t ->
  no_tool_name t'
  /\ length (accumulated_results t')
     = (length (accumulated_results t) + length calls)%nat
  /\ response t' = response t.
Proof.
  revert t w. induction calls as [| c calls IH]; intros t w H Ht.
  - simpl in H. unfold ret in H. injection H as <- <-. simpl.
    auto with arith.
  - simpl in H. unfold bind in H.
    destruct (execute_tool env _ _ uid w) as [[r | e] w1]; [| discriminate].
    apply IH in H.
    + destruct H as (H1 & H2 & H3). split; [exact H1 |].
      split; [| exact H3].
      rewrite H2. simpl. rewrite length_app. simpl. lia.
    + unfold no_tool_name, add_suggestions. simpl.
      apply (no_tool_name_record t _ r Ht).
Qed.

Lemma tool_loop_accumulates env n message history uid t w t' w' :
  tool_loop env n message history uid t w = (Ok t', w') ->
  no_tool_name t -> no_tool_name t'.
Proof.
  revert t w. induction n as [| n IH]; intros t w H Ht.
  - simpl in H. unfold ret in H. injection H as <- <-. exact Ht.
  - cbn [tool_loop] in H. unfold bind, ret in H.
    destruct (call_with_tools env _ _ _ w) as [[r | e] w1]; [| discriminate].
    destruct (tool_calls r) as [[| c cs] |].
    + destruct (String.eqb (content r) EmptyString); injection H as <- <-;
        exact Ht.
    + destruct (run_tool_calls env (c :: cs) uid t w1) as [[t1 | e] w2] eqn:Hr;
        cbv beta iota in H; [| discriminate].
      apply run_tool_calls_accumulates in Hr; [| exact Ht].
      eapply IH; [exact H | tauto].
    + destruct (String.eqb (content r) EmptyString); injection H as <- <-;
        exact Ht.
Qed.

(** *** Rounds of the tool loop *)

Lemma call_with_tools_round env message system_prompt history w :
  exists r w',
    call_with_tools env message system_prompt history w = (Ok r, w')
    /\ tool_rounds w' = S (tool_rounds w).
Proof.
  destruct (call_with_tools_returns env message system_prompt history w)
    as (r & w' & E & Hlog).
  exists r, w'. split; [exact E |].
  unfold tool_rounds. now rewrite Hlog.
Qed.

#[local] Arguments render_tool_context : simpl never.

Lemma generate_response_rounds env message system_prompt history results w :
  tool_rounds (final (generate_response env message system_prompt history
                        results) w)
  = tool_rounds w.
Proof.
  unfold final, generate_response, try_except, bind, lift, ret, chat.
  destruct results as [[| r rs] |]; simpl;
    try destruct (render_tool_context _ _ _); simpl;
    try (destruct (chat_completions_create _ _ _) as [response | e]; simpl;
         [destruct (first_choice response) |]; simpl);
    reflexivity.
Qed.

Lemma run_tool_calls_rounds env calls uid t w :
  tool_rounds (final (run_tool_calls env calls uid t) w) = tool_rounds w.
Proof.
  unfold tool_rounds.
  now rewrite (same_llm_log_run_tool_calls env calls uid t w).
Qed.

(** The loop calls [call_with_tools] at most [remaining] times. *)
Lemma tool_loop_rounds_bounded env n message history uid t w :
  (tool_rounds (final (tool_loop env n message history uid t) w)
   <= tool_rounds w + n)%nat.
Proof.
  revert t w. induction n as [| n IH]; intros t w.
  - unfold final. cbn [tool_loop snd ret]. lia.
  - unfold final in *. cbn [tool_loop]. unfold bind, ret.
    destruct (call_with_tools_round env message (SYSTEM_PROMPT env)
                (context_history env history t) w)
      as (r & w1 & E & Hr).
    unfold context_history in E. rewrite E.
    destruct (tool_calls r) as [[| c cs] |].
    + destruct (String.eqb (content r) EmptyString); simpl; lia.
    + pose proof (run_tool_calls_rounds env (c :: cs) uid t w1) as Hrun.
      unfold final in Hrun.
      destruct (run_tool_calls env (c :: cs) uid t w1) as [[t1 | e] w2];
        simpl in Hrun |- *.
      * specialize (IH t1 w2). lia.
      * lia.
    + destruct (String.eqb (content r) EmptyString); simpl; lia.
Qed.

(** A round without tool invocations ends the loop: its text, when it
    has one, becomes the response. *)
Lemma tool_loop_stops_on_text env n message history uid t w r w1 :
  call_with_tools env message (SYSTEM_PROMPT env)
    (context_history env history t) w = (Ok r, w1) ->
  tool_calls r = None \/ tool_calls r = Some [] ->
  tool_loop env (S n) message history uid t w
  = (Ok (if String.eqb (content r) EmptyString then t
         else set_response t (Some (content r))), w1).
Proof.
  intros E Hcalls. cbn [tool_loop]. unfold bind, ret.
  unfold context_history in E. rewrite E.
  destruct Hcalls as [-> | ->]; destruct (String.eqb (content r) EmptyString);
    reflexivity.
Qed.

(** The whole branch of a product intent makes at most
    [max_tool_iterations] calls of [call_with_tools]. *)
Lemma product_branch_rounds_bounded env intent_result message history uid
    max_iterations w :
  is_product_intent (icr_intent intent_result) = true ->
  (tool_rounds
     (final (intent_branch env intent_result message history uid
               max_iterations) w)
   <= tool_rounds w + Z.to_nat max_iterations)%nat.
Proof.
  intros Hi. unfold final, intent_branch.
  pose proof (tool_loop_rounds_bounded env (Z.to_nat max_iterations) message
                history uid Turn_initial w) as Hloop.
  unfold final in Hloop.
  destruct (icr_intent intent_result); try discriminate;
    unfold bind, ret;
    destruct (tool_loop env _ _ _ _ _ w) as [[t | e] w1]; simpl in *;
    try exact Hloop;
    (destruct (response_is_empty (response t)); simpl; [| exact Hloop];
     pose proof (generate_response_rounds env message (SYSTEM_PROMPT env)
                   history (Some (accumulated_results t)) w1) as Hg;
     unfold final in Hg;
     destruct (generate_response _ _ _ _ _ w1) as [[r | e] w2];
     simpl in *; lia).
Qed.

(** When the loop leaves no response text and tool results were
    accumulated, the fallback raises [KeyError('tool_name')] instead of
    producing a response. *)
Lemma product_fallback_raises env intent_result message history uid
    max_iterations w t w1 :
  is_product_intent (icr_intent intent_result) = true ->
  tool_loop env (Z.to_nat max_iterations) message history uid Turn_initial w
  = (Ok t, w1) ->
  response_is_empty (response t) = true ->
  accumulated_results t <> [] ->
  intent_branch env intent_result message history uid max_iterations w
  = (Raise "'tool_name'", w1).
Proof.
  intros Hi Hloop Hempty Hacc.
  assert (Hkeys : no_tool_name t).
  { eapply tool_loop_accumulates; [exact Hloop | constructor]. }
  unfold intent_branch.
  destruct (icr_intent intent_result); try discriminate;
    unfold bind; rewrite Hloop, Hempty;
    (destruct (accumulated_results t) as [| d rest] eqn:Ha;
     [congruence |];
     unfold no_tool_name in Hkeys; rewrite Ha in Hkeys;
     inversion Hkeys; subst;
     now rewrite generate_response_missing_key).
Qed.

(** *** Order lookup *)

Lemma same_tool_log_body env cid name args uid :
  keeps same_tool_log (execute_tool_body env cid name args uid).
Proof.
  apply keeps_execute_tool_body;
    first [ intros w0; hnf; reflexivity
          | intros w1 w2 w3; unfold same_tool_log; congruence
          | intros; intros w0; hnf; reflexivity ].
Qed.

(** [execute_tool] returns, and enters exactly one tool. *)
Lemma execute_tool_logs env name args uid w :
  exists r w',
    execute_tool env name args uid w = (Ok r, w')
    /\ tool_log w' = (name, args) :: tool_log w.
Proof.
  rewrite execute_tool_unfold.
  pose proof (same_tool_log_body env (call_id_in env w) name args uid
                (tool_entry name args w)) as H.
  unfold final, same_tool_log in H.
  destruct (execute_tool_body _ _ _ _ _ _) as [[r | e] w1]; simpl in H;
    eexists _, _; split; try reflexivity; exact H.
Qed.

(** The branch of an order intent. With an order identifier it enters
    [check_order_status] with that identifier, otherwise with an
    authenticated caller it enters [get_user_orders]; in both cases the
    response synthesis then raises [KeyError('tool_name')]. With neither,
    no tool is entered and the response comes from [generate_response]
    without tool context. *)
Lemma order_branch_outcome env intent_result message history uid
    max_iterations w :
  is_order_intent (icr_intent intent_result) = true ->
  match truthy_int (order_id (icr_entities intent_result)),
        truthy_int uid with
  | Some oid, _ =>
      exists w',
        intent_branch env intent_result message history uid max_iterations w
        = (Raise "'tool_name'", w')
        /\ tool_log w'
           = ("check_order_status", {[ "order_id" := VInt oid ]})
             :: tool_log w
  | None, Some _ =>
      exists w',
        intent_branch env intent_result message history uid max_iterations w
        = (Raise "'tool_name'", w')
        /\ tool_log w' = ("get_user_orders", ∅) :: tool_log w
  | None, None =>
      exists r w',
        intent_branch env intent_result message history uid max_iterations w
        = (Ok (set_response Turn_initial r), w')
        /\ generate_response env message (SYSTEM_PROMPT env) history None w
           = (Ok r, w')
        /\ tool_log w' = tool_log w
  end.
Proof.
  intros Hi. unfold intent_branch.
  destruct (icr_intent intent_result); try discriminate;
    (destruct (truthy_int (order_id (icr_entities intent_result)))
       as [oid |];
     [| destruct (truthy_int uid) as [u |]]; unfold bind, ret;
     [ destruct (execute_tool_logs env "check_order_status"
                   {[ "order_id" := VInt oid ]} uid w)
         as (r & w1 & E & Hlog);
       rewrite E; exists w1; split; [| exact Hlog];
       cbn [accumulated_results record_tool Turn_initial app];
       rewrite generate_response_missing_key by reflexivity; reflexivity
     | destruct (execute_tool_logs env "get_user_orders" ∅ uid w)
         as (r & w1 & E & Hlog);
       rewrite E; exists w1; split; [| exact Hlog];
       cbn [accumulated_results record_tool Turn_initial app];
       rewrite generate_response_missing_key by reflexivity; reflexivity
     | destruct (generate_response_no_context env message
                   (SYSTEM_PROMPT env) history w)
         as (r & w1 & E & E' & Hlog);
       exists r, w1; simpl; rewrite E; auto ]).
Qed.

(** C7, at the failing input: an order_status turn whose entities carry
    order identifier 42. The tool [check_order_status] is entered once,
    with that identifier, and then [process_message] raises
    [KeyError('tool_name')]: no response is synthesized, and only the
    user message is persisted. *)
Theorem order_lookup_turn_raises :
  let out :=
    process_message
      (Demo.env_with (Ok [])
         (Demo.llm_script ORDER_STATUS Demo.wants_search
            "Your order has shipped.")
         Demo.entities_order_42)
      "where is my order 42" None (Some 7) 3 Demo.world in
  fst out = Raise "'tool_name'"
  /\ tool_log (snd out)
     = [("check_order_status", {[ "order_id" := VInt 42 ]})]
  /\ map (fun m => (msg_role m, msg_content m)) (messages (snd out))
     = [("user", "where is my order 42")].
Proof. vm_compute. repeat split. Qed.

(** The part of C7 that holds: a guest without order identifier gets a
    response, no tool is entered, and the bundle has neither tool names
    nor suggestions. *)
Lemma order_lookup_guest_turn :
  let out :=
    process_message
      (Demo.env_with (Ok [])
         (Demo.llm_script ORDER_STATUS Demo.wants_search
            "Please tell me your order number.")
         ExtractedEntities_empty)
      "where is my order" None None 3 Demo.world in
  (exists bundle,
     fst out = Ok bundle
     /\ acr_response bundle = "Please tell me your order number."
     /\ acr_tool_calls_made bundle = None
     /\ acr_suggestions bundle = None)
  /\ tool_log (snd out) = [].
Proof. vm_compute. split; [eexists; repeat split | reflexivity]. Qed.

(** C4, at the failing input: a product_search turn in which the
    provider asks for a tool in every round. [call_with_tools] is called
    three times, the three searches are executed, and then the fallback
    [generate_response] raises [KeyError('tool_name')]: no response is
    produced from the accumulated results, and only the user message is
    persisted. *)
Theorem tool_loop_fallback_raises :
  let out :=
    process_message
      (Demo.env_with (Ok [ {| m_id := 1; m_score := 9 # 10 |} ])
         (Demo.llm_script PRODUCT_SEARCH Demo.wants_search
            "Here is what I found.")
         ExtractedEntities_empty)
      "show me headphones" None None 3 Demo.world in
  fst out = Raise "'tool_name'"
  /\ tool_rounds (snd out) = 3%nat
  /\ map fst (tool_log (snd out))
     = ["search_products"; "search_products"; "search_products"]
  /\ map (fun m => (msg_role m, msg_content m)) (messages (snd out))
     = [("user", "show me headphones")].
Proof. vm_compute. repeat split. Qed.

(** The part of C4 that holds at a concrete input: a first round without
    tool invocations ends the loop, and its text is the response. *)
Lemma tool_loop_text_turn :
  let out :=
    process_message
      (Demo.env_with (Ok [])
         (Demo.llm_script PRODUCT_SEARCH
            {| cm_content := Some "We have many."; cm_tool_calls := None |}
            "Here is what I found.")
         ExtractedEntities_empty)
      "show me headphones" None None 3 Demo.world in
  (exists bundle,
     fst out = Ok bundle /\ acr_response bundle = "We have many.")
  /\ tool_rounds (snd out) = 1%nat.
Proof. vm_compute. split; [eexists; split |]; reflexivity. Qed.

(** * Further properties *)

(** ** Indexing *)

Lemma upserted_app a b : upserted (a ++ b) = upserted a ++ upserted b.
Proof. unfold upserted. now rewrite map_app, concat_app. Qed.

Lemma batch_limit_pos b : (1 <= batch_limit b)%nat.
Proof. unfold batch_limit. lia. Qed.

(** The loop, from a pending batch that is not full: it sends full
    batches only, and what it sends and leaves pending are the pending
    vectors followed by the vectors of the products, in order. *)
Lemma index_batches_ok env iw b products :
  forall vectors sent vs sent',
    index_batches env iw b products vectors sent = (Ok vs, sent') ->
    (length vectors < batch_limit b)%nat ->
    exists new all,
      sent' = sent ++ new
      /\ Forall2 (fun p v => product_vector env p = Ok v) products all
      /\ upserted new ++ vs = vectors ++ all
      /\ Forall (upsert_of_size (batch_limit b)) new
      /\ (length vs < batch_limit b)%nat.
Proof.
  induction products as [| p products IH]; intros vectors sent vs sent' H Hlen.
  - injection H as <- <-. exists [], []. rewrite !app_nil_r.
    repeat split; auto; constructor.
  - simpl in H. destruct (product_vector env p) as [v | e] eqn:Hv;
      [| discriminate].
    destruct (b <=? Z.of_nat (length (vectors ++ [v]))) eqn:Hfull;
      [apply Z.leb_le in Hfull | apply Z.leb_gt in Hfull].
    + unfold send in H.
      destruct (iw (length sent) (Upsert (vectors ++ [v]))); [| discriminate].
      apply IH in H; [| pose proof (batch_limit_pos b); simpl; lia].
      destruct H as (new & all & -> & Hall & Hup & Hnew & Hvs).
      exists (Upsert (vectors ++ [v]) :: new), (v :: all).
      split; [now rewrite <- app_assoc |].
      split; [now constructor |]. split.
      * unfold upserted in *. simpl in *. rewrite <- !app_assoc.
        now rewrite Hup.
      * split; [| exact Hvs]. constructor; [| exact Hnew].
        exists (vectors ++ [v]). split; [reflexivity |].
        rewrite length_app in *. simpl in *. unfold batch_limit in *. lia.
    + apply IH in H.
      * destruct H as (new & all & -> & Hall & Hup & Hnew & Hvs).
        exists new, (v :: all). split; [reflexivity |].
        split; [now constructor |]. split; [| now split].
        rewrite Hup. now rewrite <- app_assoc.
      * rewrite length_app in *. simpl in *. unfold batch_limit in *. lia.
Qed.

(** When the loop raises, either an embedding failed, and then only
    full batches have been sent and the pending vectors are lost, or
    the index refused a full batch, which is the last write made. *)
Lemma index_batches_raise env iw b products :
  forall vectors sent e sent',
    index_batches env iw b products vectors sent = (Raise e, sent') ->
    (length vectors < batch_limit b)%nat ->
    exists new done rest all pending,
      products = done ++ rest
      /\ Forall2 (fun p v => product_vector env p = Ok v) done all
      /\ sent' = sent ++ new
      /\ upserted new ++ pending = vectors ++ all
      /\ Forall (upsert_of_size (batch_limit b)) new
      /\ ((exists failing rest',
             rest = failing :: rest'
             /\ product_vector env failing = Raise e
             /\ (length pending < batch_limit b)%nat)
          \/ (pending = []
              /\ exists earlier last,
                   new = earlier ++ [last]
                   /\ iw (length (sent ++ earlier)) last = Raise e)).
Proof.
  induction products as [| p products IH]; intros vectors sent e sent' H Hlen.
  - discriminate.
  - simpl in H. destruct (product_vector env p) as [v | e'] eqn:Hv.
    + destruct (b <=? Z.of_nat (length (vectors ++ [v]))) eqn:Hfull;
        [apply Z.leb_le in Hfull | apply Z.leb_gt in Hfull].
      * assert (Hsize : upsert_of_size (batch_limit b)
                          (Upsert (vectors ++ [v]))).
        { exists (vectors ++ [v]). split; [reflexivity |].
          rewrite length_app in *. simpl in *. unfold batch_limit in *.
          lia. }
        unfold send in H.
        destruct (iw (length sent) (Upsert (vectors ++ [v]))) as [u | e']
          eqn:Hw.
        -- apply IH in H; [| pose proof (batch_limit_pos b); simpl; lia].
           destruct H as (new & done & rest & all & pending
                          & -> & Hall & -> & Hup & Hnew & Hcase).
           exists (Upsert (vectors ++ [v]) :: new), (p :: done), rest,
             (v :: all), pending.
           split; [reflexivity |]. split; [now constructor |].
           split; [now rewrite <- app_assoc |]. split.
           ++ unfold upserted in *. simpl in *. rewrite <- !app_assoc.
              now rewrite Hup.
           ++ split; [now constructor |].
              destruct Hcase as [Hcase | (Hp & earlier & last & -> & Hlast)];
                [now left | right].
              split; [exact Hp |].
              exists (Upsert (vectors ++ [v]) :: earlier), last.
              split; [reflexivity |].
              now rewrite <- app_assoc in Hlast.
        -- injection H as <- <-.
           exists [Upsert (vectors ++ [v])], [p], products, [v], [].
           split; [reflexivity |].
           split; [repeat constructor; exact Hv |].
           split; [reflexivity |].
           split; [unfold upserted; simpl; now rewrite !app_nil_r |].
           split; [now repeat constructor |]. right.
           split; [reflexivity |].
           exists [], (Upsert (vectors ++ [v])).
           split; [reflexivity |]. now rewrite app_nil_r.
      * apply IH in H.
        -- destruct H as (new & done & rest & all & pending
                          & -> & Hall & -> & Hup & Hnew & Hcase).
           exists new, (p :: done), rest, (v :: all), pending.
           split; [reflexivity |]. split; [now constructor |].
           split; [reflexivity |].
           split; [rewrite Hup; now rewrite <- app_assoc |].
           split; assumption.
        -- rewrite length_app in *. simpl in *. unfold batch_limit in *. lia.
    + injection H as <- <-.
      exists [], [], (p :: products), [], vectors. rewrite !app_nil_r.
      split; [reflexivity |]. split; [constructor |].
      split; [reflexivity |]. split; [reflexivity |].
      split; [constructor |]. left. exists p, products. auto.
Qed.

(** [index_product] for each product in turn sends one vector at a
    time. *)
Lemma index_each_ok env products all :
  Forall2 (fun p v => product_vector env p = Ok v) products all ->
  forall sent,
    index_each env accepting products sent
    = (Ok tt, sent ++ map (fun v => Upsert [v]) all).
Proof.
  induction 1 as [| p v products all Hv _ IH]; intros sent; simpl.
  - now rewrite app_nil_r.
  - unfold index_product, send. rewrite Hv. unfold accepting at 1.
    rewrite IH. now rewrite <- app_assoc.
Qed.

Lemma upserted_singletons all :
  upserted (map (fun v => Upsert [v]) all) = all.
Proof.
  induction all as [| v all IH]; [reflexivity |].
  unfold upserted in *. simpl. now rewrite IH.
Qed.

(** X1: when [index_all_products] returns, it returns the number of
    active products, and the writes it made are: full batches of
    [batch_size] vectors (of one vector when [batch_size] is below one),
    then at most one smaller, non-empty batch. Together the batches hold
    the vector of every active product exactly once, in catalog order:
    the same vectors that [index_product], called for each of them, sends
    to an index that accepts them. *)
Theorem index_all_products_batches env iw w b sent n sent' :
  index_all_products env iw w b sent = (Ok n, sent') ->
  let active := List.filter p_is_active (products w) in
  n = Z.of_nat (length active)
  /\ exists full last,
       sent' = sent ++ full ++ last
       /\ Forall2 (fun p v => product_vector env p = Ok v) active
            (upserted (full ++ last))
       /\ Forall (upsert_of_size (batch_limit b)) full
       /\ (last = []
           \/ exists batch,
                last = [Upsert batch]
                /\ (1 <= length batch < batch_limit b)%nat)
       /\ exists sent2,
            index_each env accepting active sent = (Ok tt, sent2)
            /\ upserted sent2 = upserted sent'.
Proof.
  intros H active. unfold index_all_products in H. fold active in H.
  destruct (index_batches env iw b active [] sent) as [[vs | e] sent1] eqn:Hb;
    [| discriminate].
  apply index_batches_ok in Hb; [| apply batch_limit_pos].
  destruct Hb as (new & all & -> & Hall & Hup & Hnew & Hvs).
  simpl in Hup.
  assert (Hout : n = Z.of_nat (length active)
                 /\ sent' = (sent ++ new)
                            ++ match vs with [] => [] | _ => [Upsert vs] end).
  { destruct vs as [| v vs].
    - injection H as <- <-. now rewrite app_nil_r.
    - unfold send in H.
      destruct (iw _ _); [| discriminate]. now injection H as <- <-. }
  clear H. destruct Hout as [-> ->]. split; [reflexivity |].
  exists new, (match vs with [] => [] | _ => [Upsert vs] end).
  assert (Hlast : upserted (match vs with [] => [] | _ => [Upsert vs] end)
                  = vs).
  { destruct vs; [reflexivity |]. unfold upserted. simpl.
    now rewrite app_nil_r. }
  split; [now rewrite <- app_assoc |].
  split; [now rewrite upserted_app, Hlast, Hup |].
  split; [exact Hnew |]. split.
  - destruct vs as [| v vs]; [now left | right].
    eexists. split; [reflexivity |]. simpl in *. lia.
  - exists (sent ++ map (fun v => Upsert [v]) all).
    split; [now apply index_each_ok |].
    rewrite !upserted_app, upserted_singletons, Hlast, <- app_assoc, Hup.
    reflexivity.
Qed.

Lemma index_all_products_batches_witness :
  let env := Demo.env (Ok []) Demo.llm_down in
  let out := index_all_products env accepting Demo.world 100 [] in
  fst out = Ok 2
  /\ exists sent2,
       index_each env accepting [Demo.headphones; Demo.speaker] []
       = (Ok tt, sent2)
       /\ upserted sent2 = upserted (snd out).
Proof.
  intros env out.
  assert (E : index_all_products env accepting Demo.world 100 []
              = (Ok 2, snd out))
    by (vm_compute; reflexivity).
  destruct (index_all_products_batches _ _ _ _ _ _ _ E)
    as (_ & full & last & _ & _ & _ & _ & sent2 & He & Hu).
  split; [reflexivity |]. exists sent2. split; [exact He | exact Hu].
Defined.

(** X2: [index_all_products] stops at the first failure and undoes
    nothing. When it raises, the writes it made hold, in catalog order,
    the vectors of the active products handled so far, and one of two
    things happened. Either the embedding of the next active product
    failed: then only full batches were written, and the vectors still
    pending, fewer than a batch, are never sent. Or the index refused a
    write: then that write is the last one made, and its exception is
    the one raised. *)
Theorem index_all_products_failure env iw w b sent e sent' :
  index_all_products env iw w b sent = (Raise e, sent') ->
  exists calls done rest all pending,
    List.filter p_is_active (products w) = done ++ rest
    /\ Forall2 (fun p v => product_vector env p = Ok v) done all
    /\ sent' = sent ++ calls
    /\ upserted calls ++ pending = all
    /\ ((exists failing rest',
           rest = failing :: rest'
           /\ product_vector env failing = Raise e
           /\ Forall (upsert_of_size (batch_limit b)) calls
           /\ (length pending < batch_limit b)%nat)
        \/ (pending = []
            /\ exists earlier last,
                 calls = earlier ++ [last]
                 /\ iw (length (sent ++ earlier)) last = Raise e
                 /\ Forall (upsert_of_size (batch_limit b)) earlier)).
Proof.
  unfold index_all_products. intros H.
  destruct (index_batches env iw b _ [] sent) as [[vs | e'] sent1] eqn:Hb.
  - apply index_batches_ok in Hb; [| apply batch_limit_pos].
    destruct Hb as (new & all & -> & Hall & Hup & Hnew & Hvs).
    simpl in Hup. destruct vs as [| v vs]; [discriminate |].
    unfold send in H.
    destruct (iw (length (sent ++ new)) (Upsert (v :: vs))) as [u | e']
      eqn:Hw; [discriminate |].
    injection H as <- <-.
    exists (new ++ [Upsert (v :: vs)]), (List.filter p_is_active (products w)),
      [], all, [].
    split; [now rewrite app_nil_r |]. split; [exact Hall |].
    split; [now rewrite <- app_assoc |]. split.
    + rewrite upserted_app, app_nil_r, <- Hup. unfold upserted at 2.
      simpl. now rewrite app_nil_r.
    + right. split; [reflexivity |]. exists new, (Upsert (v :: vs)). auto.
  - injection H as <- <-.
    apply index_batches_raise in Hb; [| apply batch_limit_pos].
    destruct Hb as (new & done & rest & all & pending
                    & Hp & Hall & Hs & Hup & Hnew & Hcase).
    exists new, done, rest, all, pending.
    repeat (split; [assumption |]).
    destruct Hcase as [(failing & rest' & Hr & Hf & Hlen)
                      | (Hpend & earlier & last & Hn & Hlast)].
    + left. exists failing, rest'. auto.
    + right. split; [exact Hpend |]. exists earlier, last.
      split; [exact Hn |]. split; [exact Hlast |].
      rewrite Hn in Hnew. apply Forall_app in Hnew. tauto.
Qed.

Lemma index_all_products_failure_witness :
  exists sent' calls done rest all,
    index_all_products (Demo.env (Ok []) Demo.llm_down)
      Examples.one_write_only Demo.world 1 []
    = (Raise "index unreachable", sent')
    /\ [Demo.headphones; Demo.speaker] = done ++ rest
    /\ Forall2
         (fun p v =>
            product_vector (Demo.env (Ok []) Demo.llm_down) p = Ok v)
         done all
    /\ sent' = calls.
Proof.
  assert (E : exists sent',
             index_all_products (Demo.env (Ok []) Demo.llm_down)
               Examples.one_write_only Demo.world 1 []
             = (Raise "index unreachable", sent'))
    by (eexists; vm_compute; reflexivity).
  destruct E as (sent' & E).
  destruct (index_all_products_failure _ _ _ _ _ _ _ E)
    as (calls & done & rest & all & pending & Hp & Hall & Hs & _).
  exists sent', calls, done, rest, all.
  split; [exact E |]. split; [exact Hp |]. split; [exact Hall | exact Hs].
Defined.

(** ** Retrieval *)

(** X3: [_build_filter] returns no filter exactly when the category is
    empty or absent and both price bounds are [None]. Otherwise the
    category condition is present exactly when the category is truthy,
    and each price bound exactly when it is not [None] (a bound of 0 is
    kept), independently of the other. *)
Theorem build_filter_cases category_filter min_price max_price :
  match _build_filter category_filter min_price max_price with
  | None =>
      truthy category_filter = false
      /\ min_price = VNone /\ max_price = VNone
  | Some f =>
      (truthy category_filter = true
       \/ min_price <> VNone \/ max_price <> VNone)
      /\ f_category_eq f
         = (if truthy category_filter then Some category_filter else None)
      /\ f_price_gte f
         = match min_price with VNone => None | v => Some v end
      /\ f_price_lte f
         = match max_price with VNone => None | v => Some v end
  end.
Proof.
  unfold _build_filter.
  destruct (truthy category_filter), min_price, max_price; simpl;
    repeat split; auto; try (right; left; discriminate);
    try (right; right; discriminate).
Qed.

Lemma search_loop_sublist w floor ms l :
  search_loop w floor ms = Ok l ->
  map (fun r => pr_id (sr_product r)) l `sublist_of` map m_id ms.
Proof.
  revert l. induction ms as [| m ms IH]; intros l H.
  - injection H as <-. constructor.
  - apply search_loop_cons in H.
    destruct H as [H | (r & rs & p & -> & Hrs & _ & Hp & _ & Hr)].
    + simpl. apply sublist_cons. now apply IH.
    + apply SearchResult_new_inv in Hr. destruct Hr as [-> _]. simpl.
      rewrite (get_product_id _ _ _ Hp). apply sublist_skip. now apply IH.
Qed.

Lemma search_loop_exact w floor ms l :
  search_loop w floor ms = Ok l ->
  map (fun r => (pr_id (sr_product r), sr_similarity r)) l
  = map (fun m => (m_id m, round4 (m_score m)))
      (List.filter (qualifies w floor) ms).
Proof.
  revert l. induction ms as [| m ms IH]; intros l H.
  - injection H as <-. reflexivity.
  - simpl in H. simpl. unfold qualifies at 1.
    destruct (Qle_bool floor (m_score m)); simpl; [| now apply IH].
    destruct (get_product w (m_id m)) as [p |] eqn:Hp; [| now apply IH].
    destruct (p_is_active p); [| now apply IH].
    destruct (SearchResult_new _ _) as [r |] eqn:Hr; simpl in H;
      [| discriminate].
    destruct (search_loop w floor ms) as [rs |]; simpl in H;
      [| discriminate].
    injection H as <-. apply SearchResult_new_inv in Hr.
    destruct Hr as [-> _]. simpl.
    rewrite (get_product_id _ _ _ Hp). f_equal. now apply IH.
Qed.

(** X4: [search] returns exactly the matches of the index that qualify,
    in the order of the index: a match is returned when its score is at
    or above the floor and its product is an active catalog row, and
    only then; each comes with its score rounded to four places. So
    [search] never returns more items than the index did. *)
Theorem search_returns_qualifying_matches env query top_k cat minp maxp
    min_score w l w' :
  search env query top_k cat minp maxp min_score w = (Ok l, w') ->
  exists emb ms,
    encode env query = Ok emb
    /\ index_query env
         {| qp_vector := emb; qp_top_k := top_k;
            qp_filter := _build_filter cat minp maxp |} = Ok ms
    /\ map (fun r => (pr_id (sr_product r), sr_similarity r)) l
       = map (fun m => (m_id m, round4 (m_score m)))
           (List.filter
              (qualifies w (default (default_min_score env) min_score)) ms)
    /\ (length l <= length ms)%nat.
Proof.
  intros H. apply search_inv in H.
  destruct H as (emb & ms & He & Hq & Hloop & _).
  exists emb, ms. split; [exact He |]. split; [exact Hq |].
  split; [now apply search_loop_exact |].
  apply search_loop_sublist, sublist_length in Hloop.
  now rewrite !length_map in Hloop.
Qed.

Lemma search_returns_qualifying_matches_witness :
  exists l w',
    search (Demo.env (Ok [ {| m_id := 3; m_score := 9 # 10 |};
                           {| m_id := 2; m_score := 8 # 10 |};
                           {| m_id := 9; m_score := 7 # 10 |};
                           {| m_id := 1; m_score := 6 # 10 |};
                           {| m_id := 1; m_score := 1 # 10 |} ])
              Demo.llm_down)
      (VStr "audio") (VInt 10) VNone VNone VNone None Demo.world
    = (Ok l, w')
    /\ map (fun r => (pr_id (sr_product r), sr_similarity r)) l
       = [(2, 8000 # 10000); (1, 6000 # 10000)].
Proof.
  match goal with |- exists l w', ?call = _ /\ _ =>
    assert (E : exists l w', call = (Ok l, w'))
      by (eexists; eexists; vm_compute; reflexivity) end.
  destruct E as (l & w' & E). exists l, w'. split; [exact E |].
  destruct (search_returns_qualifying_matches _ _ _ _ _ _ _ _ _ _ E)
    as (emb & ms & _ & Hq & Hl & _).
  injection Hq as <-. rewrite Hl. vm_compute. reflexivity.
Defined.

(** ** Chat messages *)

Lemma last_n_suffix {A} n (l : list A) : last_n n l `suffix_of` l.
Proof. unfold last_n. apply suffix_drop. Qed.

Lemma last_n_length {A} n (l : list A) : (length (last_n n l) <= n)%nat.
Proof. unfold last_n. rewrite length_skipn. lia. Qed.

(** The messages built for the provider start with the system prompt
    and end with the user message. Between them come the most recent
    history entries, at most ten, in their order, and then the tool
    context as a system message when there is a non-empty one. *)
Lemma build_messages_shape system_prompt user_message history tool_context :
  exists recent context,
    _build_messages system_prompt user_message history tool_context
    = ("system", system_prompt) :: recent ++ context
        ++ [("user", user_message)]
    /\ recent `suffix_of` history
    /\ length recent = Nat.min 10 (length history)
    /\ context
       = match tool_context with
         | Some c => if String.eqb c EmptyString then [] else [("system", c)]
         | None => []
         end.
Proof.
  exists (last_n 10 history). eexists. split; [reflexivity |].
  split; [apply last_n_suffix |]. split; [| reflexivity].
  unfold last_n. rewrite length_skipn. lia.
Qed.

(** ** Language-model gateway *)

Lemma render_tool_context_cons env prefix d rest :
  render_tool_context env prefix (d :: rest)
  = (let+ name := getitem d "tool_name" in
     let+ res := getitem d "result" in
     render_tool_context env
       (prefix +:+ "**" +:+ format_dval env name +:+ "**:" +:+ nl
          +:+ "```json" +:+ nl +:+ json_dumps_indent env res +:+ nl
          +:+ "```" +:+ nl +:+ nl)
       rest).
Proof. reflexivity. Qed.

Lemma render_tool_context_ok env results :
  Forall well_keyed results ->
  forall prefix, exists text, render_tool_context env prefix results = Ok text.
Proof.
  induction 1 as [| d results [[name Hn] [res Hr]] _ IH]; intros prefix.
  - now exists prefix.
  - rewrite render_tool_context_cons. unfold getitem. rewrite Hn, Hr.
    simpl. apply IH.
Qed.

(** X5: when every tool result handed to [generate_response] has the
    keys ["tool_name"] and ["result"] (or none is handed over), it never
    raises and makes exactly one request, without tools; when that
    request fails, or comes back without a choice, the returned text is
    the fixed apology. *)
Theorem generate_response_total env message system_prompt history results w :
  (forall l, results = Some l -> Forall well_keyed l) ->
  exists r w' req,
    generate_response env message system_prompt history results w
    = (Ok r, w')
    /\ llm_log w' = req :: llm_log w
    /\ cr_tools req = false
    /\ match chat_completions_create env (length (llm_log w)) req with
       | Ok response =>
           match choices response with
           | m :: _ => r = cm_content m
           | [] => r = Some generation_apology
           end
       | Raise _ => r = Some generation_apology
       end.
Proof.
  intros Hkeys. unfold generate_response, try_except, bind, lift, ret, chat.
  assert (Hrender :
            forall d l, results = Some (d :: l) ->
              exists text,
                render_tool_context env
                  ("Here are the results from the tools I used to help "
                     +:+ "answer your question:" +:+ nl +:+ nl)
                  (d :: l) = Ok text).
  { intros d l ->. apply render_tool_context_ok. now apply Hkeys. }
  destruct results as [[| d l] |];
    try (destruct (Hrender d l eq_refl) as [text ->]);
    cbv beta iota;
    (destruct (chat_completions_create _ _ _) as [response | e] eqn:Hc;
     [unfold first_choice;
      destruct (choices response) as [| m ms] eqn:Hm |];
     cbv beta iota;
     eexists _, _, _; (split; [reflexivity |]); simpl;
     (split; [reflexivity |]); (split; [reflexivity |]);
     rewrite Hc, ?Hm; reflexivity).
Qed.

Lemma generate_response_total_witness :
  exists w',
    generate_response
      (Demo.env (Ok [])
         (Demo.llm_says {| cm_content := Some "Two items match.";
                           cm_tool_calls := None |}))
      "show me headphones" "system" []
      (Some [ {[ "tool_name" := DStr "search_products";
                 "result" := DPayload (PProducts []) ]} ])
      Demo.world
    = (Ok (Some "Two items match."), w').
Proof.
  destruct (generate_response_total
              (Demo.env (Ok [])
                 (Demo.llm_says {| cm_content := Some "Two items match.";
                                   cm_tool_calls := None |}))
              "show me headphones" "system" []
              (Some [ {[ "tool_name" := DStr "search_products";
                         "result" := DPayload (PProducts []) ]} ])
              Demo.world)
    as (r & w' & req & E & _ & _ & Hr).
  - intros l [= <-]. constructor; [| constructor].
    split; eexists; vm_compute; reflexivity.
  - simpl in Hr. subst r. exists w'. exact E.
Defined.

Lemma Intent_value_roundtrip_helper s i :
  Intent_of_value s = Some i -> Intent_value i = s.
Proof.
  unfold Intent_of_value. intros H. apply List.find_some in H.
  destruct H as [_ H]. now apply String.eqb_eq in H.
Qed.

(** X6: the ten intents and their string values correspond one to one:
    a string is parsed to an intent exactly when it is the value of that
    intent. *)
Theorem Intent_value_roundtrip (s : string) (i : Intent) :
  Intent_of_value s = Some i <-> Intent_value i = s.
Proof.
  split; [apply Intent_value_roundtrip_helper |].
  intros <-. destruct i; reflexivity.
Qed.

(** X7: [classify_intent] never invents an intent. When it returns an
    intent other than [unknown], the provider answered with a JSON
    object whose ["intent"] entry is the value of exactly that intent. *)
Theorem classify_intent_sound env message history w r w' :
  classify_intent env message history w = (Ok r, w') ->
  icr_intent r <> UNKNOWN ->
  exists response m text d,
    chat_completions_create env (length (llm_log w))
      (classification_request env message history) = Ok response
    /\ first_choice response = Ok m
    /\ cm_content m = Some text
    /\ json_loads env text = Ok (VDict d)
    /\ dict_get d "intent" = Some (VStr (Intent_value (icr_intent r))).
Proof.
  unfold classify_intent, try_except, bind, lift, chat, ret.
  fold (classification_request env message history).
  destruct (chat_completions_create _ _ _) as [response | e];
    [| intros [= <- _] Hi; now elim Hi].
  destruct (parse_classification env response) as [r0 | e] eqn:Hp;
    [| intros [= <- _] Hi; now elim Hi].
  intros [= <- _] Hi. unfold parse_classification, result_bind in Hp.
  destruct (first_choice response) as [m |] eqn:Hf; [| discriminate].
  destruct (cm_content m) as [text |] eqn:Hc; [| discriminate].
  destruct (json_loads env text) as [[| | | | | | d] |] eqn:Hj;
    try discriminate.
  destruct (validate_entities env _); [| discriminate].
  destruct (py_float env _); [| discriminate].
  destruct (validate_bool env _); [| discriminate].
  destruct (validate_optional_str _); [| discriminate].
  injection Hp as <-. simpl in Hi |- *.
  exists response, m, text, d. repeat split; auto.
  destruct (dict_get d "intent") as [[| | | | s | |] |]; simpl in Hi;
    try (now elim Hi).
  destruct (Intent_of_value s) as [i |] eqn:Hs; simpl in Hi |- *;
    [| now elim Hi].
  apply Intent_value_roundtrip_helper in Hs. subst s.
  destruct i; reflexivity.
Qed.

Lemma classify_intent_sound_witness :
  exists r w' d,
    classify_intent
      (Demo.env (Ok []) (Demo.llm_script GREETING Demo.wants_search "Hello!"))
      "good morning" [] Demo.world = (Ok r, w')
    /\ icr_intent r = GREETING
    /\ dict_get d "intent" = Some (VStr "greeting").
Proof.
  assert (E : exists r w',
             classify_intent
               (Demo.env (Ok [])
                  (Demo.llm_script GREETING Demo.wants_search "Hello!"))
               "good morning" [] Demo.world = (Ok r, w')
             /\ icr_intent r = GREETING)
    by (eexists; eexists; vm_compute; split; reflexivity).
  destruct E as (r & w' & E & Hi).
  assert (Hne : icr_intent r <> UNKNOWN) by (rewrite Hi; discriminate).
  destruct (classify_intent_sound _ _ _ _ _ _ E Hne)
    as (_ & _ & _ & d & _ & _ & _ & _ & Hd).
  rewrite Hi in Hd. exists r, w', d. auto.
Defined.

Lemma parse_tool_calls_ok env raw l :
  parse_tool_calls env raw = Ok l -> Forall2 (passes_on env) raw l.
Proof.
  revert l. induction raw as [| tc raw IH]; intros l H; simpl in H.
  - injection H as <-. constructor.
  - unfold result_bind, ToolCallRequest_new in H.
    destruct (json_loads env (rtc_arguments tc)) as [[| | | | | | d] |] eqn:Hj;
      simpl in H; try discriminate.
    destruct (parse_tool_calls env raw) as [rs |]; [| discriminate].
    injection H as <-. constructor; [| now apply IH].
    unfold passes_on. simpl. eauto.
Qed.

(** X8: the tool calls that [call_with_tools] returns are the tool calls
    of the provider, all of them and in their order, each with its
    identifier, its name and the arguments parsed from its JSON object.
    So when the arguments of one call are not a JSON object, no call at
    all is passed on. *)
Theorem call_with_tools_passes_calls env message system_prompt history
    w r w' l :
  call_with_tools env message system_prompt history w = (Ok r, w') ->
  tool_calls r = Some l ->
  exists response m raw,
    chat_completions_create env (length (llm_log w))
      (tools_request message system_prompt history) = Ok response
    /\ first_choice response = Ok m
    /\ cm_tool_calls m = Some raw
    /\ Forall2 (passes_on env) raw l.
Proof.
  unfold call_with_tools, try_except, bind, lift, chat, ret.
  fold (tools_request message system_prompt history).
  destruct (chat_completions_create _ _ _) as [response | e];
    [| intros [= <- _]; discriminate].
  destruct (first_choice response) as [m | e] eqn:Hm;
    [| intros [= <- _]; discriminate].
  destruct (cm_tool_calls m) as [[| tc tcs] |] eqn:Htc;
    try (intros [= <- _]; discriminate).
  destruct (parse_tool_calls env (tc :: tcs)) as [l0 | e] eqn:Hl;
    [| intros [= <- _]; discriminate].
  intros [= <- _] [= <-].
  exists response, m, (tc :: tcs). repeat split; auto.
  now apply parse_tool_calls_ok.
Qed.

Lemma call_with_tools_passes_calls_witness :
  exists r w' l,
    call_with_tools
      (Demo.env (Ok []) (Demo.llm_says Demo.wants_search))
      "show me headphones" "system" [] Demo.world = (Ok r, w')
    /\ tool_calls r = Some l
    /\ Forall2 (passes_on (Demo.env (Ok []) (Demo.llm_says Demo.wants_search)))
         [ {| rtc_id := "call_1"; rtc_name := "search_products";
              rtc_arguments := Demo.search_arguments_text |} ] l.
Proof.
  assert (E : exists r w' l,
             call_with_tools
               (Demo.env (Ok []) (Demo.llm_says Demo.wants_search))
               "show me headphones" "system" [] Demo.world = (Ok r, w')
             /\ tool_calls r = Some l)
    by (eexists; eexists; eexists; vm_compute; split; reflexivity).
  destruct E as (r & w' & l & E & Hl).
  destruct (call_with_tools_passes_calls _ _ _ _ _ _ _ _ E Hl)
    as (response & m & raw & Hc & Hm & Hraw & Hall).
  injection Hc as <-. injection Hm as <-. injection Hraw as <-.
  exists r, w', l. auto.
Defined.

(** ** Tool execution *)

Lemma same_database_refl w : same_database w w.
Proof. repeat split. Qed.

Lemma same_database_trans w1 w2 w3 :
  same_database w1 w2 -> same_database w2 w3 -> same_database w1 w3.
Proof. unfold same_database. intuition congruence. Qed.

(** X9: [execute_tool] only reads the database: whatever the tool, the
    arguments and the outcome, the products, orders, sessions and
    messages are the same afterwards. *)
Theorem execute_tool_read_only env name args uid w :
  same_database w (final (execute_tool env name args uid) w).
Proof.
  apply keeps_execute_tool;
    first [ exact same_database_refl | exact same_database_trans
          | intros; intros w0; repeat split ].
Qed.


(** X10: for an authenticated caller, [get_user_orders] succeeds and
    lists the orders of that caller, all of them and no order of anyone
    else, whatever the arguments. *)
Theorem get_user_orders_scoped env args (u : Z) w :
  u <> 0 ->
  exists items w',
    execute_tool env "get_user_orders" args (Some u) w
    = (Ok {| tr_call_id := call_id_in env w;
             tr_tool_name := "get_user_orders";
             tr_result := POrders items; tr_success := true;
             tr_error_message := None |}, w')
    /\ forall item,
         In item items
         <-> exists o, In o (orders w) /\ o_user_id o = u
                       /\ item = order_summary env o.
Proof.
  intros Hu. rewrite execute_tool_unfold. unfold execute_tool_body.
  cbv beta iota delta [String.eqb Ascii.eqb Bool.eqb truthy_int].
  destruct (u =? 0) eqn:E; [lia |].
  eexists _, _. split; [reflexivity |].
  intros item. simpl. rewrite in_map_iff. split.
  - intros (o & <- & Ho). apply List.filter_In in Ho.
    destruct Ho as [Ho Hid]. exists o. repeat split; auto; lia.
  - intros (o & Ho & Hid & ->). exists o. split; [reflexivity |].
    apply List.filter_In. split; [exact Ho | lia].
Qed.

Lemma get_user_orders_scoped_witness :
  exists items w',
    execute_tool (Demo.env (Ok []) Demo.llm_down) "get_user_orders" ∅
      (Some 7) Demo.world
    = (Ok {| tr_call_id := "123e4567"; tr_tool_name := "get_user_orders";
             tr_result := POrders items; tr_success := true;
             tr_error_message := None |}, w')
    /\ In (order_summary (Demo.env (Ok []) Demo.llm_down) Demo.order42) items.
Proof.
  assert (Hu : 7 <> 0) by lia.
  destruct (get_user_orders_scoped (Demo.env (Ok []) Demo.llm_down) ∅ 7
              Demo.world Hu)
    as (items & w' & E & Hitems).
  exists items, w'. split; [exact E |].
  apply Hitems. exists Demo.order42. repeat split. now left.
Defined.

Lemma get_product_in w id p : get_product w id = Some p -> In p (products w).
Proof. unfold get_product. intros H. now apply List.find_some in H. Qed.

Lemma search_items_active env query top_k cat minp maxp min_score w l w' :
  search env query top_k cat minp maxp min_score w = (Ok l, w') ->
  Forall (result_active w) l /\ products w' = products w.
Proof.
  intros H. apply search_inv in H.
  destruct H as (emb & ms & _ & _ & Hloop & Hp & _).
  split; [| exact Hp].
  apply search_loop_items in Hloop.
  eapply List.Forall_impl; [| exact Hloop].
  intros r (Hrange & _ & _ & _ & p & Hp' & Ha & Hr).
  split; [| exact Hrange].
  exists p. split; [now apply get_product_in in Hp' | auto].
Qed.

Lemma py_slice_to_incl {A} (l l' : list A) v :
  py_slice_to l v = Ok l' -> incl l' l.
Proof.
  unfold py_slice_to.
  destruct v; try discriminate; intros [= <-];
    try apply incl_refl;
    match goal with |- context [if ?c then _ else _] => destruct c end;
    intros x Hx; apply list_elem_of_In, elem_of_take in Hx;
    destruct Hx as (i & Hx & _); apply list_elem_of_In;
    now apply list_elem_of_lookup_2 in Hx.
Qed.

Lemma find_similar_items_active env product_id top_k w l w' :
  find_similar_products env product_id top_k w = (Ok l, w') ->
  Forall (result_active w) l /\ products w' = products w.
Proof.
  unfold find_similar_products, bind, lift, ret.
  destruct (sql_key env product_id) as [key |]; [| discriminate].
  destruct (key ≫= get_product w) as [p |].
  - destruct (py_add1 top_k) as [k1 |]; [| discriminate].
    destruct (search env _ _ _ _ _ _ w) as [[results | e] w1] eqn:Hs;
      [| discriminate].
    apply search_items_active in Hs. destruct Hs as [Hall Hp].
    destruct (py_slice_to _ top_k) as [l0 |] eqn:Hl; [| discriminate].
    intros [= <- <-]. split; [| exact Hp].
    apply py_slice_to_incl in Hl.
    apply List.Forall_forall. intros r Hr. apply Hl in Hr.
    apply List.filter_In in Hr. destruct Hr as [Hr _].
    rewrite List.Forall_forall in Hall. now apply Hall.
  - intros [= <- <-]. split; [constructor | reflexivity].
Qed.

Lemma default_recommendations_eq (ps : list Product) :
  List.fold_right
    (fun p acc =>
       let+ r := SearchResult_new (ProductResponse_model_validate p) 1 in
       let+ rest := acc in
       Ok (r :: rest))
    (Ok []) ps
  = Ok (map (fun p => {| sr_product := ProductResponse_model_validate p;
                         sr_similarity := 1 |}) ps).
Proof.
  induction ps as [| p ps IH]; [reflexivity |].
  match goal with |- List.fold_right ?f ?z _ = _ =>
    change (List.fold_right f z (p :: ps))
      with (f p (List.fold_right f z ps)) end.
  rewrite IH. reflexivity.
Qed.

Lemma default_recommendations_active w (ps : list Product) :
  Forall (fun p => In p (products w) /\ p_is_active p = true) ps ->
  Forall (result_active w)
    (map (fun p => {| sr_product := ProductResponse_model_validate p;
                      sr_similarity := 1 |}) ps).
Proof.
  intros Hps. apply Forall_map.
  eapply List.Forall_impl; [| exact Hps].
  intros p [Hin Ha]. split; simpl.
  - exists p. auto.
  - split; discriminate.
Qed.

Lemma payload_of_results w (l : list SearchResult) :
  Forall (result_active w) l ->
  payload_active w (PProducts (map _search_result_to_dict l)).
Proof.
  intros H. simpl. apply Forall_map.
  eapply List.Forall_impl; [| exact H]. now intros r [? ?].
Qed.

Lemma active_product_ext w w' pr :
  products w' = products w -> active_product w' pr -> active_product w pr.
Proof. intros E (p & Hin & H). exists p. now rewrite <- E. Qed.

Lemma payload_active_ext w w' p :
  products w' = products w -> payload_active w' p -> payload_active w p.
Proof.
  intros E. destruct p; simpl; auto.
  - intros H. eapply List.Forall_impl; [| exact H].
    intros item [Ha Hr]. split; [| exact Hr].
    now apply (active_product_ext w w').
  - now apply active_product_ext.
Qed.

Lemma search_first_found env query top_k cat minp maxp min_score w r l w' :
  search env query top_k cat minp maxp min_score w = (Ok (r :: l), w') ->
  exists p,
    get_product w' (pr_id (sr_product r)) = Some p /\ p_is_active p = true.
Proof.
  intros H. apply search_inv in H.
  destruct H as (emb & ms & _ & _ & Hloop & Hp & _).
  apply search_loop_items in Hloop. inversion Hloop as [| ? ? Hr _]; subst.
  destruct Hr as (_ & _ & _ & _ & p & Hp' & Ha & _).
  exists p. split; [| exact Ha].
  unfold get_product in *. now rewrite Hp.
Qed.

(** [run_cases], then the equations between pairs it left are split
    and substituted. *)
Ltac run_cases_eq H :=
  run_cases H;
  repeat match goal with
         | E : (_, _) = (_, _) |- _ => injection E as ? ?; subst
         end.

(** The body of [execute_tool] puts only active catalog rows into a
    payload. *)
Lemma execute_tool_body_active env cid name args uid w r w' :
  execute_tool_body env cid name args uid w = (Ok r, w') ->
  payload_active w (tr_result r).
Proof.
  unfold execute_tool_body. intros H.
  destruct (String.eqb name "search_products").
  { run_cases_eq H. cbn [tr_result]. apply payload_of_results.
    match goal with Hs : search _ _ _ _ _ _ _ _ = _ |- _ =>
      now apply search_items_active in Hs end. }
  destruct (String.eqb name "get_product_details").
  { unfold bind, ret, lift in H.
    destruct (truthy (arg args "product_id")).
    - destruct (arg_item args "product_id") as [v |]; [| discriminate].
      destruct (sql_key env v) as [[id |] |]; cbv beta iota in H;
        try discriminate; simpl in H.
      + destruct (List.find _ (products w)) as [p |] eqn:Hf;
          injection H as <- <-; simpl; [| exact I].
        apply List.find_some in Hf. destruct Hf as [Hin Hf].
        apply andb_true_iff in Hf. exists p. tauto.
      + injection H as <- <-. exact I.
    - destruct (truthy (arg args "product_name")).
      + destruct (arg_item args "product_name") as [v |]; [| discriminate].
        destruct (search env v (VInt 1) VNone VNone VNone None w)
          as [[[| r0 rest] | e] w1] eqn:Hs; cbv beta iota in H;
          try discriminate.
        * injection H as <- <-. exact I.
        * pose proof (search_items_active _ _ _ _ _ _ _ _ _ _ Hs)
            as [_ Hprod].
          apply search_first_found in Hs. destruct Hs as (p0 & Hp0 & Ha).
          rewrite Hp0 in H. injection H as <- <-. simpl.
          exists p0. split; [| auto].
          apply get_product_in in Hp0. now rewrite Hprod in Hp0.
      + injection H as <- <-. exact I. }
  destruct (String.eqb name "get_recommendations").
  { unfold bind, ret, lift in H.
    destruct (truthy (arg args "product_id")).
    - destruct (arg_item args "product_id") as [v |]; [| discriminate].
      destruct (find_similar_products env v _ w) as [[results | e] w1] eqn:Hs;
        cbv beta iota in H; [| discriminate].
      injection H as <- <-. apply payload_of_results.
      now apply find_similar_items_active in Hs.
    - destruct (truthy (arg args "preferences")
                || truthy (arg args "category")).
      + destruct (search env _ _ _ _ _ _ w) as [[results | e] w1] eqn:Hs;
          cbv beta iota in H; [| discriminate].
        injection H as <- <-. apply payload_of_results.
        now apply search_items_active in Hs.
      + cbv beta zeta in H. unfold result_bind at 1 in H.
        rewrite default_recommendations_eq in H.
        injection H as <- <-. apply payload_of_results.
        apply default_recommendations_active.
        apply List.Forall_forall. intros p Hp.
        apply list_elem_of_In, elem_of_take in Hp.
        destruct Hp as (i & Hp & _). apply list_elem_of_lookup_2 in Hp.
        apply list_elem_of_In, List.filter_In in Hp. exact Hp. }
  destruct (String.eqb name "check_order_status").
  { run_cases_eq H; exact I. }
  destruct (String.eqb name "get_user_orders").
  { run_cases_eq H; exact I. }
  run_cases_eq H. exact I.
Qed.

(** X11: no tool ever returns an inactive or unknown product. In the
    result of [execute_tool], every product of a list payload
    ([search_products], [get_recommendations]) and the product of
    [get_product_details] is an active row of the catalog, and every
    similarity lies in [0,1]. *)
Theorem tool_payloads_are_active env name args uid w r w' :
  execute_tool env name args uid w = (Ok r, w') ->
  payload_active w (tr_result r).
Proof.
  rewrite execute_tool_unfold.
  destruct (execute_tool_body _ _ _ _ _ _) as [[r0 | e] w1] eqn:Hb;
    intros [= <- <-]; [| exact I].
  apply execute_tool_body_active in Hb.
  now apply (payload_active_ext w (tool_entry name args w)).
Qed.

Lemma tool_payloads_are_active_witness :
  exists r w',
    execute_tool
      (Demo.env (Ok [ {| m_id := 3; m_score := 9 # 10 |};
                      {| m_id := 1; m_score := 8 # 10 |} ])
         Demo.llm_down)
      "search_products" {[ "query" := VStr "audio" ]} None Demo.world
    = (Ok r, w')
    /\ payload_active Demo.world (tr_result r).
Proof.
  match goal with |- exists r w', ?call = _ /\ _ =>
    assert (E : exists r w', call = (Ok r, w'))
      by (eexists; eexists; vm_compute; reflexivity) end.
  destruct E as (r & w' & E). exists r, w'. split; [exact E |].
  exact (tool_payloads_are_active _ _ _ _ _ _ _ E).
Defined.


(** ** Conversation state *)



Lemma last_n_map {A B} (f : A -> B) n (l : list A) :
  last_n n (map f l) = map f (last_n n l).
Proof. unfold last_n. now rewrite length_map, skipn_map. Qed.

(** X14: on a message table in chronological order,
    [_get_conversation_history] returns the last [limit] rows of the
    session, oldest first, and changes nothing: a longer session loses
    its oldest rows, never its newest. *)
Theorem history_is_latest_window sid limit w :
  StronglySorted (fun a b => msg_created_at a < msg_created_at b)
    (messages w) ->
  _get_conversation_history sid limit w
  = (Ok (last_n limit (session_pairs sid (messages w))), w).
Proof.
  intros Hs. unfold _get_conversation_history, session_pairs.
  rewrite order_by_created_at_desc_sorted
    by now apply StronglySorted_filter.
  rewrite firstn_rev, rev_involutive, last_n_map. reflexivity.
Qed.

Lemma history_is_latest_window_witness :
  exists w,
    save_all (Demo.env (Ok []) Demo.llm_down) Demo.writes Demo.world
    = (Ok tt, w)
    /\ _get_conversation_history "s1" 1 w
       = (Ok (last_n 1 (session_pairs "s1" (messages w))), w)
    /\ last_n 1 (session_pairs "s1" (messages w))
       = [("assistant", "hello")].
Proof.
  eexists. split; [vm_compute; reflexivity |]. split.
  - apply history_is_latest_window. simpl.
    repeat constructor; simpl; lia.
  - vm_compute. reflexivity.
Defined.

(** X15: [_save_message] is all or nothing. When it returns, exactly
    one row was appended, holding the session, role, content and intent
    passed in, and its [tool_calls] and [tool_results] columns are never
    an empty list (an empty list is stored as [None]); nothing else in
    the database changed. When it raises, the world is unchanged. *)
Theorem save_message_atomic env sid role text intent entities calls results w :
  match _save_message env sid role text intent entities calls results w with
  | (Ok m, w') =>
      messages w' = messages w ++ [m]
      /\ products w' = products w /\ orders w' = orders w
      /\ sessions w' = sessions w
      /\ text = Some (msg_content m)
      /\ msg_session_id m = sid /\ msg_role m = role
      /\ msg_intent m = intent
      /\ msg_tool_calls m <> Some [] /\ msg_tool_results m <> Some []
      /\ (msg_tool_calls m = None <-> calls = None \/ calls = Some [])
      /\ (msg_tool_results m = None <-> results = None \/ results = Some [])
  | (Raise e, w') =>
      w' = w
      /\ (text = None
          \/ exists l r,
               results = Some l /\ In r l
               /\ json_serializable (tr_result r) = false)
  end.
Proof.
  unfold _save_message, bind, ret, lift, raise.
  assert (Hc : forall A (o : option (list A)),
             o ≫= nonempty_or_none <> Some []
             /\ (o ≫= nonempty_or_none = None <-> o = None \/ o = Some [])).
  { intros A [[| x l] |]; simpl; split; try discriminate;
      intuition (discriminate || auto). }
  destruct (Hc _ calls) as [Hc1 Hc2].
  destruct (Hc _ results) as [Hr1 Hr2].
  destruct (results ≫= nonempty_or_none) as [l |] eqn:Hres.
  - unfold dumps_tool_results.
    destruct (forallb _ l) eqn:Hall.
    + destruct text as [text |]; simpl; [| auto].
      repeat (split; [reflexivity || assumption |]). exact Hr2.
    + split; [reflexivity |]. right.
      assert (Hl : results = Some l).
      { destruct results as [[| x l0] |]; simpl in Hres; congruence. }
      assert (Hex : exists r, In r l
                      /\ json_serializable (tr_result r) = false).
      { clear -Hall. induction l as [| r l IH]; [discriminate |].
        simpl in Hall. apply andb_false_iff in Hall.
        destruct Hall as [Hr | Hl].
        - exists r. split; [now left | exact Hr].
        - destruct (IH Hl) as (r0 & Hin & Hr0). exists r0.
          split; [now right | exact Hr0]. }
      destruct Hex as (r & Hin & Hr). exists l, r. auto.
  - destruct text as [text |]; simpl; [| auto].
    repeat (split; [reflexivity || assumption || discriminate |]).
    exact Hr2.
Qed.

(** ** The turn as a whole *)

Lemma bind_ok {A B} (m : M A) (k : A -> M B) w a w' :
  m w = (Ok a, w') -> bind m k w = k a w'.
Proof. unfold bind. now intros ->. Qed.

Lemma bind_raise {A B} (m : M A) (k : A -> M B) w e w' :
  m w = (Raise e, w') -> bind m k w = (Raise e, w').
Proof. unfold bind. now intros ->. Qed.

Lemma same_messages_refl w : same_messages w w.
Proof. split; reflexivity. Qed.

Lemma same_messages_trans w1 w2 w3 :
  same_messages w1 w2 -> same_messages w2 w3 -> same_messages w1 w3.
Proof. unfold same_messages. intuition congruence. Qed.

Lemma session_returns env session_id uid w :
  exists s w',
    _get_or_create_session env session_id uid w = (Ok s, w')
    /\ same_messages w w' /\ same_tool_log w w'.
Proof.
  unfold _get_or_create_session.
  match goal with |- context [match ?found with Some _ => _ | None => _ end] =>
    destruct found end;
    eexists _, _; (split; [reflexivity | repeat split]).
Qed.

Lemma classify_intent_returns env message history w :
  exists r w',
    classify_intent env message history w = (Ok r, w')
    /\ same_messages w w' /\ same_tool_log w w'.
Proof.
  unfold classify_intent, try_except, bind, lift, ret, chat.
  destruct (chat_completions_create _ _ _) as [response | e]; simpl;
    [destruct (parse_classification env response) |];
    eexists _, _; (split; [reflexivity | repeat split]).
Qed.

Lemma intent_branch_same_messages env ir message history uid max_iterations :
  keeps same_messages
    (intent_branch env ir message history uid max_iterations).
Proof.
  apply keeps_intent_branch;
    first [ exact same_messages_refl | exact same_messages_trans
          | intros; intros w0; split; reflexivity ].
Qed.

Lemma save_message_raise env sid role text intent entities calls results
    w e w' :
  _save_message env sid role text intent entities calls results w
  = (Raise e, w') ->
  w' = w.
Proof.
  unfold _save_message, bind, ret, lift, raise.
  destruct (results ≫= nonempty_or_none) as [l |];
    [destruct (dumps_tool_results l) |]; destruct text; try discriminate;
    now intros [= _ <-].
Qed.

(** The first half of [process_message] always goes through: a session,
    its history, a classification, and the user message stored. *)
Lemma process_message_run env message session_id uid max_iterations w :
  exists session w1 history ir w2 user w3,
    _get_or_create_session env session_id uid w = (Ok session, w1)
    /\ _get_conversation_history (cs_id session) 20 w1 = (Ok history, w1)
    /\ classify_intent env message history w1 = (Ok ir, w2)
    /\ _save_message env (cs_id session) "user" (Some message)
         (Some (Intent_value (icr_intent ir))) (Some (icr_entities ir))
         None None w2
       = (Ok user, w3)
    /\ same_messages w w2 /\ same_tool_log w w3
    /\ process_message env message session_id uid max_iterations w
       = finish_turn env session ir message history uid max_iterations w3.
Proof.
  destruct (session_returns env session_id uid w)
    as (session & w1 & Hs & Hm1 & Ht1).
  assert (Hh : exists history,
             _get_conversation_history (cs_id session) 20 w1
             = (Ok history, w1)) by (eexists; reflexivity).
  destruct Hh as (history & Hh).
  destruct (classify_intent_returns env message history w1)
    as (ir & w2 & Hc & Hm2 & Ht2).
  assert (Hu : exists user w3,
             _save_message env (cs_id session) "user" (Some message)
               (Some (Intent_value (icr_intent ir)))
               (Some (icr_entities ir)) None None w2
             = (Ok user, w3) /\ same_tool_log w2 w3)
    by (eexists _, _; split; reflexivity).
  destruct Hu as (user & w3 & Hu & Ht3).
  exists session, w1, history, ir, w2, user, w3.
  repeat (split; [assumption |]).
  split; [eapply same_messages_trans; eassumption |].
  split; [unfold same_tool_log in *; congruence |].
  unfold process_message.
  rewrite (bind_ok _ _ _ _ _ Hs). cbv beta.
  rewrite (bind_ok _ _ _ _ _ Hh). cbv beta.
  rewrite (bind_ok _ _ _ _ _ Hc). cbv beta.
  rewrite (bind_ok _ _ _ _ _ Hu). reflexivity.
Qed.

(** X16: [process_message] stores the user message whatever happens
    afterwards, also when the turn raises: the message table grows by
    that row, followed by at most the reply of the assistant in the same
    session. When the turn returns a bundle, the reply was stored, with
    the text of the bundle, and the bundle names the session and the
    intent of the stored user row. *)
Theorem process_message_stores_user_message env message session_id uid
    max_iterations w :
  exists user rest,
    messages
      (final (process_message env message session_id uid max_iterations) w)
    = messages w ++ user :: rest
    /\ msg_role user = "user" /\ msg_content user = message
    /\ (rest = []
        \/ exists reply,
             rest = [reply] /\ msg_role reply = "assistant"
             /\ msg_session_id reply = msg_session_id user)
    /\ forall b w',
         process_message env message session_id uid max_iterations w
         = (Ok b, w') ->
         exists reply,
           rest = [reply] /\ msg_content reply = acr_response b
           /\ msg_session_id user = acr_session_id b
           /\ msg_intent user = Some (Intent_value (acr_intent b)).
Proof.
  destruct (process_message_run env message session_id uid max_iterations w)
    as (session & w1 & history & ir & w2 & user & w3
        & _ & _ & _ & Hu & [Hm2 _] & _ & Hrun).
  unfold final. rewrite Hrun. clear Hrun.
  assert (Hi : msg_intent user = Some (Intent_value (icr_intent ir))).
  { unfold _save_message, bind, ret in Hu. simpl in Hu.
    now injection Hu as <- _. }
  apply save_message_ok in Hu.
  destruct Hu as (Hm3 & Hsid & Hrole & [= Htext] & _ & _).
  pose proof (intent_branch_same_messages env ir message history uid
                max_iterations w3) as [Hb _].
  unfold final in Hb. unfold finish_turn, bind.
  destruct (intent_branch env ir message history uid max_iterations w3)
    as [[t | e] w4]; simpl in Hb.
  - destruct (_save_message _ _ _ _ _ _ _ _ w4) as [[reply | e] w5]
      eqn:Hsave.
    + apply save_message_ok in Hsave.
      destruct Hsave as (Hm5 & Hsid5 & Hrole5 & Htext5 & _ & _).
      exists user, [reply].
      assert (Hall : messages w5 = messages w ++ [user; reply]).
      { rewrite Hm5, Hb, Hm3, Hm2, <- app_assoc. reflexivity. }
      destruct (response t) as [text |]; [| discriminate].
      injection Htext5 as Htext5. simpl.
      repeat (split; [assumption || (symmetry; assumption) |]).
      split; [right; exists reply; repeat split; congruence |].
      intros b w' [= <- _]. exists reply. simpl.
      repeat split; congruence.
    + apply save_message_raise in Hsave. subst w5.
      exists user, []. simpl.
      split; [congruence |].
      repeat (split; [assumption || (symmetry; assumption) |]).
      split; [now left | discriminate].
  - exists user, []. simpl.
    split; [congruence |].
    repeat (split; [assumption || (symmetry; assumption) |]).
    split; [now left | discriminate].
Qed.

Lemma process_message_stores_user_message_witness :
  exists user reply b w',
    process_message (Demo.env (Ok []) Demo.llm_down) "hello" None None 3
      Demo.world
    = (Ok b, w')
    /\ messages w' = [user; reply]
    /\ msg_content user = "hello"
    /\ msg_content reply = acr_response b.
Proof.
  destruct (process_message_stores_user_message
              (Demo.env (Ok []) Demo.llm_down) "hello" None None 3
              Demo.world)
    as (user & rest & Hm & _ & Hc & _ & Hb).
  assert (E : exists b w',
             process_message (Demo.env (Ok []) Demo.llm_down) "hello" None
               None 3 Demo.world
             = (Ok b, w'))
    by (eexists; eexists; vm_compute; reflexivity).
  destruct E as (b & w' & E).
  destruct (Hb b w' E) as (reply & -> & Hr & _).
  exists user, reply, b, w'. unfold final in Hm. rewrite E in Hm.
  repeat split; assumption.
Defined.

(** ** Suggestions *)

Lemma suggestions_need_products w r :
  suggestions_of w r <> [] -> json_serializable (tr_result r) = false.
Proof.
  unfold suggestions_of.
  destruct (tr_success r); [| congruence].
  destruct (tr_result r) as [| [| item items] | | |]; simpl; congruence.
Qed.

Lemma all_serializable_app l1 l2 :
  all_serializable (l1 ++ l2) = all_serializable l1 && all_serializable l2.
Proof. apply forallb_app. Qed.

Lemma run_tool_calls_unstorable env calls uid t w t' w' :
  run_tool_calls env calls uid t w = (Ok t', w') ->
  suggestions_unstorable t -> suggestions_unstorable t'.
Proof.
  revert t w. induction calls as [| c calls IH]; intros t w H Ht.
  - simpl in H. unfold ret in H. now injection H as <- _.
  - simpl in H. unfold bind in H.
    destruct (execute_tool env _ _ uid w) as [[r | e] w1]; [| discriminate].
    apply IH in H; [exact H |].
    unfold suggestions_unstorable, add_suggestions, record_tool. simpl.
    rewrite all_serializable_app. unfold all_serializable at 2. simpl.
    destruct (suggestions_of w1 r) as [| s l] eqn:Hs.
    + destruct Ht as [-> | ->]; [now left | now right].
    + right. rewrite (suggestions_need_products w1 r) by congruence.
      simpl. apply andb_false_r.
Qed.

Lemma tool_loop_unstorable env n message history uid t w t' w' :
  tool_loop env n message history uid t w = (Ok t', w') ->
  suggestions_unstorable t -> suggestions_unstorable t'.
Proof.
  revert t w. induction n as [| n IH]; intros t w H Ht.
  - simpl in H. unfold ret in H. now injection H as <- _.
  - cbn [tool_loop] in H. unfold bind in H.
    destruct (call_with_tools _ _ _ _ w) as [[r | e] w1]; [| discriminate].
    destruct (tool_calls r) as [[| c cs] |].
    + destruct (String.eqb (content r) EmptyString);
        injection H as <- _; exact Ht.
    + destruct (run_tool_calls env (c :: cs) uid t w1) as [[t1 | e] w2]
        eqn:Hrun; [| discriminate].
      apply IH in H; [exact H |].
      eapply run_tool_calls_unstorable; eassumption.
    + destruct (String.eqb (content r) EmptyString);
        injection H as <- _; exact Ht.
Qed.

Lemma intent_branch_unstorable env ir message history uid max_iterations
    w t w' :
  intent_branch env ir message history uid max_iterations w = (Ok t, w') ->
  suggestions_unstorable t.
Proof.
  assert (H0 : suggestions_unstorable Turn_initial) by now left.
  assert (Hdirect :
            forall o,
              (let* r :=
                 generate_response env message (SYSTEM_PROMPT env) history o
               in ret (set_response Turn_initial r)) w = (Ok t, w') ->
              suggestions_unstorable t).
  { intros o H. unfold bind, ret in H.
    destruct (generate_response _ _ _ _ _ w) as [[r | e] w1];
      [| discriminate].
    injection H as <- _. exact H0. }
  assert (Hrec : forall name r,
             suggestions_unstorable (record_tool Turn_initial name r))
    by (intros; now left).
  unfold intent_branch.
  destruct (icr_intent ir); try apply Hdirect.
  1-3: intros H; unfold bind in H;
    destruct (tool_loop _ _ _ _ _ _ w) as [[t1 | e] w1] eqn:Hloop;
      [| discriminate];
    apply tool_loop_unstorable in Hloop; [| exact H0];
    destruct (response_is_empty (response t1));
      [ unfold bind, ret in H;
        destruct (generate_response _ _ _ _ _ w1) as [[r | e] w2];
          [| discriminate];
        injection H as <- _; exact Hloop
      | unfold ret in H; injection H as <- _; exact Hloop ].
  all: intros H; unfold bind, ret in H;
    destruct (truthy_int (order_id (icr_entities ir)));
      [| destruct (truthy_int uid)];
    repeat match type of H with
      | context [execute_tool ?e ?n ?a ?u ?w0] =>
          destruct (execute_tool e n a u w0) as [[r0 | e0] w0']
      | context [generate_response ?e ?m ?s ?h ?o ?w0] =>
          destruct (generate_response e m s h o w0) as [[r1 | e1] w1']
      end;
    try discriminate; injection H as <- _;
    first [ exact H0 | apply Hrec ].
Qed.

(** X17: a bundle returned by [process_message] never carries
    suggestions. Suggestions are only gathered from a non-empty product
    list, and a turn that gathered one cannot store its reply: the tool
    results hold a [datetime], [json.dumps] rejects them, and the turn
    raises instead of returning. *)
Theorem process_message_never_suggests env message session_id uid
    max_iterations w b w' :
  process_message env message session_id uid max_iterations w = (Ok b, w') ->
  acr_suggestions b = None.
Proof.
  destruct (process_message_run env message session_id uid max_iterations w)
    as (session & w1 & history & ir & w2 & user & w3
        & _ & _ & _ & _ & _ & _ & Hrun).
  rewrite Hrun. clear Hrun. unfold finish_turn, bind.
  destruct (intent_branch env ir message history uid max_iterations w3)
    as [[t | e] w4] eqn:Hb; [| discriminate].
  apply intent_branch_unstorable in Hb.
  destruct (_save_message _ _ _ _ _ _ _ _ w4) as [[reply | e] w5] eqn:Hsave;
    [| discriminate].
  destruct (response t) as [text |]; [| discriminate].
  intros [= <- _]. simpl.
  destruct Hb as [-> | Hb]; [reflexivity |].
  exfalso. unfold _save_message, bind, ret, lift in Hsave.
  destruct (tool_results t) as [| r l] eqn:Hr; [discriminate |].
  change (nonempty_or_none (r :: l) ≫= nonempty_or_none)
    with (Some (r :: l)) in Hsave.
  cbv beta iota in Hsave. unfold dumps_tool_results in Hsave.
  unfold all_serializable in Hb. rewrite Hb in Hsave.
  discriminate.
Qed.

Lemma process_message_never_suggests_witness :
  exists b w',
    process_message (Demo.env (Ok []) Examples.llm_search_then_text)
      "headphones" None None 3 Demo.world
    = (Ok b, w')
    /\ acr_tool_calls_made b = Some ["search_products"]
    /\ acr_suggestions b = None.
Proof.
  assert (E : exists b w',
             process_message (Demo.env (Ok []) Examples.llm_search_then_text)
               "headphones" None None 3 Demo.world
             = (Ok b, w')
             /\ acr_tool_calls_made b = Some ["search_products"])
    by (eexists; eexists; split; vm_compute; reflexivity).
  destruct E as (b & w' & E & Hcalls).
  exists b, w'. split; [exact E |]. split; [exact Hcalls |].
  exact (process_message_never_suggests _ _ _ _ _ _ _ _ E).
Defined.

(** ** Turns without tools *)

Lemma classify_intent_down env message history w :
  provider_down env ->
  exists w',
    classify_intent env message history w = (Ok classification_fallback, w').
Proof.
  intros Hd. unfold classify_intent, try_except, bind, lift, ret, chat.
  match goal with |- context [chat_completions_create env ?n ?req] =>
    destruct (Hd n req) as [e ->] end.
  eexists. reflexivity.
Qed.

Lemma generate_response_down env message system_prompt history w :
  provider_down env ->
  exists w',
    generate_response env message system_prompt history None w
    = (Ok (Some generation_apology), w')
    /\ same_messages w w' /\ same_tool_log w w'.
Proof.
  intros Hd. unfold generate_response, try_except, bind, lift, ret, chat.
  match goal with |- context [chat_completions_create env ?n ?req] =>
    destruct (Hd n req) as [e ->] end.
  eexists. split; [reflexivity | repeat split].
Qed.

(** X18: when every request to the provider fails, [process_message]
    still returns a bundle: the fixed apology, intent [unknown], no
    entities, no suggestions, no tool calls and no follow-up questions.
    No tool is entered, and the user message and the apology are both
    stored. *)
Theorem process_message_provider_down env message session_id uid
    max_iterations w :
  provider_down env ->
  exists b w' user reply,
    process_message env message session_id uid max_iterations w = (Ok b, w')
    /\ acr_response b = generation_apology
    /\ acr_intent b = UNKNOWN
    /\ acr_entities b = ExtractedEntities_empty
    /\ acr_suggestions b = None /\ acr_tool_calls_made b = None
    /\ acr_follow_up_questions b = None
    /\ tool_log w' = tool_log w
    /\ messages w' = messages w ++ [user; reply]
    /\ msg_content user = message
    /\ msg_content reply = generation_apology.
Proof.
  intros Hd.
  destruct (process_message_run env message session_id uid max_iterations w)
    as (session & w1 & history & ir & w2 & user & w3
        & _ & _ & Hc & Hu & [Hm2 _] & Ht3 & Hrun).
  destruct (classify_intent_down env message history w1 Hd) as [w2' Hc'].
  rewrite Hc' in Hc. injection Hc as <- _.
  apply save_message_ok in Hu.
  destruct Hu as (Hm3 & _ & _ & [= Htext] & _ & _).
  destruct (generate_response_down env message (SYSTEM_PROMPT env) history
              w3 Hd) as (w4 & Hg & [Hm4 _] & Ht4).
  assert (Hs : exists reply w5,
             _save_message env (cs_id session) "assistant"
               (Some generation_apology) None None None None w4
             = (Ok reply, w5) /\ same_tool_log w4 w5)
    by (eexists _, _; split; reflexivity).
  destruct Hs as (reply & w5 & Hs & Ht5).
  exists (turn_bundle session classification_fallback
            (set_response Turn_initial (Some generation_apology))
            generation_apology), w5, user, reply.
  split.
  - rewrite Hrun. unfold finish_turn, intent_branch.
    change (icr_intent classification_fallback) with UNKNOWN.
    cbv beta iota.
    rewrite (bind_ok _ _ _ _ _
               (bind_ok _ (fun r => ret (set_response Turn_initial r)) _ _ _
                  Hg)).
    unfold ret at 1.
    change (response (set_response Turn_initial (Some generation_apology)))
      with (Some generation_apology).
    change (nonempty_or_none
              (tool_calls_made
                 (set_response Turn_initial (Some generation_apology))))
      with (@None (list string)).
    change (nonempty_or_none
              (tool_results
                 (set_response Turn_initial (Some generation_apology))))
      with (@None (list ToolResult)).
    rewrite (bind_ok _ _ _ _ _ Hs). reflexivity.
  - apply save_message_ok in Hs.
    destruct Hs as (Hm5 & _ & _ & [= Htext5] & _ & _).
    repeat (split; [reflexivity |]).
    split; [unfold same_tool_log in *; congruence |].
    split; [rewrite Hm5, Hm4, Hm3, Hm2, <- app_assoc; reflexivity |].
    split; congruence.
Qed.

Lemma process_message_provider_down_witness :
  exists b w',
    process_message (Demo.env (Ok []) Demo.llm_down) "where is my order 42?"
      None (Some 7) 3 Demo.world
    = (Ok b, w')
    /\ acr_response b = generation_apology
    /\ tool_log w' = [].
Proof.
  assert (Hd : provider_down (Demo.env (Ok []) Demo.llm_down))
    by (intros n req; eexists; reflexivity).
  destruct (process_message_provider_down (Demo.env (Ok []) Demo.llm_down)
              "where is my order 42?" None (Some 7) 3 Demo.world Hd)
    as (b & w' & user & reply & E & Hr & _ & _ & _ & _ & _ & Ht & _).
  exists b, w'. repeat split; assumption.
Defined.

(** X19: a turn that needs no tool is one plain reply. For an intent
    outside the product and order groups, for a product intent with
    [max_tool_iterations] at most 0, and for an order intent with neither
    an order id nor a user, the branch never raises, enters no tool, and
    its outcome is that of [generate_response] without tool results. *)
Theorem turn_without_tools env ir message history uid max_iterations w :
  answers_without_tools ir uid max_iterations = true ->
  exists r w',
    intent_branch env ir message history uid max_iterations w
    = (Ok (set_response Turn_initial r), w')
    /\ generate_response env message (SYSTEM_PROMPT env) history None w
       = (Ok r, w')
    /\ tool_log w' = tool_log w.
Proof.
  intros H.
  destruct (generate_response_no_context env message (SYSTEM_PROMPT env)
              history w) as (r & w' & Hsome & Hnone & Hlog).
  exists r, w'. split; [| split; assumption].
  unfold answers_without_tools in H. unfold intent_branch.
  destruct (icr_intent ir); simpl in H;
    try (rewrite (bind_ok _ _ _ _ _ Hnone); reflexivity).
  1-3: apply Z.leb_le in H;
    replace (Z.to_nat max_iterations) with O by lia;
    cbn [tool_loop]; unfold bind at 1, ret at 1;
    change (response_is_empty (response Turn_initial)) with true;
    cbv beta iota;
    change (accumulated_results Turn_initial)
      with (@nil (gmap string dval));
    rewrite (bind_ok _ _ _ _ _ Hsome); reflexivity.
  all: destruct (truthy_int (order_id (icr_entities ir)));
    [discriminate |];
    destruct (truthy_int uid); [discriminate |];
    unfold bind at 1, ret at 1;
    change (accumulated_results Turn_initial)
      with (@nil (gmap string dval));
    rewrite (bind_ok _ _ _ _ _ Hsome); reflexivity.
Qed.

Lemma turn_without_tools_witness :
  exists r w',
    intent_branch (Demo.env (Ok []) Demo.llm_down)
      {| icr_intent := PRODUCT_SEARCH; icr_confidence := 1;
         icr_entities := ExtractedEntities_empty;
         icr_requires_clarification := false;
         icr_clarification_question := None |}
      "headphones" [] None 0 Demo.world
    = (Ok (set_response Turn_initial r), w')
    /\ tool_log w' = [].
Proof.
  destruct (turn_without_tools (Demo.env (Ok []) Demo.llm_down)
              {| icr_intent := PRODUCT_SEARCH; icr_confidence := 1;
                 icr_entities := ExtractedEntities_empty;
                 icr_requires_clarification := false;
                 icr_clarification_question := None |}
              "headphones" [] None 0 Demo.world eq_refl)
    as (r & w' & E & _ & Ht).
  exists r, w'. split; assumption.
Defined.

(** ** A turn and the next history *)

Lemma chronological_same env w w' :
  same_messages w w' -> chronological env w -> chronological env w'.
Proof. unfold chronological. intros [-> ->]. exact id. Qed.

(** X20: with a clock whose readings strictly increase and a message
    table in chronological order, a turn that returns a bundle is
    remembered: the history read afterwards for the session of the
    bundle is what the session held before, followed by the user
    message and the reply of the bundle, cut to its most recent twenty
    entries. The table is in chronological order again. *)
Theorem turn_is_remembered env message session_id uid max_iterations w b w' :
  clock_strictly_increasing env ->
  chronological env w ->
  process_message env message session_id uid max_iterations w = (Ok b, w') ->
  chronological env w'
  /\ _get_conversation_history (acr_session_id b) 20 w'
     = (Ok (last_n 20
              (session_pairs (acr_session_id b) (messages w)
               ++ [("user", message); ("assistant", acr_response b)])),
        w').
Proof.
  intros Hclock Hw.
  destruct (process_message_run env message session_id uid max_iterations w)
    as (session & w1 & history & ir & w2 & user & w3
        & _ & _ & _ & Hu & Hm2 & _ & Hrun).
  rewrite Hrun. clear Hrun. unfold finish_turn, bind.
  assert (Hw2 : chronological env w2)
    by (eapply chronological_same; eassumption).
  apply save_message_ok in Hu.
  destruct Hu as (Hm3 & Hsid & Hrole & [= Htext] & Hat & Hc3).
  assert (Hw3 : chronological env w3)
    by (eapply chronological_after_save; eassumption).
  pose proof (intent_branch_same_messages env ir message history uid
                max_iterations w3) as Hb.
  unfold final in Hb.
  destruct (intent_branch env ir message history uid max_iterations w3)
    as [[t | e] w4]; [| discriminate]. simpl in Hb.
  assert (Hw4 : chronological env w4)
    by (eapply chronological_same; eassumption).
  destruct (_save_message _ _ _ _ _ _ _ _ w4) as [[reply | e] w5] eqn:Hsave;
    [| discriminate].
  apply save_message_ok in Hsave.
  destruct Hsave as (Hm5 & Hsid5 & Hrole5 & Htext5 & Hat5 & Hc5).
  assert (Hw5 : chronological env w5)
    by (eapply chronological_after_save; eassumption).
  destruct (response t) as [text |]; [| discriminate].
  injection Htext5 as Htext5.
  intros [= <- <-]. split; [exact Hw5 |]. simpl.
  destruct Hw5 as [Hsorted _].
  unfold _get_conversation_history.
  rewrite order_by_created_at_desc_sorted
    by now apply StronglySorted_filter.
  rewrite firstn_rev, rev_involutive.
  change (skipn (length ?l - 20) ?l) with (last_n 20 l).
  rewrite <- last_n_map. f_equal. f_equal.
  destruct Hb as [Hb _]. destruct Hm2 as [Hm2 _].
  change (map (fun m => (msg_role m, msg_content m))
            (List.filter
               (fun m => String.eqb (msg_session_id m) (cs_id session))
               (messages w5)))
    with (session_pairs (cs_id session) (messages w5)).
  rewrite Hm5, Hb, Hm3, Hm2, <- app_assoc, session_pairs_app.
  f_equal. unfold session_pairs. simpl.
  rewrite Hsid, Hsid5, String.eqb_refl. simpl.
  rewrite Hrole, Hrole5, <- Htext, <- Htext5. reflexivity.
Qed.

Lemma turn_is_remembered_witness :
  exists b w',
    process_message (Demo.env (Ok []) Demo.llm_down) "hello" None None 3
      Demo.world
    = (Ok b, w')
    /\ _get_conversation_history (acr_session_id b) 20 w'
       = (Ok [("user", "hello"); ("assistant", generation_apology)], w').
Proof.
  assert (E : exists b w',
             process_message (Demo.env (Ok []) Demo.llm_down) "hello" None
               None 3 Demo.world
             = (Ok b, w')
             /\ acr_response b = generation_apology)
    by (eexists; eexists; split; vm_compute; reflexivity).
  destruct E as (b & w' & E & Hr).
  assert (Hclock : clock_strictly_increasing (Demo.env (Ok []) Demo.llm_down))
    by (intros i j Hij; simpl; lia).
  assert (Hw : chronological (Demo.env (Ok []) Demo.llm_down) Demo.world)
    by (split; constructor).
  destruct (turn_is_remembered _ _ _ _ _ _ _ _ Hclock Hw E) as [_ Hh].
  exists b, w'. split; [exact E |].
  rewrite Hh, Hr. reflexivity.
Defined.

(** ** Requests of a turn *)

Lemma generate_response_requests env message system_prompt history results w :
  let w' :=
    final (generate_response env message system_prompt history results) w in
  (length (llm_log w) <= length (llm_log w') <= S (length (llm_log w)))%nat.
Proof.
  unfold final, generate_response, try_except, bind, lift, ret, chat.
  destruct results as [[| r rs] |]; simpl;
    try destruct (render_tool_context _ _ _); simpl;
    try (destruct (chat_completions_create _ _ _) as [response | e]; simpl;
         [destruct (first_choice response) |]; simpl);
    lia.
Qed.

Lemma tool_loop_requests env n message history uid t w :
  let w' := final (tool_loop env n message history uid t) w in
  (length (llm_log w) <= length (llm_log w') <= length (llm_log w) + n)%nat.
Proof.
  revert t w. induction n as [| n IH]; intros t w.
  - unfold final. cbn [tool_loop snd ret]. lia.
  - unfold final in *. cbn [tool_loop]. unfold bind, ret.
    destruct (call_with_tools_returns env message (SYSTEM_PROMPT env)
                (context_history env history t) w)
      as (r & w1 & E & Hr).
    unfold context_history in E. rewrite E.
    assert (H1 : length (llm_log w1) = S (length (llm_log w)))
      by now rewrite Hr.
    destruct (tool_calls r) as [[| c cs] |].
    + destruct (String.eqb (content r) EmptyString); simpl; lia.
    + pose proof (same_llm_log_run_tool_calls env (c :: cs) uid t w1) as Hrun.
      unfold final, same_llm_log in Hrun.
      destruct (run_tool_calls env (c :: cs) uid t w1) as [[t1 | e] w2];
        simpl in Hrun |- *.
      * specialize (IH t1 w2). simpl in IH. rewrite Hrun in IH. lia.
      * rewrite Hrun. lia.
    + destruct (String.eqb (content r) EmptyString); simpl; lia.
Qed.

Lemma plain_reply_requests env message history o (k : option string -> Turn)
    w :
  exists res w',
    (let* r :=
       generate_response env message (SYSTEM_PROMPT env) history o in
     ret (k r)) w = (res, w')
    /\ (length (llm_log w) <= length (llm_log w') <= S (length (llm_log w)))%nat
    /\ tool_rounds w' = tool_rounds w.
Proof.
  pose proof (generate_response_requests env message (SYSTEM_PROMPT env)
                history o w) as Hq.
  pose proof (generate_response_rounds env message (SYSTEM_PROMPT env)
                history o w) as Hr.
  unfold final, bind, ret in *.
  destruct (generate_response _ _ _ _ _ w) as [[r | e] w1];
    simpl in *; eexists _, _; split; try reflexivity; auto.
Qed.

Lemma intent_branch_requests env ir message history uid max_iterations w :
  exists res w',
    intent_branch env ir message history uid max_iterations w = (res, w')
    /\ (length (llm_log w) <= length (llm_log w')
        <= length (llm_log w) + 1 + Z.to_nat max_iterations)%nat
    /\ (tool_rounds w' <= tool_rounds w + Z.to_nat max_iterations)%nat.
Proof.
  destruct (is_product_intent (icr_intent ir)) eqn:Hp.
  - pose proof (product_branch_rounds_bounded env ir message history uid
                  max_iterations w Hp) as Hrounds.
    unfold final in Hrounds.
    destruct (intent_branch env ir message history uid max_iterations w)
      as [res w'] eqn:Hb.
    exists res, w'. split; [reflexivity |]. split; [| exact Hrounds].
    clear Hrounds. unfold intent_branch in Hb.
    pose proof (tool_loop_requests env (Z.to_nat max_iterations) message
                  history uid Turn_initial w) as Hloop.
    unfold final in Hloop.
    destruct (icr_intent ir); try discriminate;
      unfold bind at 1 in Hb;
      destruct (tool_loop env _ _ _ _ _ w) as [[t | e] w1]; simpl in Hloop;
      try (injection Hb as _ <-; lia);
      (destruct (response_is_empty (response t));
       [ destruct (plain_reply_requests env message history
                     (Some (accumulated_results t)) (set_response t) w1)
           as (res1 & w2 & E & Hq & _);
         rewrite E in Hb; injection Hb as _ <-; lia
       | injection Hb as _ <-; lia ]).
  - unfold intent_branch.
    destruct (icr_intent ir); try discriminate;
      try (destruct (plain_reply_requests env message history None
                       (set_response Turn_initial) w)
             as (res & w2 & E & Hq & Hr);
           exists res, w2; split; [exact E | lia]).
    all: unfold bind at 1;
      destruct (truthy_int (order_id (icr_entities ir))) as [oid |];
        [| destruct (truthy_int uid)];
      unfold bind at 1, ret at 1;
      try match goal with
        | |- context [execute_tool ?e ?name ?args ?u ?w0] =>
            pose proof (same_llm_log_execute_tool e name args u w0) as Ht;
            unfold final, same_llm_log in Ht;
            destruct (execute_tool e name args u w0) as [[r0 | e0] w0'];
            simpl in Ht
        end;
      try (eexists _, _; split; [reflexivity |];
           unfold tool_rounds; rewrite ?Ht; lia);
      match goal with
      | |- context [generate_response ?e ?m _ ?h ?o ?w0] =>
          match goal with
          | |- context [set_response ?t _] =>
              destruct (plain_reply_requests e m h o (set_response t) w0)
                as (res & w2 & E & Hq & Hr)
          end
      end;
      exists res, w2; (split; [exact E |]);
      unfold tool_rounds in *; rewrite ?Ht in *; lia.
Qed.

Lemma session_same_llm_log env session_id uid w s w' :
  _get_or_create_session env session_id uid w = (Ok s, w') ->
  llm_log w' = llm_log w.
Proof.
  unfold _get_or_create_session.
  match goal with |- context [match ?found with Some _ => _ | None => _ end] =>
    destruct found end; now intros [= _ <-].
Qed.

Lemma classify_intent_request env message history w r w' :
  classify_intent env message history w = (r, w') ->
  llm_log w' = classification_request env message history :: llm_log w.
Proof.
  unfold classify_intent, try_except, bind, lift, ret, chat.
  destruct (chat_completions_create _ _ _) as [response | e]; simpl;
    [destruct (parse_classification env response) |];
    now intros [= _ <-].
Qed.

Lemma save_message_same_llm_log env sid role text intent entities calls
    results w r w' :
  _save_message env sid role text intent entities calls results w = (r, w') ->
  llm_log w' = llm_log w.
Proof.
  unfold _save_message, bind, ret, lift, raise.
  destruct (results ≫= nonempty_or_none) as [l |];
    [destruct (dumps_tool_results l) |]; destruct text;
    now intros [= _ <-].
Qed.

(** X21: a turn of [process_message] makes at least one and at most
    [max_tool_iterations] + 2 requests to the provider (a negative
    [max_tool_iterations] counts as 0), whatever the provider answers
    and whether the turn returns or raises: one classification, at most
    [max_tool_iterations] rounds with tools, and at most one reply
    without tools. *)
Theorem turn_requests_bounded env message session_id uid max_iterations w :
  exists res w',
    process_message env message session_id uid max_iterations w = (res, w')
    /\ (length (llm_log w) + 1 <= length (llm_log w')
        <= length (llm_log w) + 2 + Z.to_nat max_iterations)%nat
    /\ (tool_rounds w' <= tool_rounds w + Z.to_nat max_iterations)%nat.
Proof.
  destruct (process_message_run env message session_id uid max_iterations w)
    as (session & w1 & history & ir & w2 & user & w3
        & Hs & _ & Hc & Hu & _ & _ & Hrun).
  rewrite Hrun. clear Hrun.
  apply session_same_llm_log in Hs.
  apply classify_intent_request in Hc.
  apply save_message_same_llm_log in Hu.
  assert (H3 : llm_log w3
               = classification_request env message history :: llm_log w)
    by congruence.
  assert (Hl3 : length (llm_log w3) = S (length (llm_log w)))
    by now rewrite H3.
  assert (Hr3 : tool_rounds w3 = tool_rounds w)
    by (unfold tool_rounds; now rewrite H3).
  destruct (intent_branch_requests env ir message history uid max_iterations
              w3) as (res & w4 & Hb & Hq & Hr).
  unfold finish_turn, bind. rewrite Hb.
  destruct res as [t | e].
  - destruct (_save_message _ _ _ _ _ _ _ _ w4) as [[reply | e] w5] eqn:Hsave;
      apply save_message_same_llm_log in Hsave;
      [destruct (response t) |];
      eexists _, _; (split; [reflexivity |]);
      unfold tool_rounds in *; rewrite Hsave; lia.
  - eexists _, _. split; [reflexivity |]. lia.
Qed.

(** ** Default recommendations *)

(** X22: [get_recommendations] without a product id, preferences or a
    category (absent, or falsy such as 0 or the empty string) never
    queries the index and ignores [limit]: it succeeds with the first
    five active products of the catalog, fewer when there are fewer, in
    catalog order, each with similarity 1. *)
Theorem recommendations_default env args uid w :
  truthy (arg args "product_id") = false ->
  truthy (arg args "preferences") = false ->
  truthy (arg args "category") = false ->
  execute_tool env "get_recommendations" args uid w
  = (Ok {| tr_call_id := call_id_in env w;
           tr_tool_name := "get_recommendations";
           tr_result :=
             PProducts
               (map (fun p => (ProductResponse_model_validate p, 1%Q))
                  (firstn 5 (List.filter p_is_active (products w))));
           tr_success := true; tr_error_message := None |},
     tool_entry "get_recommendations" args w).
Proof.
  intros Hid Hpref Hcat. rewrite execute_tool_unfold.
  unfold execute_tool_body.
  cbv beta iota delta [String.eqb Ascii.eqb Bool.eqb].
  rewrite Hid, Hpref, Hcat. unfold bind at 1.
  change (false || false) with false. cbv beta iota.
  change (products (tool_entry "get_recommendations" args w))
    with (products w).
  rewrite default_recommendations_eq.
  unfold result_bind, ret. cbv beta iota. rewrite map_map. reflexivity.
Qed.

Lemma recommendations_default_witness :
  execute_tool (Demo.env (Raise "index unreachable") Demo.llm_down)
    "get_recommendations"
    {[ "limit" := VInt 1; "category" := VStr EmptyString ]} None Demo.world
  = (Ok {| tr_call_id := "123e4567";
           tr_tool_name := "get_recommendations";
           tr_result :=
             PProducts
               [(ProductResponse_model_validate Demo.headphones, 1%Q);
                (ProductResponse_model_validate Demo.speaker, 1%Q)];
           tr_success := true; tr_error_message := None |},
     tool_entry "get_recommendations"
       {[ "limit" := VInt 1; "category" := VStr EmptyString ]} Demo.world).
Proof.
  exact (recommendations_default
           (Demo.env (Raise "index unreachable") Demo.llm_down)
           {[ "limit" := VInt 1; "category" := VStr EmptyString ]} None
           Demo.world eq_refl eq_refl eq_refl).
Defined.
